(** * YouTrack to Azure DevOps Boards migrator: model and properties

    A shallow embedding of [migrator.py].  The class [Migrator] talks to
    two HTTP services through the [requests] library; the embedding keeps
    every request the code sends in a chronological trace and lets an
    oracle, which sees the trace so far, decide every answer.  Python
    exceptions are an explicit error type; values decoded from JSON are
    the inductive type [pyval].

    Conventions.
    - Text is [string]; numbers decoded from JSON are integers ([Z]),
      which is what both services send for time stamps and identifiers.
    - [requests.get], [requests.post] and [requests.patch] are the
      primitive [http] of the monad [M]; a response is the JSON document
      its body holds, or nothing when the body is not JSON.
    - Library functions the code calls ([str.replace], [str.split],
      [base64.b64decode], [datetime.utcfromtimestamp], [isoformat]) are
      written out for the arguments the code gives them. *)

From Stdlib Require Import ZArith List String Ascii Bool Lia.
Import ListNotations.

Set Warnings "-register-all".

Local Open Scope string_scope.
Local Open Scope list_scope.

(** Concatenation of text is written [+++]; [++] is kept for lists. *)
Infix "+++" := String.append (at level 60, right associativity).

(** ** Python values and exceptions *)

(** A value as [Response.json()] builds it. *)
Inductive pyval : Type :=
| PNone
| PBool (b : bool)
| PInt (z : Z)
| PStr (s : string)
| PList (l : list pyval)
| PDict (d : list (string * pyval)).

(** The exception classes the code can meet.  [JSONDecodeError] is the
    one [migrate_project] catches; [ValueError] stands for its other
    subclasses ([binascii.Error], a year that [datetime] does not
    represent); [OSError] and [OverflowError] are what
    [utcfromtimestamp] raises for an instant the C library cannot
    convert; [OtherError] is any exception of the transport or of the
    caller's field handler. *)
Inductive exn : Type :=
| KeyError
| TypeError
| IndexError
| AttributeError
| ValueError
| OSError
| OverflowError
| UnicodeEncodeError
| JSONDecodeError
| RuntimeError (msg : string)
| OtherError (tag : string).

Inductive result (A : Type) : Type :=
| Ok (a : A)
| Err (e : exn).
Arguments Ok {A} a.
Arguments Err {A} e.

Definition rbind {A B} (r : result A) (k : A -> result B) : result B :=
  match r with
  | Ok a => k a
  | Err e => Err e
  end.

Declare Scope result_scope.
Delimit Scope result_scope with result.
Notation "'let?' x ':=' r 'in' k" := (rbind r (fun x => k))
  (at level 10, x pattern, r at level 100, k at level 200) : result_scope.

(** [except json.decoder.JSONDecodeError] *)
Definition is_decode_error (e : exn) : bool :=
  match e with
  | JSONDecodeError => true
  | _ => false
  end.

(** ** Strings *)

Definition newline : ascii := "010"%char.
Definition comma : ascii := ","%char.
Definition nl : string := String newline "".

Fixpoint no_char (c : ascii) (s : string) : bool :=
  match s with
  | "" => true
  | String a s' => negb (Ascii.eqb a c) && no_char c s'
  end.

(** [needle in haystack] on strings. *)
Fixpoint substringb (needle hay : string) : bool :=
  String.prefix needle hay ||
  match hay with
  | "" => false
  | String _ hay' => substringb needle hay'
  end.

(** [s.replace(old, new)] for a non-empty [old]: the occurrences of
    [old] are taken leftmost first and do not overlap.  [skip] counts the
    characters of the occurrence just replaced that are still to be
    passed over. *)
Fixpoint replace_from (old new : string) (skip : nat) (s : string) : string :=
  match s with
  | "" => ""
  | String c s' =>
      match skip with
      | S k => replace_from old new k s'
      | O =>
          if String.prefix old s
          then new +++ replace_from old new (String.length old - 1) s'
          else String c (replace_from old new 0 s')
      end
  end.

Definition py_replace (s old new : string) : string :=
  replace_from old new 0 s.

(** [s[n:]] *)
Fixpoint string_drop (n : nat) (s : string) : string :=
  match n, s with
  | S k, String _ s' => string_drop k s'
  | _, _ => s
  end.

(** Every newline gets [marker] before it, as lines 94 and 139 do; and
    the way back, every [marker] with its newline becomes a newline. *)
Definition mark (marker s : string) : string :=
  py_replace s nl (marker +++ nl).

Definition unmark (marker s : string) : string :=
  py_replace s (marker +++ nl) nl.

(** The text [s] with every newline replaced by [marker]: the explicit
    line-break marker of the specification, written character by
    character and apart from [py_replace]. *)
Fixpoint break_lines (marker s : string) : string :=
  match s with
  | "" => ""
  | String c s' =>
      if Ascii.eqb c newline then marker +++ break_lines marker s'
      else String c (break_lines marker s')
  end.

(** What is claimed of one text, for the marker [marker] that stands
    for a newline: [text] is [header], a blank line and [body] with
    every newline replaced by the marker; it holds link, login and body
    with their newlines replaced, and the date; it holds link and login
    as they are when they are one line each, and then begins with the
    header; replacing the markers back by newlines gives header, blank
    line and body, and dropping the header and the blank line gives
    [body]. *)
Definition provenance (marker header link login created body text : string)
  : Prop :=
  text = break_lines marker (header +++ nl +++ nl +++ body)
  /\ text = break_lines marker header +++ marker +++ marker
            +++ break_lines marker body
  /\ substringb (break_lines marker link) text = true
  /\ substringb (break_lines marker login) text = true
  /\ substringb created text = true
  /\ substringb (break_lines marker body) text = true
  /\ (no_char newline link = true -> substringb link text = true)
  /\ (no_char newline login = true -> substringb login text = true)
  /\ (no_char newline link = true -> no_char newline login = true ->
      String.prefix header text = true)
  /\ py_replace text marker nl = header +++ nl +++ nl +++ body
  /\ string_drop (String.length header + 2) (py_replace text marker nl) = body.

(** [s.split(sep)] for a separator of one character. *)
Fixpoint py_split (sep : ascii) (s : string) : list string :=
  match s with
  | "" => [""]
  | String c s' =>
      if Ascii.eqb c sep then "" :: py_split sep s'
      else match py_split sep s' with
           | field :: rest => String c field :: rest
           | [] => [String c ""]
           end
  end.

(** The text after the first [sep], and the text up to the first [sep]
    (all of it when there is none): the words in which the payload of an
    attachment is described. *)
Fixpoint after_first (sep : ascii) (s : string) : string :=
  match s with
  | "" => ""
  | String c s' => if Ascii.eqb c sep then s' else after_first sep s'
  end.

Fixpoint up_to (sep : ascii) (s : string) : string :=
  match s with
  | "" => ""
  | String c s' => if Ascii.eqb c sep then "" else String c (up_to sep s')
  end.

(** [l[i]] on a list. *)
Definition py_index {A} (l : list A) (i : nat) : result A :=
  match nth_error l i with
  | Some a => Ok a
  | None => Err IndexError
  end.

(** ** Decimal rendering *)

Definition digit (d : Z) : ascii :=
  match (d mod 10)%Z with
  | 0%Z => "0" | 1%Z => "1" | 2%Z => "2" | 3%Z => "3" | 4%Z => "4"
  | 5%Z => "5" | 6%Z => "6" | 7%Z => "7" | 8%Z => "8" | _ => "9"
  end%char.

Fixpoint pos_digits (fuel : nat) (z : Z) (acc : string) : string :=
  match fuel with
  | O => acc
  | S f =>
      let acc' := String (digit z) acc in
      if (z <? 10)%Z then acc' else pos_digits f (z / 10)%Z acc'
  end.

(** [str(z)] for an integer. *)
Definition str_of_Z (z : Z) : string :=
  if (z <? 0)%Z
  then String "-" (pos_digits (S (Z.to_nat (Z.log2 (- z)))) (- z) "")
  else pos_digits (S (Z.to_nat (Z.log2 z))) z "".

Definition str_of_nat (n : nat) : string := str_of_Z (Z.of_nat n).

(** [%02d] and [%04d] for a number that fits. *)
Definition pad2 (z : Z) : string :=
  String (digit (z / 10)) (String (digit z) "").

Definition pad4 (z : Z) : string :=
  String (digit (z / 1000)) (String (digit (z / 100)) (pad2 z)).

(** ** Dates: [datetime.utcfromtimestamp(t).isoformat()]

    The proleptic Gregorian calendar of [datetime], without leap
    seconds.  Day 1 is 0001-01-01; 1970-01-01 is day 719163. *)

Definition DI400Y : Z := 146097.
Definition DI100Y : Z := 36524.
Definition DI4Y : Z := 1461.

Definition days_before_month (month : Z) : Z :=
  match month with
  | 1 => 0 | 2 => 31 | 3 => 59 | 4 => 90 | 5 => 120 | 6 => 151
  | 7 => 181 | 8 => 212 | 9 => 243 | 10 => 273 | 11 => 304 | _ => 334
  end%Z.

Definition days_in_month (month : Z) : Z :=
  match month with
  | 2 => 28
  | 4 | 6 | 9 | 11 => 30
  | _ => 31
  end%Z.

Definition Z_of_bool (b : bool) : Z := if b then 1%Z else 0%Z.

(** [_ord2ymd]: ordinal of a day to (year, month, day). *)
Definition ord2ymd (ordinal : Z) : Z * Z * Z :=
  (let n := ordinal - 1 in
   let n400 := n / DI400Y in
   let n := n mod DI400Y in
   let n100 := n / DI100Y in
   let n := n mod DI100Y in
   let n4 := n / DI4Y in
   let n := n mod DI4Y in
   let n1 := n / 365 in
   let n := n mod 365 in
   let year := n400 * 400 + 1 + n100 * 100 + n4 * 4 + n1 in
   if (n1 =? 4) || (n100 =? 4) then (year - 1, 12, 31)
   else
     let leapyear := (n1 =? 3) && (negb (n4 =? 24) || (n100 =? 3)) in
     let month := Z.shiftr (n + 50) 5 in
     let preceding :=
       days_before_month month + Z_of_bool ((2 <? month) && leapyear) in
     if n <? preceding
     then
       let month := month - 1 in
       let preceding :=
         preceding - (days_in_month month
                      + Z_of_bool ((month =? 2) && leapyear)) in
       (year, month, n - preceding + 1)
     else (year, month, n - preceding + 1))%Z.

(** The instants [gmtime] converts where [time_t] has 64 bits and the
    year of [struct tm] is a 32-bit [int] counted from 1900 (Linux with
    glibc): from the first second of the year -2147481748 to the last
    second of the year 2147485547. *)
Definition gmtime_min : Z := -67768040609740800.
Definition gmtime_max : Z := 67768036191676799.

(** The ISO 8601 text of the instant [secs] seconds after the epoch, in
    UTC.  [utcfromtimestamp] raises [OverflowError] for a number that is
    no [time_t], [OSError] when [gmtime] fails, and [ValueError] for a
    year outside 1 to 9999, the years [datetime] represents. *)
Definition utc_isoformat (secs : Z) : result string :=
  (let ordinal := secs / 86400 + 719163 in
   let sod := secs mod 86400 in
   if (secs <? - 2 ^ 63) || (2 ^ 63 <=? secs) then Err OverflowError
   else if (secs <? gmtime_min) || (gmtime_max <? secs) then Err OSError
   else if (ordinal <? 1) || (3652059 <? ordinal) then Err ValueError
   else
     let '(y, m, d) := ord2ymd ordinal in
     Ok (pad4 y +++ "-" +++ pad2 m +++ "-" +++ pad2 d +++ "T"
         +++ pad2 (sod / 3600) +++ ":" +++ pad2 (sod mod 3600 / 60) +++ ":"
         +++ pad2 (sod mod 60)))%Z.

(** ** Base64 *)

Definition b64_alphabet : string :=
  "ABCDEFGHIJKLMNOPQRSTUVWXYZabcdefghijklmnopqrstuvwxyz0123456789+/".

Fixpoint index_of (c : ascii) (s : string) : option Z :=
  match s with
  | "" => None
  | String a s' =>
      if Ascii.eqb a c then Some 0%Z
      else option_map Z.succ (index_of c s')
  end.

Definition is_ascii (c : ascii) : bool := (N_of_ascii c <? 128)%N.

Fixpoint all_ascii (s : string) : bool :=
  match s with
  | "" => true
  | String c s' => is_ascii c && all_ascii s'
  end.

Definition byte_of_Z (z : Z) : Byte.byte :=
  byte_of_ascii (ascii_of_N (Z.to_N (z mod 256))).

(** [binascii.a2b_base64] without strict mode: characters outside the
    alphabet are passed over; a pad that completes a group of four ends
    the decoding; a group left open at the end is an error. *)
Fixpoint a2b_base64 (s : string) (quad_pos leftchar pads : Z)
  : result (list Byte.byte) :=
  match s with
  | "" => if (quad_pos =? 0)%Z then Ok [] else Err ValueError
  | String c s' =>
      if Ascii.eqb c "=" then
        if (2 <=? quad_pos)%Z then
          if (4 <=? quad_pos + (pads + 1))%Z then Ok []
          else a2b_base64 s' quad_pos leftchar (pads + 1)%Z
        else a2b_base64 s' quad_pos leftchar pads
      else
        match index_of c b64_alphabet with
        | None => a2b_base64 s' quad_pos leftchar pads
        | Some v =>
            match quad_pos with
            | 0%Z => a2b_base64 s' 1%Z v 0%Z
            | 1%Z =>
                let? out := a2b_base64 s' 2%Z (Z.land v 15) 0%Z in
                Ok (byte_of_Z (Z.lor (Z.shiftl leftchar 2) (Z.shiftr v 4)) :: out)
            | 2%Z =>
                let? out := a2b_base64 s' 3%Z (Z.land v 3) 0%Z in
                Ok (byte_of_Z (Z.lor (Z.shiftl leftchar 4) (Z.shiftr v 2)) :: out)
            | _ =>
                let? out := a2b_base64 s' 0%Z 0%Z 0%Z in
                Ok (byte_of_Z (Z.lor (Z.shiftl leftchar 6) v) :: out)
            end
        end
  end%result.

(** [base64.b64decode(s)] for a [str] argument. *)
Definition b64decode (s : string) : result (list Byte.byte) :=
  if all_ascii s then a2b_base64 s 0 0 0 else Err ValueError.

Fixpoint b64encode_bytes (l : list Z) : string :=
  let ch (i : Z) : ascii :=
    match String.get (Z.to_nat i) b64_alphabet with
    | Some c => c
    | None => "="%char
    end in
  match l with
  | [] => ""
  | [a] =>
      String (ch (Z.shiftr a 2))
        (String (ch (Z.shiftl (Z.land a 3) 4)) "==")
  | [a; b] =>
      String (ch (Z.shiftr a 2))
        (String (ch (Z.lor (Z.shiftl (Z.land a 3) 4) (Z.shiftr b 4)))
           (String (ch (Z.shiftl (Z.land b 15) 2)) "="))
  | a :: b :: c :: rest =>
      String (ch (Z.shiftr a 2))
        (String (ch (Z.lor (Z.shiftl (Z.land a 3) 4) (Z.shiftr b 4)))
           (String (ch (Z.lor (Z.shiftl (Z.land b 15) 2) (Z.shiftr c 6)))
              (String (ch (Z.land c 63)) (b64encode_bytes rest))))
  end.

(** [base64.b64encode(s.encode("ascii")).decode("ascii")] *)
Definition b64encode_ascii (s : string) : result string :=
  if all_ascii s
  then Ok (b64encode_bytes
             (map (fun c => Z.of_N (N_of_ascii c)) (list_ascii_of_string s)))
  else Err UnicodeEncodeError.

(** ** Operations on Python values *)

Fixpoint assoc {A} (key : string) (d : list (string * A)) : option A :=
  match d with
  | [] => None
  | (k, v) :: d' => if String.eqb k key then Some v else assoc key d'
  end.

(** [v[key]] for a string [key]: only a dict can be subscripted by a
    string. *)
Definition py_getitem (v : pyval) (key : string) : result pyval :=
  match v with
  | PDict d =>
      match assoc key d with
      | Some x => Ok x
      | None => Err KeyError
      end
  | _ => Err TypeError
  end.

Fixpoint chars_of (s : string) : list pyval :=
  match s with
  | "" => []
  | String c s' => PStr (String c "") :: chars_of s'
  end.

(** What [for x in v] goes through. *)
Definition py_iter (v : pyval) : result (list pyval) :=
  match v with
  | PList l => Ok l
  | PDict d => Ok (map (fun kv => PStr (fst kv)) d)
  | PStr s => Ok (chars_of s)
  | _ => Err TypeError
  end.

Definition is_str (key : string) (v : pyval) : bool :=
  match v with
  | PStr s => String.eqb s key
  | _ => false
  end.

(** What [for x in v[key]] goes through. *)
Definition items_of (v : pyval) (key : string) : result (list pyval) :=
  (let? items := py_getitem v key in py_iter items)%result.

(** [key in v] for a string [key]. *)
Definition py_contains (key : string) (v : pyval) : result bool :=
  match v with
  | PDict d =>
      Ok (match assoc key d with Some _ => true | None => false end)
  | PList l => Ok (existsb (is_str key) l)
  | PStr s => Ok (substringb key s)
  | _ => Err TypeError
  end.

(** [timestamp // 1000] *)
Definition py_floordiv_1000 (v : pyval) : result Z :=
  match v with
  | PInt z => Ok (z / 1000)%Z
  | PBool b => Ok (Z_of_bool b / 1000)%Z
  | _ => Err TypeError
  end.

(** Keys of the dict [_build_custom_field_dict] makes. *)
Definition py_hashable (v : pyval) : bool :=
  match v with
  | PList _ | PDict _ => false
  | _ => true
  end.

Definition key_eqb (a b : pyval) : bool :=
  match a, b with
  | PNone, PNone => true
  | PStr s, PStr t => String.eqb s t
  | PInt x, PInt y => Z.eqb x y
  | PBool x, PBool y => Bool.eqb x y
  | PInt x, PBool y | PBool y, PInt x => Z.eqb x (Z_of_bool y)
  | _, _ => false
  end.

(** [d[k] = v]: a key already there keeps its place. *)
Fixpoint dict_set (k v : pyval) (d : list (pyval * pyval))
  : list (pyval * pyval) :=
  match d with
  | [] => [(k, v)]
  | (k', v') :: d' =>
      if key_eqb k' k then (k', v) :: d' else (k', v') :: dict_set k v d'
  end.

(** ** The data of the program *)

Record SetFieldOperation : Type := {
  ado_field : string;
  yt_field : pyval;
  set_after_creation : bool
}.

Definition CustomFieldHandler : Type :=
  list (pyval * pyval) -> result (list SetFieldOperation).

Record Migrator : Type := {
  yt_base : string;
  ado_base : string;
  auth_header_azdo : string;
  auth_header_youtrack : option string
}.

Inductive http_method : Type := GET | POST | PATCH.

Inductive payload : Type :=
| NoBody
| JsonBody (j : pyval)
| DataBody (data : list Byte.byte).

Record request : Type := {
  req_method : http_method;
  req_url : string;
  req_headers : list (string * string);
  req_verify : bool;
  req_body : payload
}.

(** What the program does to the world, in the order it does it. *)
Inductive event : Type :=
| EvHttp (r : request)
| EvLog (msg : string)
| EvSleep (secs : Z).

(** What a request comes back with: an exception of the transport, or a
    response whose body is a JSON document or is not. *)
Inductive reply : Type :=
| Raises (e : exn)
| Responds (json : option pyval).

Definition oracle : Type := list event -> request -> reply.

(** ** Construction of a [Migrator] *)

Definition _authorization_header_azdo (pat : string) : result string :=
  (let? enc := b64encode_ascii (":" +++ pat) in Ok ("Basic " +++ enc))%result.

Definition _authorization_header_youtrack (token : string) : string :=
  "Bearer " +++ token.

Definition Migrator_init (token_azdo yt_base ado_organization ado_project : string)
    (token_youtrack : option string) : result Migrator :=
  (let? azdo := _authorization_header_azdo token_azdo in
   Ok {| yt_base := yt_base;
         ado_base := ado_organization +++ "/" +++ ado_project +++ "/_apis/wit";
         auth_header_azdo := azdo;
         auth_header_youtrack :=
           match token_youtrack with
           | Some token =>
               if negb (String.eqb token "")
               then Some (_authorization_header_youtrack token)
               else None
           | None => None
           end |})%result.

Definition _set_field (ado_field : string) (yt_field : pyval) : pyval :=
  PDict [("op", PStr "add");
         ("path", PStr ("/fields/" +++ ado_field));
         ("from", PNone);
         ("value", yt_field)].

Definition _format_yt_timestamp (timestamp : pyval) : result string :=
  (let? secs := py_floordiv_1000 timestamp in utc_isoformat secs)%result.

(** [{v["name"]: v["value"] for v in yt_data["customFields"]}] *)
Fixpoint build_dict (items : list pyval) (acc : list (pyval * pyval))
  : result (list (pyval * pyval)) :=
  match items with
  | [] => Ok acc
  | v :: items' =>
      (let? name := py_getitem v "name" in
       let? value := py_getitem v "value" in
       if py_hashable name then build_dict items' (dict_set name value acc)
       else Err TypeError)%result
  end.

Definition _build_custom_field_dict (yt_data : pyval)
  : result (list (pyval * pyval)) :=
  (let? items := items_of yt_data "customFields" in
   build_dict items [])%result.

(** ** The monad of the program: a trace of events and exceptions *)

Definition M (A : Type) : Type := list event -> result A * list event.

Definition ret {A} (a : A) : M A := fun tr => (Ok a, tr).

Definition raise {A} (e : exn) : M A := fun tr => (Err e, tr).

Definition bind {A B} (c : M A) (k : A -> M B) : M B :=
  fun tr =>
    match c tr with
    | (Ok a, tr') => k a tr'
    | (Err e, tr') => (Err e, tr')
    end.

Definition lift {A} (r : result A) : M A := fun tr => (r, tr).

Definition emit (ev : event) : M unit := fun tr => (Ok tt, tr ++ [ev]).

Declare Scope monad_scope.
Delimit Scope monad_scope with monad.
Notation "x <- c ;; k" := (bind c (fun x => k))
  (at level 61, c at next level, right associativity) : monad_scope.
Local Open Scope monad_scope.

Fixpoint for_each {A} (body : A -> M unit) (l : list A) : M unit :=
  match l with
  | [] => ret tt
  | a :: l' => _ <- body a ;; for_each body l'
  end.

(** [Response.json()] *)
Definition json (body : option pyval) : M pyval :=
  match body with
  | Some v => ret v
  | None => raise JSONDecodeError
  end.

Definition dq : string := String "034"%char "".

Definition yt_fields : string :=
  "customFields(name,value(avatarUrl,buildLink,color(id),fullName,id,"
  +++ "isResolved,localizedName,login,minutes,name,presentation,text)),"
  +++ "created,reporter(login),summary,description,"
  +++ "comments(created,author(login),text),attachments(base64Content,name)".

(** The headers of a request to YouTrack. *)
Definition youtrack_headers (self : Migrator) : list (string * string) :=
  match auth_header_youtrack self with
  | Some header => [("Authorization", header)]
  | None => []
  end.

Definition azdo_headers (self : Migrator) (content_type : string)
  : list (string * string) :=
  [("Authorization", auth_header_azdo self); ("Content-Type", content_type)].

(** [self._set_field(custom_op.ado_field, custom_op.yt_field)] *)
Definition op_of (custom_op : SetFieldOperation) : pyval :=
  _set_field (ado_field custom_op) (yt_field custom_op).

(** [(delayed_ops if custom_op.set_after_creation else create_ops).append(op)] *)
Definition append_custom_op (lists : list pyval * list pyval)
    (custom_op : SetFieldOperation) : list pyval * list pyval :=
  let op := op_of custom_op in
  if set_after_creation custom_op
  then (fst lists, snd lists ++ [op])
  else (fst lists ++ [op], snd lists).

(** [attachment["base64Content"].split(",")]: only a [str] has [split]. *)
Definition py_split_comma (v : pyval) : result (list string) :=
  match v with
  | PStr s => Ok (py_split comma s)
  | _ => Err AttributeError
  end.

Section Program.

(** [repr] of a list or a dict, which [str] gives for them; a function
    of the Python runtime. *)
Variable py_repr : pyval -> string.

(** The two services. *)
Variable env : oracle.

(** [str(v)], which a replacement field of an f-string applies. *)
Definition py_str (v : pyval) : string :=
  match v with
  | PNone => "None"
  | PBool true => "True"
  | PBool false => "False"
  | PInt z => str_of_Z z
  | PStr s => s
  | PList _ | PDict _ => py_repr v
  end.

(** [requests.get], [requests.post], [requests.patch] *)
Definition http (req : request) : M (option pyval) :=
  fun tr =>
    (match env tr req with
     | Raises e => Err e
     | Responds body => Ok body
     end, tr ++ [EvHttp req]).

Definition issue_request (self : Migrator) (yt_id : pyval) : request :=
  {| req_method := GET;
     req_url := yt_base self +++ "/api/issues/" +++ py_str yt_id
                +++ "?fields=" +++ yt_fields;
     req_headers := youtrack_headers self;
     req_verify := false;
     req_body := NoBody |}.

Definition _youtrack_issue_data (self : Migrator) (yt_id : pyval) : M pyval :=
  body <- http (issue_request self yt_id) ;;
  json body.

Definition custom_fields (self : Migrator) (yt_id : pyval)
  : M (list (pyval * pyval)) :=
  yt_data <- _youtrack_issue_data self yt_id ;;
  lift (_build_custom_field_dict yt_data).

(** The text of the description, lines 89 to 94. *)
Definition description_header (self : Migrator) (yt_id login : pyval)
    (created : string) : string :=
  "[Migrated from <a href=" +++ dq +++ yt_base self +++ "/issue/"
  +++ py_str yt_id +++ dq +++ ">YouTrack</a>, "
  +++ "originally reported by " +++ py_str login +++ " on " +++ created +++ "]".

Definition description_text (self : Migrator) (yt_id login : pyval)
    (created : string) (body : pyval) : string :=
  py_replace
    (description_header self yt_id login created +++ nl +++ nl +++ py_str body)
    nl ("<br />" +++ nl).

(** The text of a comment, lines 134 to 139. *)
Definition comment_header (self : Migrator) (yt_id author : pyval)
    (created : string) : string :=
  "[Migrated from <a href=" +++ dq +++ yt_base self +++ "/issue/"
  +++ py_str yt_id +++ dq +++ ">YouTrack</a>. "
  +++ "Original comment by " +++ py_str author +++ " on " +++ created +++ "]".

Definition comment_text (self : Migrator) (yt_id author : pyval)
    (created : string) (body : pyval) : string :=
  py_replace
    (comment_header self yt_id author created +++ nl +++ nl +++ py_str body)
    nl ("<br/>" +++ nl).

(** The five requests to Azure DevOps. *)
Definition create_request (self : Migrator) (create_ops : list pyval) : request :=
  {| req_method := POST;
     req_url := ado_base self +++ "/workitems/$Task?api-version=6.0";
     req_headers := azdo_headers self "application/json-patch+json";
     req_verify := true;
     req_body := JsonBody (PList create_ops) |}.

Definition patch_request (self : Migrator) (work_item_id : pyval)
    (delayed_ops : list pyval) : request :=
  {| req_method := PATCH;
     req_url := ado_base self +++ "/workitems/" +++ py_str work_item_id
                +++ "?api-version=6.0";
     req_headers := azdo_headers self "application/json-patch+json";
     req_verify := true;
     req_body := JsonBody (PList delayed_ops) |}.

Definition comment_request (self : Migrator) (work_item_id : pyval)
    (text : string) : request :=
  {| req_method := POST;
     req_url := ado_base self +++ "/workItems/" +++ py_str work_item_id
                +++ "/comments?api-version=6.0-preview.3";
     req_headers := azdo_headers self "application/json";
     req_verify := true;
     req_body := JsonBody (PDict [("text", PStr text)]) |}.

Definition upload_request (self : Migrator) (decoded : list Byte.byte) : request :=
  {| req_method := POST;
     req_url := ado_base self +++ "/attachments?api-version=6.0";
     req_headers := azdo_headers self "application/octet-stream";
     req_verify := true;
     req_body := DataBody decoded |}.

Definition link_request (self : Migrator) (work_item_id attachment_url name : pyval)
  : request :=
  {| req_method := PATCH;
     req_url := ado_base self +++ "/workItems/" +++ py_str work_item_id
                +++ "?api-version=6.0";
     req_headers := azdo_headers self "application/json-patch+json";
     req_verify := true;
     req_body :=
       JsonBody
         (PList
            [PDict [("op", PStr "add");
                    ("path", PStr "/relations/-");
                    ("value",
                      PDict [("rel", PStr "AttachedFile");
                             ("url", attachment_url);
                             ("attributes", PDict [("name", name)])])]]) |}.

(** The event of one comment, and the events of one attachment: the
    upload, then the link. *)
Definition comment_event (self : Migrator) (work_item_id : pyval)
    (text : string) : event :=
  EvHttp (comment_request self work_item_id text).

Definition attachment_events (self : Migrator) (work_item_id : pyval)
    (upload : pyval * list Byte.byte * pyval) : list event :=
  let '(name, decoded, attachment_url) := upload in
  [EvHttp (upload_request self decoded);
   EvHttp (link_request self work_item_id attachment_url name)].

(** Lines 132 to 139: the text posted for one comment. *)
Definition comment_text_of (self : Migrator) (yt_id comment : pyval)
  : result string :=
  (let? timestamp := py_getitem comment "created" in
   let? created := _format_yt_timestamp timestamp in
   let? author_data := py_getitem comment "author" in
   let? author := py_getitem author_data "login" in
   let? body := py_getitem comment "text" in
   Ok (comment_text self yt_id author created body))%result.

(** The body of the loop over the comments, lines 131 to 148. *)
Definition migrate_comment (self : Migrator) (yt_id work_item_id comment : pyval)
  : M unit :=
  text <- lift (comment_text_of self yt_id comment) ;;
  _ <- http (comment_request self work_item_id text) ;;
  ret tt.

(** Lines 154 to 157: the name of one attachment and its bytes. *)
Definition attachment_content (attachment : pyval)
  : result (pyval * list Byte.byte) :=
  (let? name := py_getitem attachment "name" in
   let? content := py_getitem attachment "base64Content" in
   let? parts := py_split_comma content in
   let? b64content := py_index parts 1 in
   let? decoded := b64decode b64content in
   Ok (name, decoded))%result.

(** The body of the loop over the attachments, lines 153 to 188. *)
Definition migrate_attachment (self : Migrator) (work_item_id attachment : pyval)
  : M unit :=
  content <- lift (attachment_content attachment) ;;
  res <- http (upload_request self (snd content)) ;;
  res_json <- json res ;;
  attachment_url <- lift (py_getitem res_json "url") ;;
  _ <- http (link_request self work_item_id attachment_url (fst content)) ;;
  ret tt.

(** Lines 81 to 102: the operations of the creation call and the
    operations delayed until the work item exists. *)
Definition compose_ops (self : Migrator) (yt_id yt_data : pyval)
    (custom_field_handler : CustomFieldHandler)
  : result (list pyval * list pyval) :=
  (let? summary := py_getitem yt_data "summary" in
   let create_ops := [_set_field "System.Title" summary] in
   let? timestamp := py_getitem yt_data "created" in
   let? created := _format_yt_timestamp timestamp in
   let? reporter := py_getitem yt_data "reporter" in
   let? login := py_getitem reporter "login" in
   let? body := py_getitem yt_data "description" in
   let description := description_text self yt_id login created body in
   let create_ops :=
     create_ops ++ [_set_field "System.Description" (PStr description)] in
   let? fields := _build_custom_field_dict yt_data in
   let? custom_ops := custom_field_handler fields in
   Ok (fold_left append_custom_op custom_ops (create_ops, [])))%result.

Definition creation_failed (yt_id res : pyval) : exn :=
  RuntimeError ("migration of " +++ py_str yt_id +++ " failed: " +++ py_str res).

(** Lines 118 to 188: what follows a creation that gave [work_item_id]. *)
Definition after_creation (self : Migrator) (yt_id yt_data work_item_id : pyval)
    (delayed_ops : list pyval) : M pyval :=
  _ <- http (patch_request self work_item_id delayed_ops) ;;
  comments <- lift (items_of yt_data "comments") ;;
  _ <- for_each (migrate_comment self yt_id work_item_id) comments ;;
  attachments <- lift (items_of yt_data "attachments") ;;
  _ <- for_each (migrate_attachment self work_item_id) attachments ;;
  ret PNone.

(** Lines 84 to 188: the work on the data read from YouTrack. *)
Definition migrate_fetched (self : Migrator) (yt_id yt_data : pyval)
    (custom_field_handler : CustomFieldHandler) : M pyval :=
  ops <- lift (compose_ops self yt_id yt_data custom_field_handler) ;;
  res_body <- http (create_request self (fst ops)) ;;
  res <- json res_body ;;
  has_id <- lift (py_contains "id" res) ;;
  if negb has_id then raise (creation_failed yt_id res)
  else
    work_item_id <- lift (py_getitem res "id") ;;
    after_creation self yt_id yt_data work_item_id (snd ops).

(** [Migrator.migrate_issue]; the function has no [return] statement,
    so a call that ends gives [None]. *)
Definition migrate_issue (self : Migrator) (yt_id : pyval)
    (custom_field_handler : CustomFieldHandler) : M pyval :=
  yt_data <- _youtrack_issue_data self yt_id ;;
  migrate_fetched self yt_id yt_data custom_field_handler.

(** ** The project driver

    [while True] may go on for ever: [fuel] bounds the number of attempts
    the loop makes for one issue, and [None] is a loop that has not ended
    within it. *)

Definition list_request (self : Migrator) (yt_project : string)
    (issue_count_upper_limit : Z) : request :=
  {| req_method := GET;
     req_url := yt_base self +++ "/api/issues?fields=idReadable"
                +++ "&$top=" +++ str_of_Z issue_count_upper_limit
                +++ "&query=project:+" +++ yt_project;
     req_headers := youtrack_headers self;
     req_verify := false;
     req_body := NoBody |}.

Definition migrating_log (yt_id : pyval) (i total : nat) : event :=
  EvLog ("Migrating " +++ py_str yt_id +++ ", " +++ str_of_nat (i + 1)
         +++ "/" +++ str_of_nat total).

Definition migrated_log (yt_id : pyval) (i total : nat) : event :=
  EvLog ("Migrated " +++ py_str yt_id +++ ", " +++ str_of_nat (i + 1)
         +++ "/" +++ str_of_nat total).

(** What the [except] branch does before the loop goes round. *)
Definition backoff : list event :=
  [EvLog "Encountered an error. Wait 3 seconds"; EvSleep 3].

(** Lines 211 to 217. *)
Fixpoint retry_migrate_issue (fuel : nat) (self : Migrator) (yt_id : pyval)
    (custom_field_handler : CustomFieldHandler) (tr : list event)
  : option (result unit) * list event :=
  match fuel with
  | O => (None, tr)
  | S fuel' =>
      match migrate_issue self yt_id custom_field_handler tr with
      | (Ok _, tr') => (Some (Ok tt), tr')
      | (Err e, tr') =>
          if is_decode_error e
          then retry_migrate_issue fuel' self yt_id custom_field_handler
                 (tr' ++ backoff)
          else (Some (Err e), tr')
      end
  end.

(** Lines 206 to 218: the loop over [enumerate(issues)], at index [i]. *)
Fixpoint migrate_listed (fuel : nat) (self : Migrator)
    (custom_field_handler : CustomFieldHandler) (total i : nat)
    (issues : list pyval) (tr : list event)
  : option (result unit) * list event :=
  match issues with
  | [] => (Some (Ok tt), tr)
  | issue :: issues' =>
      match py_getitem issue "idReadable" with
      | Err e => (Some (Err e), tr)
      | Ok yt_id =>
          match retry_migrate_issue fuel self yt_id custom_field_handler
                  (tr ++ [migrating_log yt_id i total]) with
          | (Some (Ok _), tr') =>
              migrate_listed fuel self custom_field_handler total (S i) issues'
                (tr' ++ [migrated_log yt_id i total])
          | stopped => stopped
          end
      end
  end.

(** [Migrator.migrate_project] *)
Definition migrate_project (fuel : nat) (self : Migrator) (yt_project : string)
    (custom_field_handler : CustomFieldHandler) (issue_count_upper_limit : Z)
    (tr : list event) : option (result unit) * list event :=
  match (body <- http (list_request self yt_project issue_count_upper_limit) ;;
         issues <- json body ;;
         lift (py_iter issues)) tr with
  | (Err e, tr') => (Some (Err e), tr')
  | (Ok issues, tr') =>
      migrate_listed fuel self custom_field_handler (List.length issues) 0 issues tr'
  end.

End Program.

(** ** Observations on traces *)

(** [appends P c]: whatever the trace before and however it ends, [c]
    leaves the trace as it was and adds events that satisfy [P]. *)
Definition appends {R : Type} (P : event -> Prop)
    (c : list event -> R * list event) : Prop :=
  forall tr, exists evs, snd (c tr) = tr ++ evs /\ Forall P evs.

Definition is_http (ev : event) : Prop :=
  match ev with
  | EvHttp _ => True
  | _ => False
  end.

(** The events of the driver itself: its log lines and its waits. *)
Definition driver_events (tr : list event) : list event :=
  filter (fun ev => match ev with EvHttp _ => false | _ => true end) tr.

(** A request to YouTrack, the only service the code sends [GET] to,
    carries the headers of [youtrack_headers]. *)
Definition source_request_ok (self : Migrator) (ev : event) : Prop :=
  forall req, ev = EvHttp req -> req_method req = GET ->
    req_headers req = youtrack_headers self /\ req_verify req = false.

Section Progress.

Variable py_repr : pyval -> string.

(** What the driver logs and waits for an issue that needed [k] retries,
    and for a list of issues from index [i] on. *)
Definition issue_progress (total i : nat) (yt_id : pyval) (k : nat) : list event :=
  migrating_log py_repr yt_id i total
    :: List.concat (repeat backoff k) ++ [migrated_log py_repr yt_id i total].

Fixpoint project_progress (total i : nat) (ids : list pyval) (ks : list nat)
  : list event :=
  match ids, ks with
  | yt_id :: ids', k :: ks' =>
      issue_progress total i yt_id k ++ project_progress total (S i) ids' ks'
  | _, _ => []
  end.

End Progress.

(** ** Runs of the driver

    What the two loops of [migrate_project] do, as relations between the
    trace before and the trace after, with no bound on the attempts. *)

Section Driver_runs.

Variable py_repr : pyval -> string.
Variable env : oracle.
Variable self : Migrator.
Variable custom_field_handler : CustomFieldHandler.

(** [attempts yt_id tr k outcome tr']: from the trace [tr], [k] whole
    calls of [migrate_issue] for [yt_id] raised [JSONDecodeError], each
    followed by the notice and the wait of 3 seconds; the call after
    them ended the loop, normally or with an exception of another class,
    and left the trace [tr']. *)
Inductive attempts (yt_id : pyval)
  : list event -> nat -> result unit -> list event -> Prop :=
| attempt_ends tr r tr' :
    migrate_issue py_repr env self yt_id custom_field_handler tr = (Ok r, tr') ->
    attempts yt_id tr 0 (Ok tt) tr'
| attempt_fails tr e tr' :
    migrate_issue py_repr env self yt_id custom_field_handler tr = (Err e, tr') ->
    e <> JSONDecodeError ->
    attempts yt_id tr 0 (Err e) tr'
| attempt_again tr tr1 k outcome tr' :
    migrate_issue py_repr env self yt_id custom_field_handler tr
    = (Err JSONDecodeError, tr1) ->
    attempts yt_id
      (tr1 ++ [EvLog "Encountered an error. Wait 3 seconds"; EvSleep 3])
      k outcome tr' ->
    attempts yt_id tr (S k) outcome tr'.

(** [migrations total i issues tr ks outcome tr']: the loop over the
    listed issues from index [i] on.  Every issue is logged, attempted
    until an attempt ends, and logged again, before the next one; an
    issue without [idReadable] and an attempt that fails end the loop.
    [ks] counts the retries of each issue that was attempted. *)
Inductive migrations (total : nat)
  : nat -> list pyval -> list event -> list nat -> result unit -> list event
    -> Prop :=
| migrations_end i tr : migrations total i [] tr [] (Ok tt) tr
| migrations_unnamed i issue issues tr e :
    py_getitem issue "idReadable" = Err e ->
    migrations total i (issue :: issues) tr [] (Err e) tr
| migrations_next i issue issues yt_id tr k tr1 ks outcome tr' :
    py_getitem issue "idReadable" = Ok yt_id ->
    attempts yt_id
      (tr ++ [EvLog ("Migrating " +++ py_str py_repr yt_id +++ ", "
                     +++ str_of_nat (i + 1) +++ "/" +++ str_of_nat total)])
      k (Ok tt) tr1 ->
    migrations total (S i) issues
      (tr1 ++ [EvLog ("Migrated " +++ py_str py_repr yt_id +++ ", "
                      +++ str_of_nat (i + 1) +++ "/" +++ str_of_nat total)])
      ks outcome tr' ->
    migrations total i (issue :: issues) tr (k :: ks) outcome tr'
| migrations_abort i issue issues yt_id tr k e tr' :
    py_getitem issue "idReadable" = Ok yt_id ->
    attempts yt_id
      (tr ++ [EvLog ("Migrating " +++ py_str py_repr yt_id +++ ", "
                     +++ str_of_nat (i + 1) +++ "/" +++ str_of_nat total)])
      k (Err e) tr' ->
    migrations total i (issue :: issues) tr [k] (Err e) tr'.

End Driver_runs.

(** ** A concrete run, for the examples *)

(** [repr] for values whose text has no quote, backslash or control
    character. *)
Fixpoint sample_repr (v : pyval) : string :=
  match v with
  | PNone => "None"
  | PBool true => "True"
  | PBool false => "False"
  | PInt z => str_of_Z z
  | PStr s => "'" +++ s +++ "'"
  | PList l => "[" +++ String.concat ", " (map sample_repr l) +++ "]"
  | PDict d =>
      "{" +++ String.concat ", "
                (map (fun kv => "'" +++ fst kv +++ "': " +++ sample_repr (snd kv)) d)
      +++ "}"
  end.

Definition sample_issue : pyval :=
  PDict [("summary", PStr "Fix crash");
         ("description", PStr ("Steps:" +++ nl +++ "Do A" +++ nl +++ "Do B"));
         ("reporter", PDict [("login", PStr "alice")]);
         ("created", PInt 1700000000000);
         ("customFields", PList []);
         ("comments", PList []);
         ("attachments", PList [])].

Definition no_assignments : CustomFieldHandler := fun _ => Ok [].

(** The description the work item of X-1 is created with. *)
Definition x1_provenance_line (self : Migrator) : string :=
  "[Migrated from <a href=" +++ dq +++ yt_base self +++ "/issue/X-1" +++ dq
  +++ ">YouTrack</a>, originally reported by alice on 2023-11-14T22:13:20]".

Definition x1_description (self : Migrator) : string :=
  x1_provenance_line self +++ "<br />" +++ nl +++ "<br />" +++ nl
  +++ "Steps:<br />" +++ nl +++ "Do A<br />" +++ nl +++ "Do B".

Definition x1_create_ops (self : Migrator) : list pyval :=
  [_set_field "System.Title" (PStr "Fix crash");
   _set_field "System.Description" (PStr (x1_description self))].

Definition sample_migrator : Migrator :=
  {| yt_base := "https://yt.example";
     ado_base := "https://dev.azure.com/org/proj/_apis/wit";
     auth_header_azdo := "Basic OnBhdA==";
     auth_header_youtrack := None |}.

(** The same, made with the YouTrack token [perm:abc]. *)
Definition token_migrator : Migrator :=
  {| yt_base := "https://yt.example";
     ado_base := "https://dev.azure.com/org/proj/_apis/wit";
     auth_header_azdo := "Basic OnBhdA==";
     auth_header_youtrack := Some "Bearer perm:abc" |}.

(** An oracle that answers the n-th request of a run with the n-th
    reply of a list. *)
Definition requests_sent (tr : list event) : nat :=
  List.length
    (filter (fun ev => match ev with EvHttp _ => true | _ => false end) tr).

Definition scripted (replies : list reply) : oracle :=
  fun tr _ => nth (requests_sent tr) replies (Raises (OtherError "no reply")).

Definition created_7 : reply := Responds (Some (PDict [("id", PInt 7)])).

Definition accepted : reply := Responds (Some (PDict [])).

(** The issue is read, the work item is created with identifier 7, and
    the patch is accepted. *)
Definition sample_env : oracle := scripted [Responds (Some sample_issue); created_7; accepted].

(** The creation is answered without an identifier. *)
Definition denied_env : oracle :=
  scripted [Responds (Some sample_issue);
            Responds (Some (PDict [("message", PStr "denied")]))].

(** A project of one issue; the first answer to the request for the
    issue is not JSON, the second is. *)
Definition retry_env : oracle :=
  scripted [Responds (Some (PList [PDict [("idReadable", PStr "X-1")]]));
            Responds None;
            Responds (Some sample_issue); created_7; accepted].

(** YouTrack never answers with JSON. *)
Definition undecodable_env : oracle := fun _ _ => Responds None.

(** An issue with one attachment whose payload is bare base64, without
    the prefix of a data URI. *)
Definition bare_attachment : pyval :=
  PDict [("name", PStr "log.txt"); ("base64Content", PStr "QUJD")].

Definition bare_issue : pyval :=
  PDict [("summary", PStr "Logs");
         ("description", PStr "See file");
         ("reporter", PDict [("login", PStr "bob")]);
         ("created", PInt 1700000000000);
         ("customFields", PList []);
         ("comments", PList []);
         ("attachments", PList [bare_attachment])].

Definition bare_env : oracle :=
  scripted [Responds (Some bare_issue); created_7; accepted;
            Responds (Some (PDict [("url", PStr "https://ado.example/a/1")]));
            accepted].

Definition data_uri_attachment : pyval :=
  PDict [("name", PStr "log.txt");
         ("base64Content", PStr "data:text/plain;base64,QUJD")].

(** A handler that asks for two fields at creation and two after it. *)
Definition mixed_handler : CustomFieldHandler :=
  fun _ =>
    Ok [ {| ado_field := "Custom.A"; yt_field := PStr "a"; set_after_creation := false |};
         {| ado_field := "System.State"; yt_field := PStr "Done"; set_after_creation := true |};
         {| ado_field := "Custom.B"; yt_field := PInt 2; set_after_creation := false |};
         {| ado_field := "System.Reason"; yt_field := PStr "Moved"; set_after_creation := true |} ].

(** An issue with one comment and one attachment sent as a data URI. *)
Definition full_issue : pyval :=
  PDict [("summary", PStr "Logs");
         ("description", PStr "See file");
         ("reporter", PDict [("login", PStr "bob")]);
         ("created", PInt 1700000000000);
         ("customFields", PList []);
         ("comments",
           PList [PDict [("created", PInt 1700000360000);
                         ("author", PDict [("login", PStr "carol")]);
                         ("text", PStr "Seen")]]);
         ("attachments",
           PList [PDict [("name", PStr "log.txt");
                         ("base64Content",
                           PStr "data:text/plain;base64,QUJD")]])].

Definition full_env : oracle :=
  scripted [Responds (Some full_issue); created_7; accepted; accepted;
            Responds (Some (PDict [("url", PStr "https://ado.example/a/1")]));
            accepted].

(** An issue whose reporter has a login of two lines. *)
Definition two_line_login_issue : pyval :=
  PDict [("summary", PStr "Fix crash");
         ("description", PStr "Steps");
         ("reporter", PDict [("login", PStr ("al" +++ nl +++ "ice"))]);
         ("created", PInt 1700000000000);
         ("customFields", PList []);
         ("comments", PList []);
         ("attachments", PList [])].

(** ** Further observations *)

(** [d[k]] and [k in d] on the dict of the custom fields. *)
Fixpoint dict_get (k : pyval) (d : list (pyval * pyval)) : option pyval :=
  match d with
  | [] => None
  | (k', v) :: d' => if key_eqb k' k then Some v else dict_get k d'
  end.

(** The name and the value of one entry of [customFields], when the
    comprehension of [_build_custom_field_dict] can take it. *)
Definition field_entry (v : pyval) : result (pyval * pyval) :=
  (let? name := py_getitem v "name" in
   let? value := py_getitem v "value" in
   if py_hashable name then Ok (name, value) else Err TypeError)%result.

(** The value of the last entry of [items] whose name is equal to [k]. *)
Fixpoint last_value (k : pyval) (items : list pyval) : option pyval :=
  match items with
  | [] => None
  | v :: items' =>
      match last_value k items' with
      | Some x => Some x
      | None =>
          match field_entry v with
          | Ok (name, value) => if key_eqb name k then Some value else None
          | Err _ => None
          end
      end
  end.

(** No two keys of [d] are equal. *)
Fixpoint distinct_keys (d : list (pyval * pyval)) : Prop :=
  match d with
  | [] => True
  | (k, _) :: d' => dict_get k d' = None /\ distinct_keys d'
  end.

(** A request as the two services should see it: a [GET] goes to
    YouTrack, under its base URL, with the [Authorization] header of
    YouTrack when there is one and no other header, without a body and
    without the verification of the certificate; any other request goes
    to Azure DevOps, under its base URL, with the [Authorization] header
    of Azure DevOps, one of the three content types and no other
    header. *)
Definition request_ok (self : Migrator) (ev : event) : Prop :=
  match ev with
  | EvHttp req =>
      match req_method req with
      | GET =>
          req_headers req
          = match auth_header_youtrack self with
            | Some header => [("Authorization", header)]
            | None => []
            end
          /\ req_verify req = false
          /\ req_body req = NoBody
          /\ String.prefix (yt_base self) (req_url req) = true
      | _ =>
          (exists content_type,
             req_headers req
             = [("Authorization", auth_header_azdo self);
                ("Content-Type", content_type)]
             /\ In content_type
                  ["application/json-patch+json"; "application/json";
                   "application/octet-stream"])
          /\ req_verify req = true
          /\ String.prefix (ado_base self) (req_url req) = true
      end
  | _ => True
  end.

Section Addressing.

Variable py_repr : pyval -> string.

(** The four requests that follow a creation, for the work item
    [work_item_id]: the deferred patch, a comment, an upload, which names
    no work item, and the link of an attachment; each by its method and
    its URL. *)
Definition addressed_to (self : Migrator) (work_item_id : pyval) (ev : event)
  : Prop :=
  exists req,
    ev = EvHttp req
    /\ ((req_method req = PATCH
         /\ req_url req = ado_base self +++ "/workitems/"
                          +++ py_str py_repr work_item_id +++ "?api-version=6.0")
        \/ (req_method req = POST
            /\ req_url req = ado_base self +++ "/workItems/"
                             +++ py_str py_repr work_item_id
                             +++ "/comments?api-version=6.0-preview.3")
        \/ (req_method req = POST
            /\ req_url req = ado_base self +++ "/attachments?api-version=6.0")
        \/ (req_method req = PATCH
            /\ req_url req = ado_base self +++ "/workItems/"
                             +++ py_str py_repr work_item_id
                             +++ "?api-version=6.0")).

End Addressing.

(** The character of base64 for the six bits [i]. *)
Definition b64_char (i : Z) : ascii :=
  match String.get (Z.to_nat i) b64_alphabet with
  | Some c => c
  | None => "="%char
  end.

(** The numbers below [n], for checks by enumeration. *)
Definition below (n : nat) : list Z := map Z.of_nat (seq 0 n).

(** The way back from a date to the number of its day, as [datetime]
    has it: [_is_leap], [_days_before_year], [_days_in_month],
    [_days_before_month] and [_ymd2ord]. *)
Definition is_leap (year : Z) : bool :=
  ((year mod 4 =? 0) && (negb (year mod 100 =? 0) || (year mod 400 =? 0)))%Z.

Definition days_before_year (year : Z) : Z :=
  (let y := year - 1 in y * 365 + y / 4 - y / 100 + y / 400)%Z.

Definition days_in_month_of (year month : Z) : Z :=
  if ((month =? 2)%Z && is_leap year) then 29%Z else days_in_month month.

Definition days_before_month_of (year month : Z) : Z :=
  (days_before_month month + Z_of_bool ((2 <? month) && is_leap year))%Z.

Definition ymd2ord (year month day : Z) : Z :=
  (days_before_year year + days_before_month_of year month + day)%Z.

(** [int(s)] for a text of decimal digits with an optional sign. *)
Fixpoint decimal_from (value : Z) (s : string) : Z :=
  match s with
  | "" => value
  | String c s' => decimal_from (10 * value + (Z.of_N (N_of_ascii c) - 48))%Z s'
  end.

Definition py_int (s : string) : Z :=
  match s with
  | String "-" s' => (- decimal_from 0 s')%Z
  | _ => decimal_from 0 s
  end.

(** Data for the examples of the further properties. *)
Definition fields_issue : pyval :=
  PDict [("customFields",
           PList [PDict [("name", PStr "Priority"); ("value", PStr "Major")];
                  PDict [("name", PStr "State"); ("value", PStr "Open")];
                  PDict [("name", PStr "Priority"); ("value", PStr "Minor")]])].

Definition broken_field : pyval := PDict [("name", PStr "Estimate")].

Definition broken_fields_issue : pyval :=
  PDict [("customFields",
           PList [PDict [("name", PStr "State"); ("value", PStr "Open")];
                  broken_field])].

Definition failing_handler : CustomFieldHandler :=
  fun _ => Err (OtherError "unknown state").

(** The answer to the upload of the first attempt is not JSON; the
    second attempt goes through. *)
Definition duplicate_env : oracle :=
  scripted [Responds (Some full_issue); created_7; accepted; accepted;
            Responds None;
            Responds (Some full_issue); created_7; accepted; accepted;
            Responds (Some (PDict [("url", PStr "https://ado.example/a/1")]));
            accepted].

Definition authorless_comment : pyval :=
  PDict [("created", PInt 1700000360000); ("text", PStr "Seen")].

Definition authorless_issue : pyval :=
  PDict [("comments", PList [authorless_comment]);
         ("attachments", PList [data_uri_attachment])].

(** The creation is answered with a text. *)
Definition text_answer_env : oracle :=
  scripted [Responds (Some sample_issue); Responds (Some (PStr "invalid request"))].

(** * Properties *)

(** ** Text *)

Lemma append_assoc (a b c : string) : (a +++ b) +++ c = a +++ (b +++ c).
Proof. induction a as [|x a IH]; simpl; [reflexivity | now rewrite IH]. Qed.

Lemma append_nil_r (a : string) : a +++ "" = a.
Proof. induction a as [|x a IH]; simpl; [reflexivity | now rewrite IH]. Qed.

Lemma append_length (a b : string) :
  String.length (a +++ b) = String.length a + String.length b.
Proof. induction a as [|x a IH]; simpl; [reflexivity | now rewrite IH]. Qed.

Lemma no_char_app (c : ascii) (a b : string) :
  no_char c (a +++ b) = no_char c a && no_char c b.
Proof.
  induction a as [|x a IH]; simpl; [reflexivity|].
  now rewrite IH, andb_assoc.
Qed.

Lemma prefix_nil (t : string) : String.prefix "" t = true.
Proof. now destruct t. Qed.

Lemma prefix_cons (a b : ascii) (p t : string) :
  String.prefix (String a p) (String b t) = Ascii.eqb a b && String.prefix p t.
Proof.
  cbn [String.prefix]. destruct (ascii_dec a b) as [->|n].
  - now rewrite Ascii.eqb_refl.
  - destruct (Ascii.eqb_spec a b); [now elim n | reflexivity].
Qed.

Lemma prefix_app (p r : string) : String.prefix p (p +++ r) = true.
Proof.
  induction p as [|x p IH]; simpl.
  - now destruct r.
  - destruct (ascii_dec x x) as [_|n]; [exact IH | now elim n].
Qed.

Lemma prefix_inv (p t : string) :
  String.prefix p t = true -> exists r, t = p +++ r.
Proof.
  revert t; induction p as [|x p IH]; intros t H.
  - now exists t.
  - destruct t as [|y t]; simpl in H; [discriminate|].
    destruct (ascii_dec x y) as [->|]; [|discriminate].
    destruct (IH _ H) as [r ->]. now exists r.
Qed.

Lemma substringb_prefix (x h : string) :
  String.prefix x h = true -> substringb x h = true.
Proof. intros H. destruct h; cbn [substringb]; rewrite H; reflexivity. Qed.

Lemma substringb_app (x a b : string) : substringb x (a +++ x +++ b) = true.
Proof.
  induction a as [|c a IH].
  - change ("" +++ x +++ b) with (x +++ b).
    apply substringb_prefix, prefix_app.
  - simpl. rewrite IH. apply orb_true_r.
Qed.

Lemma string_drop_app (a b : string) : string_drop (String.length a) (a +++ b) = b.
Proof. induction a as [|x a IH]; simpl; [now destruct b | exact IH]. Qed.

Lemma cons_eq_app_inv (c : ascii) (t m x : string) :
  String c t = m +++ x ->
  (m = "" /\ x = String c t) \/ (exists m', m = String c m' /\ t = m' +++ x).
Proof.
  destruct m as [|a m']; simpl; intros E.
  - left. now split.
  - right. injection E as <- ->. now exists m'.
Qed.

Lemma replace_skip (old new u rest : string) :
  replace_from old new (String.length u) (u +++ rest) = replace_from old new 0 rest.
Proof.
  induction u as [|a u IH]; simpl; [|exact IH].
  destruct rest; reflexivity.
Qed.

Lemma replace_at_occurrence (old new x : string) :
  old <> "" ->
  replace_from old new 0 (old +++ x) = new +++ replace_from old new 0 x.
Proof.
  destruct old as [|a o]; [congruence | intros _].
  change (String a o +++ x) with (String a (o +++ x)).
  cbn [replace_from].
  change (String a (o +++ x)) with (String a o +++ x).
  rewrite prefix_app. f_equal. cbn [String.length].
  replace (S (String.length o) - 1) with (String.length o) by lia.
  apply replace_skip.
Qed.

(** *** [replace] of the newline *)

Section Markers.

(** The text put before each newline: [<br />] or [<br/>]. *)
Variable marker : string.
Hypothesis marker_one_line : no_char newline marker = true.

Lemma mark_cons (c : ascii) (s : string) :
  mark marker (String c s) =
  if Ascii.eqb c newline then (marker +++ nl) +++ mark marker s
  else String c (mark marker s).
Proof.
  unfold mark, py_replace, nl. cbn [replace_from String.length].
  rewrite prefix_cons, prefix_nil, andb_true_r, Ascii.eqb_sym.
  reflexivity.
Qed.

Lemma mark_app (a b : string) :
  mark marker (a +++ b) = mark marker a +++ mark marker b.
Proof.
  induction a as [|c a IH]; [reflexivity|].
  simpl append. rewrite !mark_cons, IH.
  destruct (Ascii.eqb c newline); [now rewrite !append_assoc | reflexivity].
Qed.

Lemma mark_one_line (s : string) :
  no_char newline s = true -> mark marker s = s.
Proof.
  induction s as [|c s IH]; [reflexivity|]. simpl. intros H.
  apply andb_true_iff in H as [Hc Hs]. rewrite mark_cons.
  destruct (Ascii.eqb c newline); [discriminate | now rewrite IH].
Qed.

Lemma mark_nl : mark marker nl = marker +++ nl.
Proof.
  unfold nl at 1. rewrite mark_cons, Ascii.eqb_refl.
  apply append_nil_r.
Qed.

Lemma first_newline_unique (m1 m2 x y : string) :
  m1 +++ nl +++ x = m2 +++ nl +++ y ->
  no_char newline m1 = true -> no_char newline m2 = true -> m1 = m2.
Proof.
  revert m2; induction m1 as [|a m1 IH]; intros [|b m2] E H1 H2; simpl in *.
  - reflexivity.
  - injection E as <- _. now rewrite Ascii.eqb_refl in H2.
  - injection E as -> _. now rewrite Ascii.eqb_refl in H1.
  - injection E as -> E. apply andb_true_iff in H1 as [_ H1].
    apply andb_true_iff in H2 as [_ H2]. now rewrite (IH _ E H1 H2).
Qed.

Lemma mark_first_line (s m' r : string) :
  mark marker s = m' +++ nl +++ r -> no_char newline m' = true ->
  String.length marker <= String.length m'.
Proof.
  revert m'; induction s as [|a s IH]; intros m' E H.
  - destruct m'; discriminate.
  - rewrite mark_cons in E. destruct (Ascii.eqb_spec a newline) as [->|Ha].
    + rewrite append_assoc in E.
      now rewrite (first_newline_unique _ _ _ _ E marker_one_line H).
    + destruct (cons_eq_app_inv _ _ _ _ E) as [[-> Ex]|[m'' [-> Et]]].
      * simpl in Ex. injection Ex as Ea _. congruence.
      * simpl in H. apply andb_true_iff in H as [_ H].
        specialize (IH _ Et H). simpl. lia.
Qed.

Lemma no_mark_at (c : ascii) (s : string) :
  c <> newline ->
  String.prefix (marker +++ nl) (String c (mark marker s)) = false.
Proof.
  intros Hc. destruct (String.prefix _ _) eqn:P; [|reflexivity].
  apply prefix_inv in P as [r E]. rewrite append_assoc in E.
  pose proof marker_one_line as Hm.
  destruct (cons_eq_app_inv _ _ _ _ E) as [[_ Ex]|[m' [Em Et]]].
  - simpl in Ex. injection Ex as Ea _. congruence.
  - rewrite Em in Hm. simpl in Hm. apply andb_true_iff in Hm as [_ Hm].
    pose proof (mark_first_line _ _ _ Et Hm) as L. rewrite Em in L.
    simpl in L. lia.
Qed.

(** Putting the marker before every newline and then replacing every
    marked newline by a newline gives the text back. *)
Lemma unmark_mark (s : string) : unmark marker (mark marker s) = s.
Proof.
  induction s as [|c s IH]; [reflexivity|].
  rewrite mark_cons. destruct (Ascii.eqb_spec c newline) as [->|Hc].
  - unfold unmark, py_replace in *. rewrite replace_at_occurrence.
    + now rewrite IH.
    + intros E. apply (f_equal String.length) in E.
      rewrite append_length in E. simpl in E. lia.
  - unfold unmark, py_replace in *. cbn [replace_from].
    rewrite (no_mark_at c s Hc). f_equal. exact IH.
Qed.

End Markers.

(** *** Line breaks *)

Lemma break_lines_app (marker a b : string) :
  break_lines marker (a +++ b) = break_lines marker a +++ break_lines marker b.
Proof.
  induction a as [|c a IH]; [reflexivity|].
  cbn [String.append break_lines]. rewrite IH.
  destruct (Ascii.eqb c newline); [now rewrite append_assoc | reflexivity].
Qed.

Lemma break_lines_one_line (marker s : string) :
  no_char newline s = true -> break_lines marker s = s.
Proof.
  induction s as [|c s IH]; [reflexivity|]. cbn [no_char break_lines].
  intros H. apply andb_true_iff in H as [Hc Hs].
  destruct (Ascii.eqb c newline); [discriminate | now rewrite IH].
Qed.

Lemma break_lines_nl (marker : string) : break_lines marker nl = marker.
Proof.
  unfold nl. cbn [break_lines]. rewrite Ascii.eqb_refl. apply append_nil_r.
Qed.

(** [replace] of the newline by the marked newline breaks the lines. *)
Lemma mark_break_lines (m s : string) :
  mark m s = break_lines (m +++ nl) s.
Proof.
  induction s as [|c s IH]; [reflexivity|].
  rewrite mark_cons. cbn [break_lines]. now rewrite IH.
Qed.

(** ** Dates and fields *)

Lemma digit_not_newline (z : Z) : Ascii.eqb (digit z) newline = false.
Proof.
  unfold digit. destruct (z mod 10)%Z as [|p|p]; try reflexivity.
  destruct p as [p|p|]; try reflexivity;
    destruct p as [p|p|]; try reflexivity;
    destruct p as [p|p|]; try reflexivity;
    destruct p as [p|p|]; reflexivity.
Qed.

Lemma pad2_one_line (z : Z) : no_char newline (pad2 z) = true.
Proof. unfold pad2. simpl. now rewrite !digit_not_newline. Qed.

Lemma pad4_one_line (z : Z) : no_char newline (pad4 z) = true.
Proof.
  unfold pad4. cbn [no_char]. now rewrite !digit_not_newline, pad2_one_line.
Qed.

(** What a text of [utc_isoformat] is made of. *)
Lemma utc_isoformat_ok (secs : Z) (text : string) :
  utc_isoformat secs = Ok text ->
  (1 <= secs / 86400 + 719163 <= 3652059)%Z
  /\ exists y m d,
       ord2ymd (secs / 86400 + 719163) = (y, m, d)
       /\ text = pad4 y +++ "-" +++ pad2 m +++ "-" +++ pad2 d +++ "T"
                 +++ pad2 (secs mod 86400 / 3600) +++ ":"
                 +++ pad2 ((secs mod 86400) mod 3600 / 60) +++ ":"
                 +++ pad2 ((secs mod 86400) mod 60).
Proof.
  unfold utc_isoformat. cbv zeta.
  destruct ((secs <? - 2 ^ 63)%Z || _); [discriminate|].
  destruct ((secs <? gmtime_min)%Z || _); [discriminate|].
  destruct ((secs / 86400 + 719163 <? 1)%Z || _) eqn:E; [discriminate|].
  apply orb_false_iff in E as [E1 E2].
  apply Z.ltb_ge in E1. apply Z.ltb_ge in E2.
  destruct (ord2ymd _) as [[y m] d]. intros [= <-].
  split; [lia|]. now exists y, m, d.
Qed.

Lemma utc_isoformat_one_line (secs : Z) (text : string) :
  utc_isoformat secs = Ok text -> no_char newline text = true.
Proof.
  intros H. apply utc_isoformat_ok in H as (_ & y & m & d & _ & ->).
  rewrite !no_char_app, pad4_one_line, !pad2_one_line. reflexivity.
Qed.

Lemma format_yt_timestamp_one_line (timestamp : pyval) (text : string) :
  _format_yt_timestamp timestamp = Ok text -> no_char newline text = true.
Proof.
  unfold _format_yt_timestamp. destruct (py_floordiv_1000 timestamp); simpl.
  - apply utc_isoformat_one_line.
  - discriminate.
Qed.

(** *** [split] *)

Lemma py_split_one_field (sep : ascii) (s : string) :
  no_char sep s = true -> py_split sep s = [s].
Proof.
  induction s as [|c s IH]; [reflexivity|]. simpl. intros H.
  apply andb_true_iff in H as [Hc Hs]. apply negb_true_iff in Hc.
  now rewrite Hc, IH.
Qed.

Lemma py_split_not_nil (sep : ascii) (s : string) : py_split sep s <> [].
Proof.
  destruct s as [|c s]; simpl; [discriminate|].
  destruct (Ascii.eqb c sep); [discriminate|].
  destruct (py_split sep s); discriminate.
Qed.

Lemma py_split_at_first (sep : ascii) (meta rest : string) :
  no_char sep meta = true ->
  py_split sep (meta +++ String sep rest) = meta :: py_split sep rest.
Proof.
  induction meta as [|c meta IH]; simpl; intros H.
  - now rewrite Ascii.eqb_refl.
  - apply andb_true_iff in H as [Hc Hm]. apply negb_true_iff in Hc.
    now rewrite Hc, IH.
Qed.

Lemma after_first_app (sep : ascii) (meta rest : string) :
  no_char sep meta = true ->
  after_first sep (meta +++ String sep rest) = rest.
Proof.
  induction meta as [|c meta IH]; simpl; intros H.
  - now rewrite Ascii.eqb_refl.
  - apply andb_true_iff in H as [Hc Hm]. apply negb_true_iff in Hc.
    now rewrite Hc, IH.
Qed.

(** *** The split of the handler's operations *)

Lemma fold_append_custom_op (custom_ops : list SetFieldOperation)
    (create_ops delayed_ops : list pyval) :
  fold_left append_custom_op custom_ops (create_ops, delayed_ops) =
  (create_ops
     ++ map op_of (filter (fun o => negb (set_after_creation o)) custom_ops),
   delayed_ops ++ map op_of (filter set_after_creation custom_ops)).
Proof.
  revert create_ops delayed_ops.
  induction custom_ops as [|o l IH]; intros c d; simpl.
  - now rewrite !app_nil_r.
  - unfold append_custom_op at 2. simpl.
    destruct (set_after_creation o); simpl; rewrite IH, <- app_assoc; reflexivity.
Qed.

(** ** Runs *)

Lemma bind_ok {A B} (c : M A) (k : A -> M B) tr b tr' :
  bind c k tr = (Ok b, tr') ->
  exists a tr1, c tr = (Ok a, tr1) /\ k a tr1 = (Ok b, tr').
Proof.
  unfold bind. destruct (c tr) as [[a|e] tr1]; [|discriminate].
  intros H. now exists a, tr1.
Qed.

Lemma lift_ok {A} (r : result A) tr a tr' :
  lift r tr = (Ok a, tr') -> r = Ok a /\ tr' = tr.
Proof. unfold lift. now intros [= -> ->]. Qed.

Lemma ret_ok {A} (x : A) tr a tr' :
  ret x tr = (Ok a, tr') -> a = x /\ tr' = tr.
Proof. unfold ret. now intros [= -> ->]. Qed.

Lemma json_ok (body : option pyval) tr v tr' :
  json body tr = (Ok v, tr') -> body = Some v /\ tr' = tr.
Proof. destruct body; simpl; [now intros [= -> ->] | discriminate]. Qed.

Lemma rbind_ok {A B} (r : result A) (k : A -> result B) b :
  rbind r k = Ok b -> exists a, r = Ok a /\ k a = Ok b.
Proof. destruct r as [a|e]; simpl; [|discriminate]. intros H. now exists a. Qed.

Section Runs.

Variable py_repr : pyval -> string.
Variable env : oracle.

Lemma http_ok (req : request) tr body tr' :
  http env req tr = (Ok body, tr') ->
  env tr req = Responds body /\ tr' = tr ++ [EvHttp req].
Proof.
  unfold http. destruct (env tr req); [discriminate|].
  now intros [= -> ->].
Qed.

Lemma comments_ok (self : Migrator) (yt_id wid : pyval) (comments : list pyval) :
  forall tr u tr',
  for_each (migrate_comment py_repr env self yt_id wid) comments tr = (Ok u, tr') ->
  exists texts,
    Forall2 (fun c text => comment_text_of py_repr self yt_id c = Ok text)
      comments texts
    /\ tr' = tr ++ map (comment_event py_repr self wid) texts.
Proof.
  induction comments as [|c l IH]; intros tr u tr' H.
  - apply ret_ok in H as [_ ->]. exists []. split; [constructor|].
    now rewrite app_nil_r.
  - cbn [for_each] in H. apply bind_ok in H as (? & tr1 & Hc & Hl).
    unfold migrate_comment in Hc.
    apply bind_ok in Hc as (text & t0 & Ht & Hc). apply lift_ok in Ht as [Ht ->].
    apply bind_ok in Hc as (? & t1 & Hp & Hc). apply http_ok in Hp as [_ ->].
    apply ret_ok in Hc as [_ ->].
    destruct (IH _ _ _ Hl) as (texts & F & ->).
    exists (text :: texts). split; [now constructor|].
    now rewrite <- app_assoc.
Qed.

Lemma attachments_ok (self : Migrator) (wid : pyval) (attachments : list pyval) :
  forall tr u tr',
  for_each (migrate_attachment py_repr env self wid) attachments tr = (Ok u, tr') ->
  exists uploads,
    Forall2 (fun a up => attachment_content a = Ok (fst up)) attachments uploads
    /\ tr' = tr ++ flat_map (attachment_events py_repr self wid) uploads.
Proof.
  induction attachments as [|a l IH]; intros tr u tr' H.
  - apply ret_ok in H as [_ ->]. exists []. split; [constructor|].
    now rewrite app_nil_r.
  - cbn [for_each] in H. apply bind_ok in H as (? & tr1 & Ha & Hl).
    unfold migrate_attachment in Ha.
    apply bind_ok in Ha as ([name decoded] & t0 & Hc & Ha).
    apply lift_ok in Hc as [Hc ->].
    apply bind_ok in Ha as (res & t1 & Hu & Ha). apply http_ok in Hu as [_ ->].
    apply bind_ok in Ha as (rj & t2 & Hj & Ha). apply json_ok in Hj as [_ ->].
    apply bind_ok in Ha as (url & t3 & Hg & Ha). apply lift_ok in Hg as [_ ->].
    apply bind_ok in Ha as (? & t4 & Hp & Ha). apply http_ok in Hp as [_ ->].
    apply ret_ok in Ha as [_ ->].
    destruct (IH _ _ _ Hl) as (uploads & F & ->).
    exists ((name, decoded, url) :: uploads). split; [now constructor|].
    cbn [flat_map attachment_events fst snd]. now rewrite <- !app_assoc.
Qed.

(** What a call of [migrate_issue] that ends without an exception has
    done. *)
Lemma migrate_issue_ok_inv (self : Migrator) (yt_id : pyval)
    (handler : CustomFieldHandler) tr r tr' :
  migrate_issue py_repr env self yt_id handler tr = (Ok r, tr') ->
  exists yt_data ops res wid comments attachments texts uploads,
    env tr (issue_request py_repr self yt_id) = Responds (Some yt_data)
    /\ compose_ops py_repr self yt_id yt_data handler = Ok ops
    /\ env (tr ++ [EvHttp (issue_request py_repr self yt_id)])
         (create_request self (fst ops)) = Responds (Some res)
    /\ py_getitem res "id" = Ok wid
    /\ items_of yt_data "comments" = Ok comments
    /\ items_of yt_data "attachments" = Ok attachments
    /\ Forall2 (fun c text => comment_text_of py_repr self yt_id c = Ok text)
         comments texts
    /\ Forall2 (fun a up => attachment_content a = Ok (fst up))
         attachments uploads
    /\ r = PNone
    /\ tr' = tr
             ++ [EvHttp (issue_request py_repr self yt_id);
                 EvHttp (create_request self (fst ops));
                 EvHttp (patch_request py_repr self wid (snd ops))]
             ++ map (comment_event py_repr self wid) texts
             ++ flat_map (attachment_events py_repr self wid) uploads.
Proof.
  unfold migrate_issue, migrate_fetched, _youtrack_issue_data. intros H.
  apply bind_ok in H as (yt_data & t1 & Hf & H).
  apply bind_ok in Hf as (body & t0 & Hf & Hj).
  apply http_ok in Hf as [Hf ->]. apply json_ok in Hj as [-> ->].
  apply bind_ok in H as (ops & t2 & Ho & H). apply lift_ok in Ho as [Ho ->].
  apply bind_ok in H as (rb & t3 & Hc & H). apply http_ok in Hc as [Hc ->].
  apply bind_ok in H as (res & t4 & Hj & H). apply json_ok in Hj as [-> ->].
  apply bind_ok in H as (has_id & t5 & Hi & H). apply lift_ok in Hi as [Hi ->].
  destruct has_id; simpl in H; [|discriminate].
  apply bind_ok in H as (wid & t6 & Hw & H). apply lift_ok in Hw as [Hw ->].
  unfold after_creation in H.
  apply bind_ok in H as (? & t7 & Hp & H). apply http_ok in Hp as [_ ->].
  apply bind_ok in H as (comments & t8 & Hcs & H). apply lift_ok in Hcs as [Hcs ->].
  apply bind_ok in H as (? & t9 & Hfc & H).
  apply comments_ok in Hfc as (texts & Ft & ->).
  apply bind_ok in H as (atts & t10 & Has & H). apply lift_ok in Has as [Has ->].
  apply bind_ok in H as (? & t11 & Hfa & H).
  apply attachments_ok in Hfa as (uploads & Fu & ->).
  apply ret_ok in H as [-> ->].
  exists yt_data, ops, res, wid, comments, atts, texts, uploads.
  repeat split; try assumption.
  now rewrite <- !app_assoc.
Qed.

End Runs.

(** ** The calls of [migrate_issue] *)

Section Calls.

Variable py_repr : pyval -> string.
Variable env : oracle.

(** C1, as amended: a call of [migrate_issue] that ends without raising
    has sent, after the request that reads the issue, exactly one
    creation call, then exactly one deferred-patch call, then one
    comment post for each of the N comments in the order of the source,
    then for each of the M attachments in the order of the source one
    upload immediately followed by one link; the patch, the posts and the
    links are addressed to the identifier of the creation response. *)
Theorem migrate_issue_call_sequence (self : Migrator) (yt_id : pyval)
    (handler : CustomFieldHandler) (tr tr' : list event) (r : pyval) :
  migrate_issue py_repr env self yt_id handler tr = (Ok r, tr') ->
  exists yt_data ops res wid comments attachments texts uploads,
    env tr (issue_request py_repr self yt_id) = Responds (Some yt_data)
    /\ compose_ops py_repr self yt_id yt_data handler = Ok ops
    /\ env (tr ++ [EvHttp (issue_request py_repr self yt_id)])
         (create_request self (fst ops)) = Responds (Some res)
    /\ py_getitem res "id" = Ok wid
    /\ items_of yt_data "comments" = Ok comments
    /\ items_of yt_data "attachments" = Ok attachments
    /\ Forall2 (fun c text => comment_text_of py_repr self yt_id c = Ok text)
         comments texts
    /\ Forall2 (fun a up => attachment_content a = Ok (fst up))
         attachments uploads
    /\ List.length texts = List.length comments
    /\ List.length uploads = List.length attachments
    /\ tr' = tr
             ++ [EvHttp (issue_request py_repr self yt_id);
                 EvHttp (create_request self (fst ops));
                 EvHttp (patch_request py_repr self wid (snd ops))]
             ++ map (comment_event py_repr self wid) texts
             ++ flat_map (attachment_events py_repr self wid) uploads.
Proof.
  intros H.
  destruct (migrate_issue_ok_inv py_repr env _ _ _ _ _ _ H)
    as (yt_data & ops & res & wid & comments & atts & texts & uploads
        & Hf & Ho & Hc & Hw & Hcs & Has & Ft & Fu & _ & Htr).
  exists yt_data, ops, res, wid, comments, atts, texts, uploads.
  repeat split; try assumption.
  - symmetry. exact (Forall2_length Ft).
  - symmetry. exact (Forall2_length Fu).
Qed.

(** C2, as amended: a call of [migrate_issue] that ends without raising
    returns [None]; the identifier of the created work item is the
    address of the later calls and is not given to the caller. *)
Theorem migrate_issue_returns_none (self : Migrator) (yt_id : pyval)
    (handler : CustomFieldHandler) (tr tr' : list event) (r : pyval) :
  migrate_issue py_repr env self yt_id handler tr = (Ok r, tr') ->
  r = PNone
  /\ exists ops res wid,
       env (tr ++ [EvHttp (issue_request py_repr self yt_id)])
         (create_request self (fst ops)) = Responds (Some res)
       /\ py_getitem res "id" = Ok wid
       /\ In (EvHttp (patch_request py_repr self wid (snd ops))) tr'.
Proof.
  intros H.
  destruct (migrate_issue_ok_inv py_repr env _ _ _ _ _ _ H)
    as (yt_data & ops & res & wid & comments & atts & texts & uploads
        & Hf & Ho & Hc & Hw & Hcs & Has & Ft & Fu & Hr & Htr).
  split; [exact Hr|]. exists ops, res, wid. repeat split; try assumption.
  rewrite Htr. apply in_or_app. right. apply in_or_app. left.
  simpl. auto.
Qed.

(** C3: when the body of the creation response is a document in which
    [id] is not found, [migrate_issue] raises the [RuntimeError] whose
    message holds the source identifier and the response; it has sent the
    request that reads the issue and one creation call and nothing else;
    and the loop of [migrate_project] lets that error through at its first
    attempt. *)
Theorem creation_without_id_fails (self : Migrator) (yt_id : pyval)
    (handler : CustomFieldHandler) (tr : list event) (yt_data res : pyval)
    (ops : list pyval * list pyval) :
  env tr (issue_request py_repr self yt_id) = Responds (Some yt_data) ->
  compose_ops py_repr self yt_id yt_data handler = Ok ops ->
  env (tr ++ [EvHttp (issue_request py_repr self yt_id)])
    (create_request self (fst ops)) = Responds (Some res) ->
  py_contains "id" res = Ok false ->
  let failure :=
    RuntimeError ("migration of " +++ py_str py_repr yt_id +++ " failed: "
                  +++ py_str py_repr res) in
  let sent :=
    tr ++ [EvHttp (issue_request py_repr self yt_id);
           EvHttp (create_request self (fst ops))] in
  migrate_issue py_repr env self yt_id handler tr = (Err failure, sent)
  /\ forall fuel,
       retry_migrate_issue py_repr env (S fuel) self yt_id handler tr
       = (Some (Err failure), sent).
Proof.
  intros Hf Ho Hc Hi failure sent.
  assert (E : migrate_issue py_repr env self yt_id handler tr = (Err failure, sent)).
  { unfold migrate_issue, migrate_fetched, _youtrack_issue_data,
      bind, http, json, lift, raise, ret.
    rewrite Hf, Ho, Hc, Hi. simpl. unfold sent. now rewrite <- app_assoc. }
  split; [exact E|]. intros fuel. simpl. now rewrite E.
Qed.

End Calls.

Lemma migrate_issue_call_sequence_witness :
  exists yt_data ops res wid comments attachments texts uploads,
    full_env [] (issue_request sample_repr sample_migrator (PStr "X-2"))
    = Responds (Some yt_data)
    /\ compose_ops sample_repr sample_migrator (PStr "X-2") yt_data no_assignments
       = Ok ops
    /\ full_env [EvHttp (issue_request sample_repr sample_migrator (PStr "X-2"))]
         (create_request sample_migrator (fst ops)) = Responds (Some res)
    /\ py_getitem res "id" = Ok wid
    /\ items_of yt_data "comments" = Ok comments
    /\ items_of yt_data "attachments" = Ok attachments
    /\ Forall2
         (fun c text =>
            comment_text_of sample_repr sample_migrator (PStr "X-2") c = Ok text)
         comments texts
    /\ Forall2 (fun a up => attachment_content a = Ok (fst up))
         attachments uploads
    /\ List.length texts = List.length comments
    /\ List.length uploads = List.length attachments
    /\ snd (migrate_issue sample_repr full_env sample_migrator (PStr "X-2")
              no_assignments [])
       = [EvHttp (issue_request sample_repr sample_migrator (PStr "X-2"));
          EvHttp (create_request sample_migrator (fst ops));
          EvHttp (patch_request sample_repr sample_migrator wid (snd ops))]
         ++ map (comment_event sample_repr sample_migrator wid) texts
         ++ flat_map (attachment_events sample_repr sample_migrator wid) uploads.
Proof.
  exact (migrate_issue_call_sequence sample_repr full_env sample_migrator
           (PStr "X-2") no_assignments [] _ PNone eq_refl).
Defined.

(** C1 as the claim states it fails: the creation response holds an
    identifier and the issue has one attachment, yet no upload and no link
    is sent, because the payload of the attachment has no comma and the
    run ends in an [IndexError] after three requests. *)
Lemma call_sequence_counterexample :
  items_of bare_issue "attachments" = Ok [bare_attachment]
  /\ bare_env [EvHttp (issue_request sample_repr sample_migrator (PStr "X-2"))]
       (create_request sample_migrator
          [_set_field "System.Title" (PStr "Logs");
           _set_field "System.Description"
             (PStr (description_text sample_repr sample_migrator (PStr "X-2")
                      (PStr "bob") "2023-11-14T22:13:20" (PStr "See file")))])
     = Responds (Some (PDict [("id", PInt 7)]))
  /\ fst (migrate_issue sample_repr bare_env sample_migrator (PStr "X-2")
            no_assignments []) = Err IndexError
  /\ List.length
       (snd (migrate_issue sample_repr bare_env sample_migrator (PStr "X-2")
               no_assignments [])) = 3
  /\ forall decoded,
       ~ In (EvHttp (upload_request sample_migrator decoded))
           (snd (migrate_issue sample_repr bare_env sample_migrator (PStr "X-2")
                   no_assignments [])).
Proof.
  repeat split; try reflexivity.
  intros decoded H. vm_compute in H.
  repeat (destruct H as [H|H]; [discriminate H|]). exact H.
Qed.

Lemma migrate_issue_returns_none_witness :
  PNone = PNone
  /\ exists ops res wid,
       sample_env ([] ++ [EvHttp (issue_request sample_repr sample_migrator (PStr "X-1"))])
         (create_request sample_migrator (fst ops)) = Responds (Some res)
       /\ py_getitem res "id" = Ok wid
       /\ In (EvHttp (patch_request sample_repr sample_migrator wid (snd ops)))
            (snd (migrate_issue sample_repr sample_env sample_migrator (PStr "X-1")
                    no_assignments [])).
Proof.
  exact (migrate_issue_returns_none sample_repr sample_env sample_migrator
           (PStr "X-1") no_assignments [] _ PNone eq_refl).
Defined.

(** C2 as the claim states it fails: the work item is created with the
    identifier 7 and the call returns [None], not 7. *)
Lemma returns_identifier_counterexample :
  sample_env [EvHttp (issue_request sample_repr sample_migrator (PStr "X-1"))]
    (create_request sample_migrator
       [_set_field "System.Title" (PStr "Fix crash");
        _set_field "System.Description"
          (PStr (description_text sample_repr sample_migrator (PStr "X-1")
                   (PStr "alice") "2023-11-14T22:13:20"
                   (PStr ("Steps:" +++ nl +++ "Do A" +++ nl +++ "Do B"))))])
  = Responds (Some (PDict [("id", PInt 7)]))
  /\ fst (migrate_issue sample_repr sample_env sample_migrator (PStr "X-1")
            no_assignments []) = Ok PNone
  /\ fst (migrate_issue sample_repr sample_env sample_migrator (PStr "X-1")
            no_assignments []) <> Ok (PInt 7).
Proof. repeat split; try reflexivity. discriminate. Qed.

Lemma creation_without_id_witness :
  migrate_issue sample_repr denied_env sample_migrator (PStr "X-1")
    no_assignments []
  = (Err (RuntimeError "migration of X-1 failed: {'message': 'denied'}"),
     [EvHttp (issue_request sample_repr sample_migrator (PStr "X-1"));
      EvHttp (create_request sample_migrator
                (fst (fold_left append_custom_op []
                        ([_set_field "System.Title" (PStr "Fix crash");
                          _set_field "System.Description"
                            (PStr (description_text sample_repr sample_migrator
                                     (PStr "X-1") (PStr "alice")
                                     "2023-11-14T22:13:20"
                                     (PStr ("Steps:" +++ nl +++ "Do A" +++ nl
                                            +++ "Do B"))))], []))))]).
Proof.
  exact (proj1 (creation_without_id_fails sample_repr denied_env sample_migrator
                  (PStr "X-1") no_assignments [] sample_issue
                  (PDict [("message", PStr "denied")]) _
                  eq_refl eq_refl eq_refl eq_refl)).
Defined.

(** ** What a computation adds to the trace *)

Lemma appends_ret {A} P (a : A) : appends P (ret a).
Proof. intros tr. exists []. split; [now rewrite app_nil_r | constructor]. Qed.

Lemma appends_raise {A} P (e : exn) : appends P (@raise A e).
Proof. intros tr. exists []. split; [now rewrite app_nil_r | constructor]. Qed.

Lemma appends_lift {A} P (r : result A) : appends P (lift r).
Proof. intros tr. exists []. split; [now rewrite app_nil_r | constructor]. Qed.

Lemma appends_json P (body : option pyval) : appends P (json body).
Proof. destruct body; [apply appends_ret | apply appends_raise]. Qed.

Lemma appends_http P (env : oracle) (req : request) :
  P (EvHttp req) -> appends P (http env req).
Proof.
  intros H tr. exists [EvHttp req]. split; [reflexivity | now constructor].
Qed.

Lemma appends_bind {A B} P (c : M A) (k : A -> M B) :
  appends P c -> (forall a, appends P (k a)) -> appends P (bind c k).
Proof.
  intros Hc Hk tr. unfold bind. destruct (Hc tr) as (evs1 & E1 & F1).
  destruct (c tr) as [[a|e] tr1]; simpl in E1; subst tr1.
  - destruct (Hk a (tr ++ evs1)) as (evs2 & E2 & F2).
    exists (evs1 ++ evs2). rewrite E2, app_assoc. split; [reflexivity|].
    apply Forall_app. now split.
  - now exists evs1.
Qed.

Lemma appends_for_each {A} P (body : A -> M unit) (l : list A) :
  (forall a, appends P (body a)) -> appends P (for_each body l).
Proof.
  intros H. induction l as [|a l IH]; simpl.
  - apply appends_ret.
  - apply appends_bind; [apply H | intros _; exact IH].
Qed.

Lemma nth_error_after {A} (l : list A) (a : A) (rest : list A) :
  nth_error (l ++ a :: rest) (List.length l) = Some a.
Proof. rewrite nth_error_app2 by lia. now rewrite Nat.sub_diag. Qed.

Section Partition.

Variable py_repr : pyval -> string.
Variable env : oracle.

Lemma bind_http_starts {A} (req : request) (k : option pyval -> M A)
    (tr : list event) :
  (forall a, appends (fun _ => True) (k a)) ->
  exists rest, snd (bind (http env req) k tr) = tr ++ EvHttp req :: rest.
Proof.
  intros Hk. unfold bind, http. destruct (env tr req) as [e|body].
  - exists []. reflexivity.
  - destruct (Hk body (tr ++ [EvHttp req])) as (evs & E & _).
    exists evs. rewrite E, <- app_assoc. reflexivity.
Qed.

Lemma after_creation_starts (self : Migrator) (yt_id yt_data wid : pyval)
    (delayed_ops : list pyval) (tr : list event) :
  exists rest,
    snd (after_creation py_repr env self yt_id yt_data wid delayed_ops tr)
    = tr ++ EvHttp (patch_request py_repr self wid delayed_ops) :: rest.
Proof.
  unfold after_creation. apply bind_http_starts. intros a.
  repeat first
    [ apply appends_ret | apply appends_lift
    | apply appends_for_each; intros ?
    | apply appends_bind; [|intros ?]
    | apply appends_http; exact I
    | apply appends_json
    | progress unfold migrate_comment, migrate_attachment ].
Qed.

(** C4: the creation call carries, after the assignments of the title
    and of the description, the assignments of the handler whose flag is
    false, and the deferred patch carries the ones whose flag is true;
    each is the operation [add] on the path of its field with its value,
    and each of the two lists keeps the order the handler gave. *)
Theorem custom_ops_partition (self : Migrator) (yt_id yt_data : pyval)
    (handler : CustomFieldHandler) (ops : list pyval * list pyval)
    (tr : list event) :
  env tr (issue_request py_repr self yt_id) = Responds (Some yt_data) ->
  compose_ops py_repr self yt_id yt_data handler = Ok ops ->
  let assignment (field : string) (value : pyval) : pyval :=
    PDict [("op", PStr "add"); ("path", PStr ("/fields/" +++ field));
           ("from", PNone); ("value", value)] in
  let assigned (custom_op : SetFieldOperation) : pyval :=
    assignment (ado_field custom_op) (yt_field custom_op) in
  exists summary description fields custom_ops rest,
    py_getitem yt_data "summary" = Ok summary
    /\ _build_custom_field_dict yt_data = Ok fields
    /\ handler fields = Ok custom_ops
    /\ let creation :=
         {| req_method := POST;
            req_url := ado_base self +++ "/workitems/$Task?api-version=6.0";
            req_headers :=
              [("Authorization", auth_header_azdo self);
               ("Content-Type", "application/json-patch+json")];
            req_verify := true;
            req_body :=
              JsonBody
                (PList
                   ([assignment "System.Title" summary;
                     assignment "System.Description" (PStr description)]
                    ++ map assigned
                         (filter (fun o => negb (set_after_creation o))
                            custom_ops))) |} in
       snd (migrate_issue py_repr env self yt_id handler tr)
       = tr ++ EvHttp (issue_request py_repr self yt_id)
            :: EvHttp creation :: rest
       /\ forall res wid,
            env (tr ++ [EvHttp (issue_request py_repr self yt_id)]) creation
            = Responds (Some res) ->
            py_contains "id" res = Ok true ->
            py_getitem res "id" = Ok wid ->
            exists rest',
              rest
              = EvHttp
                  {| req_method := PATCH;
                     req_url := ado_base self +++ "/workitems/"
                                +++ py_str py_repr wid +++ "?api-version=6.0";
                     req_headers :=
                       [("Authorization", auth_header_azdo self);
                        ("Content-Type", "application/json-patch+json")];
                     req_verify := true;
                     req_body :=
                       JsonBody
                         (PList
                            (map assigned
                               (filter set_after_creation custom_ops))) |}
                  :: rest'.
Proof.
  intros Hf Ho assignment assigned. pose proof Ho as Ho'. unfold compose_ops in Ho'.
  apply rbind_ok in Ho' as (summary & Hsum & Ho').
  apply rbind_ok in Ho' as (timestamp & _ & Ho').
  apply rbind_ok in Ho' as (created & _ & Ho').
  apply rbind_ok in Ho' as (reporter & _ & Ho').
  apply rbind_ok in Ho' as (login & _ & Ho').
  apply rbind_ok in Ho' as (body & _ & Ho').
  apply rbind_ok in Ho' as (fields & Hfields & Ho').
  apply rbind_ok in Ho' as (custom_ops & Hh & Ho').
  injection Ho' as Hops. rewrite fold_append_custom_op in Hops.
  assert (Hrun : exists rest,
    snd (migrate_issue py_repr env self yt_id handler tr)
    = tr ++ EvHttp (issue_request py_repr self yt_id)
         :: EvHttp (create_request self (fst ops)) :: rest
    /\ forall res wid,
         env (tr ++ [EvHttp (issue_request py_repr self yt_id)])
           (create_request self (fst ops)) = Responds (Some res) ->
         py_contains "id" res = Ok true ->
         py_getitem res "id" = Ok wid ->
         exists rest',
           rest = EvHttp (patch_request py_repr self wid (snd ops)) :: rest').
  { unfold migrate_issue, migrate_fetched, _youtrack_issue_data,
      bind, http, json, lift, raise, ret.
    rewrite Hf, Ho.
    destruct (env _ (create_request self (fst ops))) as [e|[res|]] eqn:Hc;
      cbn [fst snd].
    - exists []. split; [now rewrite <- app_assoc | discriminate].
    - destruct (py_contains "id" res) as [[|]|e] eqn:Hi; cbn [negb fst snd].
      + destruct (py_getitem res "id") as [wid|e] eqn:Hw; cbn [fst snd].
        * destruct (after_creation_starts self yt_id yt_data wid (snd ops)
                      ((tr ++ [EvHttp (issue_request py_repr self yt_id)])
                         ++ [EvHttp (create_request self (fst ops))]))
            as (rest & E).
          exists (EvHttp (patch_request py_repr self wid (snd ops)) :: rest).
          split.
          -- rewrite E, <- !app_assoc. reflexivity.
          -- intros res' wid' [= <-] _ Hw'. rewrite Hw in Hw'.
             injection Hw' as <-. now exists rest.
        * exists []. split; [now rewrite <- app_assoc|].
          intros res' wid' [= <-] _ Hw'. congruence.
      + exists []. split; [now rewrite <- app_assoc|].
        intros res' wid' [= <-] Hi' _. congruence.
      + exists []. split; [now rewrite <- app_assoc|].
        intros res' wid' [= <-] Hi' _. congruence.
    - exists []. split; [now rewrite <- app_assoc | discriminate]. }
  destruct Hrun as (rest & Hrest & Hpatch).
  exists summary, (description_text py_repr self yt_id login created body),
    fields, custom_ops, rest.
  split; [exact Hsum|]. split; [exact Hfields|]. split; [exact Hh|].
  assert (Hcreate : create_request self (fst ops)
                    = {| req_method := POST;
                         req_url := ado_base self +++ "/workitems/$Task?api-version=6.0";
                         req_headers :=
                           [("Authorization", auth_header_azdo self);
                            ("Content-Type", "application/json-patch+json")];
                         req_verify := true;
                         req_body :=
                           JsonBody
                             (PList
                                ([assignment "System.Title" summary;
                                  assignment "System.Description"
                                    (PStr (description_text py_repr self yt_id
                                             login created body))]
                                 ++ map assigned
                                      (filter (fun o => negb (set_after_creation o))
                                         custom_ops))) |}).
  { rewrite <- Hops. reflexivity. }
  cbv zeta. rewrite <- Hcreate. split; [exact Hrest|].
  intros res wid Hc Hi Hw.
  destruct (Hpatch res wid Hc Hi Hw) as (rest' & ->).
  exists rest'. rewrite <- Hops. reflexivity.
Qed.

End Partition.

Lemma custom_ops_partition_witness :
  exists description rest,
    snd (migrate_issue sample_repr sample_env sample_migrator (PStr "X-1")
           mixed_handler [])
    = [EvHttp (issue_request sample_repr sample_migrator (PStr "X-1"));
       EvHttp
         {| req_method := POST;
            req_url := "https://dev.azure.com/org/proj/_apis/wit/workitems/$Task?api-version=6.0";
            req_headers :=
              [("Authorization", "Basic OnBhdA==");
               ("Content-Type", "application/json-patch+json")];
            req_verify := true;
            req_body :=
              JsonBody
                (PList
                   [PDict [("op", PStr "add"); ("path", PStr "/fields/System.Title");
                           ("from", PNone); ("value", PStr "Fix crash")];
                    PDict [("op", PStr "add");
                           ("path", PStr "/fields/System.Description");
                           ("from", PNone); ("value", PStr description)];
                    PDict [("op", PStr "add"); ("path", PStr "/fields/Custom.A");
                           ("from", PNone); ("value", PStr "a")];
                    PDict [("op", PStr "add"); ("path", PStr "/fields/Custom.B");
                           ("from", PNone); ("value", PInt 2)]]) |};
       EvHttp
         {| req_method := PATCH;
            req_url := "https://dev.azure.com/org/proj/_apis/wit/workitems/7?api-version=6.0";
            req_headers :=
              [("Authorization", "Basic OnBhdA==");
               ("Content-Type", "application/json-patch+json")];
            req_verify := true;
            req_body :=
              JsonBody
                (PList
                   [PDict [("op", PStr "add"); ("path", PStr "/fields/System.State");
                           ("from", PNone); ("value", PStr "Done")];
                    PDict [("op", PStr "add"); ("path", PStr "/fields/System.Reason");
                           ("from", PNone); ("value", PStr "Moved")]]) |}]
      ++ rest.
Proof.
  destruct (custom_ops_partition sample_repr sample_env sample_migrator
              (PStr "X-1") sample_issue mixed_handler
              (fold_left append_custom_op
                 [ {| ado_field := "Custom.A"; yt_field := PStr "a"; set_after_creation := false |};
                   {| ado_field := "System.State"; yt_field := PStr "Done"; set_after_creation := true |};
                   {| ado_field := "Custom.B"; yt_field := PInt 2; set_after_creation := false |};
                   {| ado_field := "System.Reason"; yt_field := PStr "Moved"; set_after_creation := true |} ]
                 ([_set_field "System.Title" (PStr "Fix crash");
                   _set_field "System.Description"
                     (PStr (description_text sample_repr sample_migrator (PStr "X-1")
                              (PStr "alice") "2023-11-14T22:13:20"
                              (PStr ("Steps:" +++ nl +++ "Do A" +++ nl +++ "Do B"))))],
                  []))
              [] eq_refl eq_refl)
    as (summary & description & fields & custom_ops & rest
        & Hs & Hf & Hh & Htr & Hp).
  injection Hs as <-. injection Hh as <-.
  destruct (Hp (PDict [("id", PInt 7)]) (PInt 7) eq_refl eq_refl eq_refl)
    as (rest' & ->).
  exists description, rest'. rewrite Htr. reflexivity.
Defined.

(** ** Attachments *)

Lemma py_split_head (sep : ascii) (s : string) :
  exists rest, py_split sep s = up_to sep s :: rest.
Proof.
  induction s as [|c s [rest IH]]; simpl.
  - now exists [].
  - destruct (Ascii.eqb c sep); [now eexists|].
    rewrite IH. now exists rest.
Qed.

Lemma py_split_second (sep : ascii) (s : string) :
  no_char sep s = false ->
  nth_error (py_split sep s) 1 = Some (up_to sep (after_first sep s)).
Proof.
  induction s as [|c s IH]; simpl; [discriminate|].
  destruct (Ascii.eqb c sep); simpl.
  - intros _. destruct (py_split_head sep s) as [rest ->]. reflexivity.
  - intros H. specialize (IH H).
    destruct (py_split sep s) as [|field rest]; [discriminate IH | exact IH].
Qed.

Lemma up_to_all (sep : ascii) (s : string) :
  no_char sep s = true -> up_to sep s = s.
Proof.
  induction s as [|c s IH]; simpl; [reflexivity|]. intros H.
  apply andb_true_iff in H as [Hc Hs]. apply negb_true_iff in Hc.
  now rewrite Hc, IH.
Qed.

Lemma Forall2_In_l {A B} (R : A -> B -> Prop) (l : list A) (l' : list B) (a : A) :
  Forall2 R l l' -> In a l -> exists b, In b l' /\ R a b.
Proof.
  induction 1 as [|x y l l' Hxy _ IH]; simpl; [contradiction|].
  intros [<-|Hin].
  - exists y. auto.
  - destruct (IH Hin) as (b & Hb & Hr). exists b. auto.
Qed.

Lemma for_each_app {A} (body : A -> M unit) (l1 l2 : list A) (tr : list event) :
  for_each body (l1 ++ l2) tr =
  match for_each body l1 tr with
  | (Ok _, tr1) => for_each body l2 tr1
  | (Err e, tr1) => (Err e, tr1)
  end.
Proof.
  revert tr; induction l1 as [|a l1 IH]; intros tr; simpl; [reflexivity|].
  unfold bind. destruct (body a tr) as [[u|e] tr1]; [apply IH | reflexivity].
Qed.

Section Attachments.

Variable py_repr : pyval -> string.
Variable env : oracle.

(** C8: for a payload of the form <meta>,<base64>, a prefix without a
    comma, a comma, and base64 text, which holds no comma, the text
    the code decodes is all the text after the first comma, and the body
    of the upload request is the bytes that text decodes to; when the
    text does not decode, nothing is uploaded. *)
Theorem data_uri_payload_decoded (self : Migrator)
    (wid attachment name : pyval) (meta b64 : string) :
  let payload := meta +++ "," +++ b64 in
  py_getitem attachment "name" = Ok name ->
  py_getitem attachment "base64Content" = Ok (PStr payload) ->
  no_char comma meta = true ->
  no_char comma b64 = true ->
  after_first comma payload = b64
  /\ (forall decoded tr,
        b64decode (after_first comma payload) = Ok decoded ->
        exists rest,
          snd (migrate_attachment py_repr env self wid attachment tr)
          = tr ++ EvHttp
                    {| req_method := POST;
                       req_url := ado_base self +++ "/attachments?api-version=6.0";
                       req_headers :=
                         [("Authorization", auth_header_azdo self);
                          ("Content-Type", "application/octet-stream")];
                       req_verify := true;
                       req_body := DataBody decoded |}
                  :: rest)
  /\ (forall e tr,
        b64decode (after_first comma payload) = Err e ->
        migrate_attachment py_repr env self wid attachment tr = (Err e, tr)).
Proof.
  intros payload Hn Hp Hmeta Hb64.
  assert (Ha : after_first comma payload = b64).
  { unfold payload. apply (after_first_app comma meta b64 Hmeta). }
  assert (E : attachment_content attachment
              = (let? decoded := b64decode b64 in Ok (name, decoded))%result).
  { unfold attachment_content. rewrite Hn, Hp. cbn [rbind py_split_comma].
    unfold payload.
    change (meta +++ "," +++ b64) with (meta +++ String comma b64).
    rewrite (py_split_at_first comma meta b64 Hmeta).
    rewrite (py_split_one_field comma b64 Hb64). reflexivity. }
  split; [exact Ha|]. rewrite Ha. split.
  - intros decoded tr Hd. unfold migrate_attachment.
    unfold bind at 1. unfold lift at 1. rewrite E, Hd. cbn [rbind snd fst].
    apply bind_http_starts. intros a.
    repeat first
      [ apply appends_ret | apply appends_lift
      | apply appends_bind; [|intros ?]
      | apply appends_http; exact I
      | apply appends_json ].
  - intros e tr He. unfold migrate_attachment, bind, lift.
    rewrite E, He. reflexivity.
Qed.

(** C9: an attachment whose payload is text without a comma makes the
    body of the loop raise [IndexError] before any request is sent for
    it; the loop over the attachments stops there, and [migrate_issue]
    does not end normally for an issue that holds such an attachment. *)
Theorem payload_without_comma_fails (self : Migrator)
    (wid attachment name : pyval) (payload : string) :
  py_getitem attachment "name" = Ok name ->
  py_getitem attachment "base64Content" = Ok (PStr payload) ->
  no_char comma payload = true ->
  attachment_content attachment = Err IndexError
  /\ (forall tr,
        migrate_attachment py_repr env self wid attachment tr
        = (Err IndexError, tr))
  /\ (forall before after tr,
        for_each (migrate_attachment py_repr env self wid)
          (before ++ attachment :: after) tr
        = match for_each (migrate_attachment py_repr env self wid) before tr with
          | (Ok _, tr1) => (Err IndexError, tr1)
          | (Err e, tr1) => (Err e, tr1)
          end)
  /\ (forall yt_id handler tr yt_data attachments r tr',
        env tr (issue_request py_repr self yt_id) = Responds (Some yt_data) ->
        items_of yt_data "attachments" = Ok attachments ->
        In attachment attachments ->
        migrate_issue py_repr env self yt_id handler tr = (r, tr') ->
        exists e, r = Err e).
Proof.
  intros Hn Hp Hcomma.
  assert (E : attachment_content attachment = Err IndexError).
  { unfold attachment_content. rewrite Hn, Hp. simpl.
    now rewrite (py_split_one_field _ _ Hcomma). }
  assert (B : forall w tr,
             migrate_attachment py_repr env self w attachment tr
             = (Err IndexError, tr)).
  { intros w tr. unfold migrate_attachment, bind, lift. now rewrite E. }
  split; [exact E|]. split; [apply B|]. split.
  - intros before after tr. rewrite for_each_app.
    destruct (for_each _ before tr) as [[u|e] tr1]; [|reflexivity].
    cbn [for_each]. unfold bind. now rewrite B.
  - intros yt_id handler tr yt_data atts r tr' Hf Ha Hin Hrun.
    destruct r as [v|e]; [|now exists e]. exfalso.
    destruct (migrate_issue_ok_inv py_repr env _ _ _ _ _ _ Hrun)
      as (yt_data' & ops & res & w & comments & atts' & texts & uploads
          & Hf' & _ & _ & _ & _ & Ha' & _ & Fu & _).
    rewrite Hf in Hf'. injection Hf' as <-.
    rewrite Ha in Ha'. injection Ha' as <-.
    destruct (Forall2_In_l _ _ _ _ Fu Hin) as (up & _ & Hup).
    simpl in Hup. congruence.
Qed.

End Attachments.

Lemma data_uri_payload_decoded_witness :
  after_first comma ("data:text/plain;base64" +++ "," +++ "QUJD") = "QUJD"
  /\ exists rest,
       snd (migrate_attachment sample_repr full_env sample_migrator (PInt 7)
              data_uri_attachment [])
       = [] ++ EvHttp
                 {| req_method := POST;
                    req_url := ado_base sample_migrator
                               +++ "/attachments?api-version=6.0";
                    req_headers :=
                      [("Authorization", auth_header_azdo sample_migrator);
                       ("Content-Type", "application/octet-stream")];
                    req_verify := true;
                    req_body := DataBody [Byte.x41; Byte.x42; Byte.x43] |}
               :: rest.
Proof.
  destruct (data_uri_payload_decoded sample_repr full_env sample_migrator
              (PInt 7) data_uri_attachment (PStr "log.txt")
              "data:text/plain;base64" "QUJD" eq_refl eq_refl eq_refl eq_refl)
    as (Ha & Hup & _).
  split; [exact Ha|].
  exact (Hup [Byte.x41; Byte.x42; Byte.x43] [] eq_refl).
Defined.

Lemma payload_without_comma_witness :
  attachment_content bare_attachment = Err IndexError
  /\ migrate_issue sample_repr bare_env sample_migrator (PStr "X-2")
       no_assignments []
     = (Err IndexError,
        snd (migrate_issue sample_repr bare_env sample_migrator (PStr "X-2")
               no_assignments [])).
Proof.
  destruct (payload_without_comma_fails sample_repr bare_env sample_migrator
              (PInt 7) bare_attachment (PStr "log.txt") "QUJD"
              eq_refl eq_refl eq_refl)
    as (E & _ & _ & _).
  split; [exact E | reflexivity].
Defined.

(** ** The text of descriptions and comments *)

Lemma substringb_skip (x a t : string) :
  substringb x t = true -> substringb x (a +++ t) = true.
Proof.
  intros H. induction a as [|c a IH]; [exact H|].
  simpl. rewrite IH. apply orb_true_r.
Qed.

Lemma substringb_here (x t : string) : substringb x (x +++ t) = true.
Proof. apply substringb_prefix, prefix_app. Qed.

Lemma substringb_refl (x : string) : substringb x x = true.
Proof. rewrite <- (append_nil_r x) at 2. apply substringb_here. Qed.

Lemma provenance_of (m header link login created body a b c : string) :
  no_char newline m = true ->
  no_char newline created = true ->
  no_char newline a = true -> no_char newline b = true ->
  no_char newline c = true ->
  header = a +++ link +++ b +++ login +++ c +++ created +++ "]" ->
  provenance (m +++ nl) header link login created body
    (mark m (header +++ nl +++ nl +++ body)).
Proof.
  intros Hm Hcr Ha Hb Hc Hh.
  assert (Hback : py_replace (mark m (header +++ nl +++ nl +++ body)) (m +++ nl) nl
                  = header +++ nl +++ nl +++ body).
  { exact (unmark_mark m Hm (header +++ nl +++ nl +++ body)). }
  unfold provenance. rewrite Hback. rewrite mark_break_lines.
  set (B := break_lines (m +++ nl)).
  assert (T : B (header +++ nl +++ nl +++ body)
              = B header +++ (m +++ nl) +++ (m +++ nl) +++ B body).
  { unfold B. now rewrite !break_lines_app, !break_lines_nl. }
  assert (H : B header
              = a +++ B link +++ b +++ B login +++ c +++ created +++ "]").
  { unfold B. rewrite Hh, !break_lines_app.
    rewrite (break_lines_one_line _ a Ha), (break_lines_one_line _ b Hb),
      (break_lines_one_line _ c Hc), (break_lines_one_line _ created Hcr).
    reflexivity. }
  split; [reflexivity|]. split; [exact T|]. rewrite T.
  assert (Slink : substringb (B link) (B header +++ (m +++ nl) +++ (m +++ nl) +++ B body) = true).
  { rewrite H, !append_assoc. apply substringb_skip, substringb_here. }
  assert (Slogin : substringb (B login) (B header +++ (m +++ nl) +++ (m +++ nl) +++ B body) = true).
  { rewrite H, !append_assoc. do 3 apply substringb_skip. apply substringb_here. }
  split; [exact Slink|]. split; [exact Slogin|]. split.
  { rewrite H, !append_assoc. do 5 apply substringb_skip. apply substringb_here. }
  split.
  { do 3 apply substringb_skip. apply substringb_refl. }
  split.
  { intros Hl. unfold B in Slink. now rewrite (break_lines_one_line _ link Hl) in Slink. }
  split.
  { intros Hl. unfold B in Slogin. now rewrite (break_lines_one_line _ login Hl) in Slogin. }
  split.
  { intros Hl Hlg.
    assert (Hone : no_char newline header = true).
    { rewrite Hh, !no_char_app, Ha, Hb, Hc, Hcr, Hl, Hlg. reflexivity. }
    unfold B. rewrite (break_lines_one_line _ header Hone). apply prefix_app. }
  split; [reflexivity|].
  replace (header +++ nl +++ nl +++ body) with ((header +++ nl +++ nl) +++ body)
    by now rewrite !append_assoc.
  replace (String.length header + 2) with (String.length (header +++ nl +++ nl))
    by (rewrite !append_length; reflexivity).
  apply string_drop_app.
Qed.

Section Provenance.

Variable py_repr : pyval -> string.

Lemma description_text_mark (self : Migrator) (yt_id login : pyval)
    (created : string) (body : pyval) :
  description_text py_repr self yt_id login created body
  = mark "<br />"
      (description_header py_repr self yt_id login created +++ nl +++ nl
       +++ py_str py_repr body).
Proof. unfold description_text, mark. reflexivity. Qed.

Lemma comment_text_mark (self : Migrator) (yt_id author : pyval)
    (created : string) (body : pyval) :
  comment_text py_repr self yt_id author created body
  = mark "<br/>"
      (comment_header py_repr self yt_id author created +++ nl +++ nl
       +++ py_str py_repr body).
Proof. unfold comment_text, mark. reflexivity. Qed.

Lemma description_header_link (self : Migrator) (yt_id login : pyval)
    (created : string) :
  description_header py_repr self yt_id login created
  = "[Migrated from "
    +++ ("<a href=" +++ dq +++ yt_base self +++ "/issue/" +++ py_str py_repr yt_id
         +++ dq +++ ">YouTrack</a>")
    +++ ", originally reported by " +++ py_str py_repr login
    +++ " on " +++ created +++ "]".
Proof.
  unfold description_header. now rewrite !append_assoc.
Qed.

Lemma comment_header_link (self : Migrator) (yt_id author : pyval)
    (created : string) :
  comment_header py_repr self yt_id author created
  = "[Migrated from "
    +++ ("<a href=" +++ dq +++ yt_base self +++ "/issue/" +++ py_str py_repr yt_id
         +++ dq +++ ">YouTrack</a>")
    +++ ". Original comment by " +++ py_str py_repr author
    +++ " on " +++ created +++ "]".
Proof.
  unfold comment_header. now rewrite !append_assoc.
Qed.

(** C7, as amended: the description sent at creation and the text of
    every comment posted are the provenance header, a blank line and the
    original body, with every newline, of the header as of the body,
    replaced by the line-break marker ([<br />] and a newline for the
    description, [<br/>] and a newline for a comment); the header is made
    of the link back to the issue, the login of the author and the date
    rendered from the time stamp, so that the text holds the date, holds
    the link and the login with their newlines replaced, and holds them
    as they are when they have no newline; replacing the markers back by
    newlines and dropping the header gives the body back. *)
Theorem provenance_round_trip (self : Migrator) (yt_id : pyval) :
  let link :=
    "<a href=" +++ dq +++ yt_base self +++ "/issue/" +++ py_str py_repr yt_id
    +++ dq +++ ">YouTrack</a>" in
  (forall yt_data handler ops,
     compose_ops py_repr self yt_id yt_data handler = Ok ops ->
     exists title timestamp created reporter login body custom text,
       py_getitem yt_data "created" = Ok timestamp
       /\ _format_yt_timestamp timestamp = Ok created
       /\ py_getitem yt_data "reporter" = Ok reporter
       /\ py_getitem reporter "login" = Ok login
       /\ py_getitem yt_data "description" = Ok body
       /\ fst ops
          = title
              :: PDict [("op", PStr "add");
                        ("path", PStr "/fields/System.Description");
                        ("from", PNone); ("value", PStr text)]
              :: custom
       /\ provenance ("<br />" +++ nl)
            ("[Migrated from " +++ link +++ ", originally reported by "
             +++ py_str py_repr login +++ " on " +++ created +++ "]")
            link (py_str py_repr login) created (py_str py_repr body) text)
  /\ (forall comment text,
        comment_text_of py_repr self yt_id comment = Ok text ->
        exists timestamp created author_data author body,
          py_getitem comment "created" = Ok timestamp
          /\ _format_yt_timestamp timestamp = Ok created
          /\ py_getitem comment "author" = Ok author_data
          /\ py_getitem author_data "login" = Ok author
          /\ py_getitem comment "text" = Ok body
          /\ (forall work_item_id,
                req_body (comment_request py_repr self work_item_id text)
                = JsonBody (PDict [("text", PStr text)]))
          /\ provenance ("<br/>" +++ nl)
               ("[Migrated from " +++ link +++ ". Original comment by "
                +++ py_str py_repr author +++ " on " +++ created +++ "]")
               link (py_str py_repr author) created (py_str py_repr body) text).
Proof.
  intros link. split.
  - intros yt_data handler ops Ho. unfold compose_ops in Ho.
    apply rbind_ok in Ho as (summary & _ & Ho).
    apply rbind_ok in Ho as (timestamp & Hts & Ho).
    apply rbind_ok in Ho as (created & Hcr & Ho).
    apply rbind_ok in Ho as (reporter & Hrep & Ho).
    apply rbind_ok in Ho as (login & Hlg & Ho).
    apply rbind_ok in Ho as (body & Hb & Ho).
    apply rbind_ok in Ho as (fields & _ & Ho).
    apply rbind_ok in Ho as (custom_ops & _ & Ho).
    injection Ho as Hops. rewrite fold_append_custom_op in Hops.
    exists (_set_field "System.Title" summary), timestamp, created, reporter,
      login, body,
      (map op_of (filter (fun o => negb (set_after_creation o)) custom_ops)),
      (description_text py_repr self yt_id login created body).
    repeat (split; [assumption|]). split; [now rewrite <- Hops|].
    rewrite description_text_mark, description_header_link. fold link.
    apply provenance_of with (a := "[Migrated from ")
      (b := ", originally reported by ") (c := " on ").
    + reflexivity.
    + exact (format_yt_timestamp_one_line _ _ Hcr).
    + reflexivity.
    + reflexivity.
    + reflexivity.
    + reflexivity.
  - intros comment text Ht. unfold comment_text_of in Ht.
    apply rbind_ok in Ht as (timestamp & Hts & Ht).
    apply rbind_ok in Ht as (created & Hcr & Ht).
    apply rbind_ok in Ht as (author_data & Had & Ht).
    apply rbind_ok in Ht as (author & Hau & Ht).
    apply rbind_ok in Ht as (body & Hb & Ht).
    injection Ht as <-.
    exists timestamp, created, author_data, author, body.
    repeat (split; [assumption|]). split; [reflexivity|].
    rewrite comment_text_mark, comment_header_link. fold link.
    apply provenance_of with (a := "[Migrated from ")
      (b := ". Original comment by ") (c := " on ").
    + reflexivity.
    + exact (format_yt_timestamp_one_line _ _ Hcr).
    + reflexivity.
    + reflexivity.
    + reflexivity.
    + reflexivity.
Qed.

End Provenance.

Lemma provenance_round_trip_witness :
  exists text,
    text
    = break_lines ("<br />" +++ nl)
        (("[Migrated from "
          +++ ("<a href=" +++ dq +++ "https://yt.example" +++ "/issue/" +++ "X-1"
               +++ dq +++ ">YouTrack</a>")
          +++ ", originally reported by " +++ "alice" +++ " on "
          +++ "2023-11-14T22:13:20" +++ "]")
         +++ nl +++ nl +++ ("Steps:" +++ nl +++ "Do A" +++ nl +++ "Do B"))
    /\ string_drop
         (String.length
            ("[Migrated from "
             +++ ("<a href=" +++ dq +++ "https://yt.example" +++ "/issue/" +++ "X-1"
                  +++ dq +++ ">YouTrack</a>")
             +++ ", originally reported by " +++ "alice" +++ " on "
             +++ "2023-11-14T22:13:20" +++ "]") + 2)
         (py_replace text ("<br />" +++ nl) nl)
       = "Steps:" +++ nl +++ "Do A" +++ nl +++ "Do B".
Proof.
  destruct (proj1 (provenance_round_trip sample_repr sample_migrator (PStr "X-1"))
              sample_issue no_assignments _ eq_refl)
    as (title & timestamp & created & reporter & login & body & custom & text
        & Hts & Hcr & Hrep & Hlg & Hb & _ & P).
  injection Hts as <-. injection Hrep as <-. injection Hb as <-.
  injection Hlg as <-. injection Hcr as <-.
  destruct P as (T & _ & _ & _ & _ & _ & _ & _ & _ & _ & R).
  exists text. split; [exact T | exact R].
Defined.

(** C7 as the claim states it fails: the login of the reporter holds a
    newline, and the description does not contain the login: it contains
    the login with the marker put before its newline. *)
Lemma login_with_newline_counterexample :
  let login := "al" +++ nl +++ "ice" in
  let text :=
    "[Migrated from <a href=" +++ dq +++ "https://yt.example/issue/X-1" +++ dq
    +++ ">YouTrack</a>, originally reported by al<br />" +++ nl
    +++ "ice on 2023-11-14T22:13:20]<br />" +++ nl +++ "<br />" +++ nl
    +++ "Steps" in
  py_getitem two_line_login_issue "reporter" = Ok (PDict [("login", PStr login)])
  /\ compose_ops sample_repr sample_migrator (PStr "X-1") two_line_login_issue
       no_assignments
     = Ok ([PDict [("op", PStr "add"); ("path", PStr "/fields/System.Title");
                   ("from", PNone); ("value", PStr "Fix crash")];
            PDict [("op", PStr "add");
                   ("path", PStr "/fields/System.Description");
                   ("from", PNone); ("value", PStr text)]], [])
  /\ substringb login text = false
  /\ substringb ("al<br />" +++ nl +++ "ice") text = true.
Proof.
  cbv zeta. split; [reflexivity|]. split; [vm_compute; reflexivity|].
  split; vm_compute; reflexivity.
Qed.

(** ** The scenario of issue X-1 *)

Section Scenario.

Variable py_repr : pyval -> string.
Variable env : oracle.

Lemma x1_description_text (self : Migrator) :
  no_char newline (yt_base self) = true ->
  description_text py_repr self (PStr "X-1") (PStr "alice")
    "2023-11-14T22:13:20" (PStr ("Steps:" +++ nl +++ "Do A" +++ nl +++ "Do B"))
  = x1_description self.
Proof.
  intros Hbase. rewrite description_text_mark. unfold description_header.
  rewrite !mark_app, (mark_one_line "<br />" (yt_base self) Hbase).
  unfold x1_description, x1_provenance_line.
  rewrite !append_assoc. reflexivity.
Qed.

(** C6, as amended: for issue X-1 of the scenario, a handler without
    assignments and a base URL of YouTrack without a newline,
    [migrate_issue] reads the issue and makes exactly one creation call;
    its body assigns the title [Fix crash] and the description, which
    begins with the provenance line naming alice and 2023-11-14T22:13:20
    and whose body has a marker at each of its two newlines; when the
    creation response holds an identifier the only call after it is the
    deferred patch, with an empty list of operations; otherwise there is
    no call after it. *)
Theorem scenario_x1 (self : Migrator) (tr : list event) :
  env tr (issue_request py_repr self (PStr "X-1")) = Responds (Some sample_issue) ->
  no_char newline (yt_base self) = true ->
  let provenance_line :=
    "[Migrated from <a href=" +++ dq +++ yt_base self +++ "/issue/X-1" +++ dq
    +++ ">YouTrack</a>, originally reported by alice on 2023-11-14T22:13:20]" in
  let description :=
    provenance_line +++ "<br />" +++ nl +++ "<br />" +++ nl
    +++ "Steps:<br />" +++ nl +++ "Do A<br />" +++ nl +++ "Do B" in
  let create :=
    {| req_method := POST;
       req_url := ado_base self +++ "/workitems/$Task?api-version=6.0";
       req_headers :=
         [("Authorization", auth_header_azdo self);
          ("Content-Type", "application/json-patch+json")];
       req_verify := true;
       req_body :=
         JsonBody
           (PList
              [PDict [("op", PStr "add"); ("path", PStr "/fields/System.Title");
                      ("from", PNone); ("value", PStr "Fix crash")];
               PDict [("op", PStr "add");
                      ("path", PStr "/fields/System.Description");
                      ("from", PNone); ("value", PStr description)]]) |} in
  let patch (wid : pyval) :=
    {| req_method := PATCH;
       req_url := ado_base self +++ "/workitems/" +++ py_str py_repr wid
                  +++ "?api-version=6.0";
       req_headers :=
         [("Authorization", auth_header_azdo self);
          ("Content-Type", "application/json-patch+json")];
       req_verify := true;
       req_body := JsonBody (PList []) |} in
  let fetched := tr ++ [EvHttp (issue_request py_repr self (PStr "X-1"))] in
  String.prefix provenance_line description = true
  /\ snd (migrate_issue py_repr env self (PStr "X-1") no_assignments tr)
     = fetched ++ EvHttp create
         :: match env fetched create with
            | Responds (Some res) =>
                match py_contains "id" res, py_getitem res "id" with
                | Ok true, Ok wid => [EvHttp (patch wid)]
                | _, _ => []
                end
            | _ => []
            end.
Proof.
  intros Hf Hbase provenance_line description create patch fetched.
  split; [apply prefix_app|].
  unfold migrate_issue, _youtrack_issue_data.
  unfold bind at 1. unfold bind at 1. unfold http at 1. rewrite Hf.
  cbn [json ret]. unfold migrate_fetched. unfold bind at 1. unfold lift at 1.
  assert (Ho : compose_ops py_repr self (PStr "X-1") sample_issue no_assignments
               = Ok (x1_create_ops self, [])).
  { unfold compose_ops, sample_issue. cbn -[description_text].
    unfold x1_create_ops. rewrite <- (x1_description_text self Hbase).
    reflexivity. }
  assert (Hc : create_request self (x1_create_ops self) = create).
  { unfold create, description, provenance_line. reflexivity. }
  rewrite Ho. cbn [fst snd]. rewrite Hc. fold fetched.
  unfold bind, http, json, lift, raise, ret.
  destruct (env fetched create) as [e|[res|]]; [reflexivity| |reflexivity].
  destruct (py_contains "id" res) as [[|]|e]; cbn [negb]; try reflexivity.
  destruct (py_getitem res "id") as [wid|e]; [|reflexivity].
  unfold after_creation, bind, http, lift, ret.
  change (patch_request py_repr self wid []) with (patch wid).
  destruct (env _ (patch wid)) as [e|body];
    cbn; now rewrite <- app_assoc.
Qed.

End Scenario.

Lemma scenario_x1_witness :
  snd (migrate_issue sample_repr sample_env sample_migrator (PStr "X-1")
         no_assignments [])
  = [EvHttp (issue_request sample_repr sample_migrator (PStr "X-1"));
     EvHttp
       {| req_method := POST;
          req_url := "https://dev.azure.com/org/proj/_apis/wit/workitems/$Task?api-version=6.0";
          req_headers :=
            [("Authorization", "Basic OnBhdA==");
             ("Content-Type", "application/json-patch+json")];
          req_verify := true;
          req_body :=
            JsonBody
              (PList
                 [PDict [("op", PStr "add"); ("path", PStr "/fields/System.Title");
                         ("from", PNone); ("value", PStr "Fix crash")];
                  PDict [("op", PStr "add");
                         ("path", PStr "/fields/System.Description");
                         ("from", PNone);
                         ("value",
                           PStr ("[Migrated from <a href=" +++ dq
                                 +++ "https://yt.example/issue/X-1" +++ dq
                                 +++ ">YouTrack</a>, originally reported by alice on 2023-11-14T22:13:20]<br />"
                                 +++ nl +++ "<br />" +++ nl +++ "Steps:<br />"
                                 +++ nl +++ "Do A<br />" +++ nl +++ "Do B"))]]) |};
     EvHttp
       {| req_method := PATCH;
          req_url := "https://dev.azure.com/org/proj/_apis/wit/workitems/7?api-version=6.0";
          req_headers :=
            [("Authorization", "Basic OnBhdA==");
             ("Content-Type", "application/json-patch+json")];
          req_verify := true;
          req_body := JsonBody (PList []) |}].
Proof.
  exact (proj2 (scenario_x1 sample_repr sample_env sample_migrator []
                  eq_refl eq_refl)).
Defined.

(** C6 as the claim states it fails: the creation answers with the
    identifier 7, and the run sends a third request after the creation
    call, the patch of work item 7 with an empty list. *)
Lemma no_further_calls_counterexample :
  nth_error
    (snd (migrate_issue sample_repr sample_env sample_migrator (PStr "X-1")
            no_assignments [])) 1
  = Some (EvHttp (create_request sample_migrator (x1_create_ops sample_migrator)))
  /\ nth_error
       (snd (migrate_issue sample_repr sample_env sample_migrator (PStr "X-1")
               no_assignments [])) 2
     = Some (EvHttp
               {| req_method := PATCH;
                  req_url := "https://dev.azure.com/org/proj/_apis/wit/workitems/7?api-version=6.0";
                  req_headers :=
                    [("Authorization", "Basic OnBhdA==");
                     ("Content-Type", "application/json-patch+json")];
                  req_verify := true;
                  req_body := JsonBody (PList []) |}).
Proof. split; reflexivity. Qed.

(** ** The events of the whole program *)

Section Events.

Variable py_repr : pyval -> string.
Variable env : oracle.
Variable P : event -> Prop.

Ltac appends_step :=
  first
    [ apply appends_ret | apply appends_raise | apply appends_lift
    | apply appends_json
    | apply appends_for_each; intros ?
    | apply appends_bind; [|intros ?]
    | apply appends_http ].

Lemma migrate_fetched_appends (self : Migrator) (yt_id yt_data : pyval)
    (handler : CustomFieldHandler) :
  (forall req, req_method req <> GET -> P (EvHttp req)) ->
  appends P (migrate_fetched py_repr env self yt_id yt_data handler).
Proof.
  intros Hother.
  assert (Hsend : forall req, req_method req <> GET ->
                    appends P (http env req)).
  { intros req Hm. apply appends_http. now apply Hother. }
  unfold migrate_fetched.
  apply appends_bind; [apply appends_lift | intros ops].
  apply appends_bind; [apply Hsend; discriminate | intros body].
  apply appends_bind; [apply appends_json | intros res].
  apply appends_bind; [apply appends_lift | intros has_id].
  destruct (negb has_id); [apply appends_raise|].
  apply appends_bind; [apply appends_lift | intros wid].
  unfold after_creation.
  apply appends_bind; [apply Hsend; discriminate | intros ?].
  apply appends_bind; [apply appends_lift | intros comments].
  apply appends_bind.
  { apply appends_for_each. intros cmt. unfold migrate_comment.
    apply appends_bind; [apply appends_lift | intros ?].
    apply appends_bind; [apply Hsend; discriminate | intros ?].
    apply appends_ret. }
  intros ?. apply appends_bind; [apply appends_lift | intros attachments].
  apply appends_bind; [|intros ?; apply appends_ret].
  apply appends_for_each. intros att. unfold migrate_attachment.
  apply appends_bind; [apply appends_lift | intros ?].
  apply appends_bind; [apply Hsend; discriminate | intros ?].
  apply appends_bind; [apply appends_json | intros ?].
  apply appends_bind; [apply appends_lift | intros ?].
  apply appends_bind; [apply Hsend; discriminate | intros ?].
  apply appends_ret.
Qed.

Lemma migrate_issue_appends (self : Migrator) (yt_id : pyval)
    (handler : CustomFieldHandler) :
  P (EvHttp (issue_request py_repr self yt_id)) ->
  (forall req, req_method req <> GET -> P (EvHttp req)) ->
  appends P (migrate_issue py_repr env self yt_id handler).
Proof.
  intros Hget Hother.
  unfold migrate_issue, _youtrack_issue_data.
  apply appends_bind.
  { apply appends_bind; [now apply appends_http | intros ?; apply appends_json]. }
  intros yt_data. now apply migrate_fetched_appends.
Qed.

Lemma custom_fields_appends (self : Migrator) (yt_id : pyval) :
  P (EvHttp (issue_request py_repr self yt_id)) ->
  appends P (custom_fields py_repr env self yt_id).
Proof.
  intros Hget. unfold custom_fields, _youtrack_issue_data.
  repeat appends_step. exact Hget.
Qed.

Hypothesis P_log : forall msg, P (EvLog msg).
Hypothesis P_sleep : forall secs, P (EvSleep secs).

Lemma retry_appends (self : Migrator) (yt_id : pyval)
    (handler : CustomFieldHandler) (fuel : nat) :
  appends P (migrate_issue py_repr env self yt_id handler) ->
  appends P (retry_migrate_issue py_repr env fuel self yt_id handler).
Proof.
  intros Hissue. induction fuel as [|fuel IH]; intros tr; simpl.
  - exists []. split; [now rewrite app_nil_r | constructor].
  - destruct (Hissue tr) as (evs1 & E1 & F1).
    destruct (migrate_issue _ _ _ _ _ tr) as [[r|e] tr1]; simpl in E1; subst tr1.
    + now exists evs1.
    + destruct (is_decode_error e).
      * destruct (IH ((tr ++ evs1) ++ backoff)) as (evs2 & E2 & F2).
        exists (evs1 ++ backoff ++ evs2). rewrite E2, <- !app_assoc.
        split; [reflexivity|]. apply Forall_app. split; [exact F1|].
        apply Forall_app. split; [|exact F2].
        repeat constructor; [apply P_log | apply P_sleep].
      * now exists evs1.
Qed.

Lemma listed_appends (self : Migrator) (handler : CustomFieldHandler)
    (fuel total : nat) (issues : list pyval) :
  (forall yt_id, appends P (migrate_issue py_repr env self yt_id handler)) ->
  forall i, appends P (migrate_listed py_repr env fuel self handler total i issues).
Proof.
  intros Hissue. induction issues as [|issue issues IH]; intros i tr; simpl.
  - exists []. split; [now rewrite app_nil_r | constructor].
  - destruct (py_getitem issue "idReadable") as [yt_id|e].
    2:{ exists []. split; [now rewrite app_nil_r | constructor]. }
    destruct (retry_appends self yt_id handler fuel (Hissue yt_id)
                (tr ++ [migrating_log py_repr yt_id i total]))
      as (evs1 & E1 & F1).
    destruct (retry_migrate_issue _ _ _ _ _ _ _) as [[[u|e]|] tr1];
      simpl in E1; subst tr1.
    + destruct (IH (S i) (((tr ++ [migrating_log py_repr yt_id i total]) ++ evs1)
                          ++ [migrated_log py_repr yt_id i total]))
        as (evs2 & E2 & F2).
      exists (migrating_log py_repr yt_id i total
              :: evs1 ++ migrated_log py_repr yt_id i total :: evs2).
      rewrite E2, <- !app_assoc. split; [reflexivity|].
      constructor; [apply P_log|]. apply Forall_app. split; [exact F1|].
      constructor; [apply P_log | exact F2].
    + exists (migrating_log py_repr yt_id i total :: evs1).
      rewrite <- app_assoc. split; [reflexivity|].
      constructor; [apply P_log | exact F1].
    + exists (migrating_log py_repr yt_id i total :: evs1).
      rewrite <- app_assoc. split; [reflexivity|].
      constructor; [apply P_log | exact F1].
Qed.

Lemma project_appends (self : Migrator) (yt_project : string)
    (handler : CustomFieldHandler) (limit : Z) (fuel : nat) :
  P (EvHttp (list_request self yt_project limit)) ->
  (forall yt_id, appends P (migrate_issue py_repr env self yt_id handler)) ->
  appends P (migrate_project py_repr env fuel self yt_project handler limit).
Proof.
  intros Hlist Hissue tr. unfold migrate_project.
  assert (L : appends P
                (body <- http env (list_request self yt_project limit) ;;
                 issues <- json body ;;
                 lift (py_iter issues))).
  { repeat appends_step. exact Hlist. }
  destruct (L tr) as (evs1 & E1 & F1).
  destruct ((body <- http env (list_request self yt_project limit) ;;
             issues <- json body ;; lift (py_iter issues)) tr)
    as [[issues|e] tr1]; simpl in E1; subst tr1.
  - destruct (listed_appends self handler fuel (List.length issues) issues
                Hissue 0 (tr ++ evs1)) as (evs2 & E2 & F2).
    exists (evs1 ++ evs2). rewrite E2, <- app_assoc. split; [reflexivity|].
    apply Forall_app. now split.
  - now exists evs1.
Qed.

End Events.

(** ** The header of the requests to YouTrack *)

Lemma source_request_ok_get (self : Migrator) (req : request) :
  req_headers req = youtrack_headers self -> req_verify req = false ->
  source_request_ok self (EvHttp req).
Proof. intros Hh Hv req' [= <-] _. now split. Qed.

Lemma source_request_ok_other (self : Migrator) (req : request) :
  req_method req <> GET -> source_request_ok self (EvHttp req).
Proof. intros Hm req' [= <-] Hget. contradiction. Qed.

Lemma issue_runs_source_ok (py_repr : pyval -> string) (env : oracle)
    (self : Migrator) (yt_id : pyval) (handler : CustomFieldHandler) :
  appends (source_request_ok self) (migrate_issue py_repr env self yt_id handler).
Proof.
  apply migrate_issue_appends.
  - now apply source_request_ok_get.
  - apply source_request_ok_other.
Qed.

(** C10: a request to YouTrack sent by [migrate_issue], [custom_fields]
    or [migrate_project] has an [Authorization] header exactly when the
    token given to the constructor is neither [None] nor the empty
    string, and then the header is [Bearer] followed by the token; the
    empty string makes the same [Migrator] as no token. *)
Theorem youtrack_authorization
    (token_azdo yt_base ado_organization ado_project : string)
    (token_youtrack : option string) (self : Migrator) :
  Migrator_init token_azdo yt_base ado_organization ado_project token_youtrack
  = Ok self ->
  youtrack_headers self
  = match token_youtrack with
    | Some token =>
        if String.eqb token "" then []
        else [("Authorization", "Bearer " +++ token)]
    | None => []
    end
  /\ ((exists header, In ("Authorization", header) (youtrack_headers self))
      <-> (exists token, token_youtrack = Some token /\ token <> ""))
  /\ (forall py_repr env yt_id handler,
        appends (source_request_ok self)
          (migrate_issue py_repr env self yt_id handler))
  /\ (forall py_repr env yt_id,
        appends (source_request_ok self) (custom_fields py_repr env self yt_id))
  /\ (forall py_repr env fuel yt_project handler limit,
        appends (source_request_ok self)
          (migrate_project py_repr env fuel self yt_project handler limit))
  /\ Migrator_init token_azdo yt_base ado_organization ado_project (Some "")
     = Migrator_init token_azdo yt_base ado_organization ado_project None.
Proof.
  intros Hinit. unfold Migrator_init in Hinit.
  destruct (_authorization_header_azdo token_azdo) as [azdo|e]; [|discriminate].
  cbn [rbind] in Hinit. injection Hinit as Hself.
  assert (Hh : youtrack_headers self
               = match token_youtrack with
                 | Some token =>
                     if String.eqb token "" then []
                     else [("Authorization", "Bearer " +++ token)]
                 | None => []
                 end).
  { rewrite <- Hself. unfold youtrack_headers. cbn [auth_header_youtrack].
    destruct token_youtrack as [token|]; [|reflexivity].
    destruct (String.eqb token ""); reflexivity. }
  split; [exact Hh|]. split.
  - rewrite Hh. destruct token_youtrack as [token|].
    + destruct (String.eqb_spec token "") as [->|Hne]; split.
      * intros [header []].
      * intros (t & [= <-] & Ht). now elim Ht.
      * intros _. now exists token.
      * intros _. eexists. left. reflexivity.
    + split; [intros [header []] | intros (t & Ht & _); discriminate].
  - split; [intros; apply issue_runs_source_ok|]. split.
    + intros. apply custom_fields_appends. now apply source_request_ok_get.
    + split; [|reflexivity]. intros. apply project_appends.
      * intros msg req Hev. discriminate Hev.
      * intros secs req Hev. discriminate Hev.
      * intros req [= <-] Hget. now split.
      * intros. apply issue_runs_source_ok.
Qed.

Lemma youtrack_authorization_witness :
  Migrator_init "pat" "https://yt.example" "https://dev.azure.com/org" "proj"
    (Some "perm:abc") = Ok token_migrator
  /\ youtrack_headers token_migrator = [("Authorization", "Bearer perm:abc")]
  /\ Migrator_init "pat" "https://yt.example" "https://dev.azure.com/org" "proj"
       (Some "") = Ok sample_migrator
  /\ youtrack_headers sample_migrator = [].
Proof.
  split; [reflexivity|]. split.
  - exact (proj1 (youtrack_authorization "pat" "https://yt.example"
                    "https://dev.azure.com/org" "proj" (Some "perm:abc")
                    token_migrator eq_refl)).
  - split; [reflexivity|].
    exact (proj1 (youtrack_authorization "pat" "https://yt.example"
                    "https://dev.azure.com/org" "proj" (Some "")
                    sample_migrator eq_refl)).
Defined.

(** ** The project driver *)

Lemma driver_events_app (a b : list event) :
  driver_events (a ++ b) = driver_events a ++ driver_events b.
Proof. apply filter_app. Qed.

Lemma driver_events_http (evs : list event) :
  Forall is_http evs -> driver_events evs = [].
Proof.
  induction 1 as [|ev evs Hev _ IH]; [reflexivity|].
  destruct ev; simpl in *; [exact IH | contradiction | contradiction].
Qed.

Lemma decode_error_inv (e : exn) :
  is_decode_error e = true -> e = JSONDecodeError.
Proof. destruct e; simpl; intros H; try discriminate H; reflexivity. Qed.

Lemma other_error_inv (e : exn) :
  is_decode_error e = false <-> e <> JSONDecodeError.
Proof.
  split.
  - intros H ->. discriminate H.
  - intros H. destruct e; try reflexivity. now elim H.
Qed.

Section Driver.

Variable py_repr : pyval -> string.
Variable env : oracle.

Lemma migrate_issue_http (self : Migrator) (yt_id : pyval)
    (handler : CustomFieldHandler) :
  appends is_http (migrate_issue py_repr env self yt_id handler).
Proof. apply migrate_issue_appends; [exact I | intros; exact I]. Qed.

Lemma migrate_issue_starts (self : Migrator) (yt_id : pyval)
    (handler : CustomFieldHandler) (tr : list event) :
  exists rest,
    snd (migrate_issue py_repr env self yt_id handler tr)
    = tr ++ EvHttp (issue_request py_repr self yt_id) :: rest.
Proof.
  unfold migrate_issue, _youtrack_issue_data, bind, http.
  destruct (env tr _) as [e|[yt_data|]]; simpl.
  - now exists [].
  - destruct (migrate_fetched_appends py_repr env (fun _ => True) self yt_id
                yt_data handler (fun _ _ => I)
                (tr ++ [EvHttp (issue_request py_repr self yt_id)]))
      as (evs & E & _).
    exists evs. rewrite E, <- app_assoc. reflexivity.
  - now exists [].
Qed.

Lemma migrate_issue_undecodable (self : Migrator) (yt_id : pyval)
    (handler : CustomFieldHandler) (tr : list event) :
  env tr (issue_request py_repr self yt_id) = Responds None ->
  migrate_issue py_repr env self yt_id handler tr
  = (Err JSONDecodeError, tr ++ [EvHttp (issue_request py_repr self yt_id)]).
Proof.
  intros H. unfold migrate_issue, _youtrack_issue_data, bind, http.
  now rewrite H.
Qed.

Lemma retry_starts (self : Migrator) (yt_id : pyval)
    (handler : CustomFieldHandler) (fuel : nat) (tr : list event) :
  exists rest,
    snd (retry_migrate_issue py_repr env (S fuel) self yt_id handler tr)
    = tr ++ EvHttp (issue_request py_repr self yt_id) :: rest.
Proof.
  cbn [retry_migrate_issue].
  destruct (migrate_issue_starts self yt_id handler tr) as (rest0 & Hs).
  destruct (migrate_issue _ _ _ _ _ tr) as [[r|e] tr2]; cbn [snd] in Hs; subst tr2.
  - now exists rest0.
  - destruct (is_decode_error e); [|now exists rest0].
    destruct (retry_appends py_repr env (fun _ => True) (fun _ => I)
                (fun _ => I) self yt_id handler fuel
                (migrate_issue_appends py_repr env (fun _ => True) self
                   yt_id handler I (fun _ _ => I))
                ((tr ++ EvHttp (issue_request py_repr self yt_id) :: rest0)
                   ++ backoff))
      as (evs2 & E2 & _).
    exists (rest0 ++ backoff ++ evs2). rewrite E2, <- !app_assoc.
    reflexivity.
Qed.

Lemma retry_done (self : Migrator) (yt_id : pyval) (handler : CustomFieldHandler)
    (fuel : nat) :
  forall tr u tr',
  retry_migrate_issue py_repr env fuel self yt_id handler tr = (Some (Ok u), tr') ->
  exists k evs,
    k < fuel /\ tr' = tr ++ evs
    /\ driver_events evs = List.concat (repeat backoff k).
Proof.
  induction fuel as [|fuel IH]; intros tr u tr' H; simpl in H; [discriminate|].
  destruct (migrate_issue_http self yt_id handler tr) as (evs1 & E1 & F1).
  destruct (migrate_issue _ _ _ _ _ tr) as [[r|e] tr1]; simpl in E1; subst tr1.
  - injection H as _ <-. exists 0, evs1. repeat split; [lia|].
    now apply driver_events_http.
  - destruct (is_decode_error e); [|discriminate].
    destruct (IH _ _ _ H) as (k & evs2 & Hk & -> & D).
    exists (S k), (evs1 ++ backoff ++ evs2). repeat split; [lia | |].
    + now rewrite <- !app_assoc.
    + rewrite !driver_events_app, (driver_events_http _ F1), D. reflexivity.
Qed.

Lemma retry_keeps_decode_errors (self : Migrator) (yt_id : pyval)
    (handler : CustomFieldHandler) (fuel : nat) :
  forall tr e tr',
  retry_migrate_issue py_repr env fuel self yt_id handler tr = (Some (Err e), tr') ->
  is_decode_error e = false.
Proof.
  induction fuel as [|fuel IH]; intros tr e tr' H; simpl in H; [discriminate|].
  destruct (migrate_issue _ _ _ _ _ tr) as [[r|e1] tr1]; [discriminate|].
  destruct (is_decode_error e1) eqn:D; [now apply IH in H|].
  now injection H as <- _.
Qed.

Lemma retry_fuel_mono (self : Migrator) (yt_id : pyval)
    (handler : CustomFieldHandler) (fuel : nat) :
  forall fuel' tr r tr',
  retry_migrate_issue py_repr env fuel self yt_id handler tr = (Some r, tr') ->
  fuel <= fuel' ->
  retry_migrate_issue py_repr env fuel' self yt_id handler tr = (Some r, tr').
Proof.
  induction fuel as [|fuel IH]; intros fuel' tr r tr' H L; simpl in H;
    [discriminate|].
  destruct fuel' as [|fuel']; [lia|]. simpl.
  destruct (migrate_issue _ _ _ _ _ tr) as [[v|e] tr1]; [exact H|].
  destruct (is_decode_error e); [|exact H].
  apply IH; [exact H | lia].
Qed.

Lemma listed_fuel_mono (self : Migrator) (handler : CustomFieldHandler)
    (fuel fuel' total : nat) (issues : list pyval) :
  fuel <= fuel' ->
  forall i tr r tr',
  migrate_listed py_repr env fuel self handler total i issues tr = (Some r, tr') ->
  migrate_listed py_repr env fuel' self handler total i issues tr = (Some r, tr').
Proof.
  intros L. induction issues as [|issue issues IH]; intros i tr r tr' H;
    simpl in *; [exact H|].
  destruct (py_getitem issue "idReadable") as [yt_id|e]; [|exact H].
  destruct (retry_migrate_issue py_repr env fuel _ _ _ _) as [[[u|e]|] tr1] eqn:R.
  - rewrite (retry_fuel_mono _ _ _ _ _ _ _ _ R L). now apply IH.
  - rewrite (retry_fuel_mono _ _ _ _ _ _ _ _ R L). exact H.
  - discriminate.
Qed.

Lemma listed_done (self : Migrator) (handler : CustomFieldHandler)
    (fuel total : nat) (issues : list pyval) :
  forall i tr u tr',
  migrate_listed py_repr env fuel self handler total i issues tr
  = (Some (Ok u), tr') ->
  exists ids ks evs,
    Forall2 (fun issue yt_id => py_getitem issue "idReadable" = Ok yt_id)
      issues ids
    /\ List.length ks = List.length ids
    /\ Forall (fun k => k < fuel) ks
    /\ tr' = tr ++ evs
    /\ driver_events evs = project_progress py_repr total i ids ks.
Proof.
  induction issues as [|issue issues IH]; intros i tr u tr' H; simpl in H.
  - injection H as _ <-. exists [], [], [].
    repeat split; [constructor | constructor | now rewrite app_nil_r].
  - destruct (py_getitem issue "idReadable") as [yt_id|e] eqn:Hid; [|discriminate].
    destruct (retry_migrate_issue _ _ _ _ _ _ _) as [[[v|e]|] tr1] eqn:R;
      try discriminate.
    destruct (retry_done _ _ _ _ _ _ _ R) as (k & evs1 & Hk & -> & D1).
    destruct (IH _ _ _ _ H) as (ids & ks & evs2 & F & Hl & Hks & -> & D2).
    exists (yt_id :: ids), (k :: ks),
      (migrating_log py_repr yt_id i total
       :: evs1 ++ migrated_log py_repr yt_id i total :: evs2).
    repeat split.
    + now constructor.
    + simpl. now rewrite Hl.
    + now constructor.
    + now rewrite <- !app_assoc.
    + change (migrating_log py_repr yt_id i total
              :: evs1 ++ migrated_log py_repr yt_id i total :: evs2)
        with ([migrating_log py_repr yt_id i total]
              ++ evs1 ++ [migrated_log py_repr yt_id i total] ++ evs2).
      rewrite !driver_events_app, D1, D2. cbn [project_progress].
      unfold issue_progress. simpl. now rewrite <- app_assoc.
Qed.

Lemma retry_sound (self : Migrator) (yt_id : pyval) (handler : CustomFieldHandler)
    (fuel : nat) :
  forall tr outcome tr',
  retry_migrate_issue py_repr env fuel self yt_id handler tr = (Some outcome, tr') ->
  exists k, k < fuel /\ attempts py_repr env self handler yt_id tr k outcome tr'.
Proof.
  induction fuel as [|fuel IH]; intros tr outcome tr' H; simpl in H; [discriminate|].
  destruct (migrate_issue _ _ _ _ _ tr) as [[r|e] tr1] eqn:E.
  - injection H as <- <-. exists 0. split; [lia|]. now apply attempt_ends with r.
  - destruct (is_decode_error e) eqn:D.
    + apply decode_error_inv in D. subst e.
      destruct (IH _ _ _ H) as (k & Hk & A).
      exists (S k). split; [lia|]. now apply attempt_again with tr1.
    + injection H as <- <-. exists 0. split; [lia|].
      apply attempt_fails; [exact E | now apply other_error_inv].
Qed.

Lemma retry_complete (self : Migrator) (yt_id : pyval) (handler : CustomFieldHandler)
    (tr : list event) (k : nat) (outcome : result unit) (tr' : list event) :
  attempts py_repr env self handler yt_id tr k outcome tr' ->
  forall fuel, k < fuel ->
  retry_migrate_issue py_repr env fuel self yt_id handler tr = (Some outcome, tr').
Proof.
  induction 1 as [tr r tr' E|tr e tr' E Hne|tr tr1 k outcome tr' E _ IH];
    intros [|fuel] L; try lia; cbn [retry_migrate_issue]; rewrite E.
  - reflexivity.
  - apply other_error_inv in Hne. now rewrite Hne.
  - cbn [is_decode_error]. apply IH. lia.
Qed.

Lemma listed_sound (self : Migrator) (handler : CustomFieldHandler)
    (fuel total : nat) (issues : list pyval) :
  forall i tr outcome tr',
  migrate_listed py_repr env fuel self handler total i issues tr
  = (Some outcome, tr') ->
  exists ks,
    Forall (fun k => k < fuel) ks
    /\ migrations py_repr env self handler total i issues tr ks outcome tr'.
Proof.
  induction issues as [|issue issues IH]; intros i tr outcome tr' H;
    cbn [migrate_listed] in H.
  - injection H as <- <-. exists []. split; constructor.
  - destruct (py_getitem issue "idReadable") as [yt_id|e] eqn:Hid.
    2:{ injection H as <- <-. exists []. split; [constructor|].
        now apply migrations_unnamed. }
    destruct (retry_migrate_issue _ _ _ _ _ _ _) as [[[u|e]|] tr1] eqn:R;
      [| |discriminate].
    + destruct (retry_sound _ _ _ _ _ _ _ R) as (k & Hk & A).
      destruct (IH _ _ _ _ H) as (ks & Hks & M).
      exists (k :: ks). split; [now constructor|].
      destruct u. now apply migrations_next with yt_id tr1.
    + injection H as <- <-.
      destruct (retry_sound _ _ _ _ _ _ _ R) as (k & Hk & A).
      exists [k]. split; [now repeat constructor|].
      now apply migrations_abort with yt_id.
Qed.

Lemma listed_complete (self : Migrator) (handler : CustomFieldHandler)
    (total i : nat) (issues : list pyval) (tr : list event) (ks : list nat)
    (outcome : result unit) (tr' : list event) :
  migrations py_repr env self handler total i issues tr ks outcome tr' ->
  forall fuel, Forall (fun k => k < fuel) ks ->
  migrate_listed py_repr env fuel self handler total i issues tr
  = (Some outcome, tr').
Proof.
  induction 1 as [i tr|i issue issues tr e Hid
                  |i issue issues yt_id tr k tr1 ks outcome tr' Hid A _ IH
                  |i issue issues yt_id tr k e tr' Hid A];
    intros fuel F; cbn [migrate_listed].
  - reflexivity.
  - now rewrite Hid.
  - rewrite Hid. inversion F as [|? ? Hk Hks]; subst.
    unfold migrating_log.
    rewrite (retry_complete _ _ _ _ _ _ _ A fuel Hk).
    now apply IH.
  - rewrite Hid. inversion F as [|? ? Hk Hks]; subst.
    unfold migrating_log.
    now rewrite (retry_complete _ _ _ _ _ _ _ A fuel Hk).
Qed.


(** C5: [migrate_project] goes through the listed issues in their order;
    for each it calls [migrate_issue] until a call ends: a call that
    raises [JSONDecodeError] is followed by the notice, a wait of 3 and a
    new whole call for the same issue, however many times that happens; a
    call that ends normally is not repeated and the loop goes to the next
    issue; a call that raises any other exception ends the loop and the
    project with that exception.  The runs of the bounded loops that end
    are exactly the runs of [migrations] whose retries are below the
    bound. *)
Theorem migrate_project_retry_policy (self : Migrator)
    (handler : CustomFieldHandler) :
  (forall yt_project limit tr listing issues outcome tr',
     env tr (list_request self yt_project limit) = Responds (Some listing) ->
     py_iter listing = Ok issues ->
     let listed := tr ++ [EvHttp (list_request self yt_project limit)] in
     (forall fuel,
        migrate_project py_repr env fuel self yt_project handler limit tr
        = (Some outcome, tr') ->
        exists ks,
          Forall (fun k => k < fuel) ks
          /\ migrations py_repr env self handler (List.length issues) 0 issues
               listed ks outcome tr')
     /\ (forall ks,
           migrations py_repr env self handler (List.length issues) 0 issues
             listed ks outcome tr' ->
           forall fuel,
             Forall (fun k => k < fuel) ks ->
             migrate_project py_repr env fuel self yt_project handler limit tr
             = (Some outcome, tr')))
  /\ (forall fuel yt_id tr,
        match migrate_issue py_repr env self yt_id handler tr with
        | (Ok _, tr1) =>
            retry_migrate_issue py_repr env (S fuel) self yt_id handler tr
            = (Some (Ok tt), tr1)
        | (Err JSONDecodeError, tr1) =>
            retry_migrate_issue py_repr env (S fuel) self yt_id handler tr
            = retry_migrate_issue py_repr env fuel self yt_id handler
                (tr1 ++ [EvLog "Encountered an error. Wait 3 seconds"; EvSleep 3])
            /\ exists rest,
                 snd (retry_migrate_issue py_repr env (S (S fuel)) self yt_id
                        handler tr)
                 = tr1 ++ [EvLog "Encountered an error. Wait 3 seconds"; EvSleep 3]
                     ++ EvHttp (issue_request py_repr self yt_id) :: rest
        | (Err e, tr1) =>
            retry_migrate_issue py_repr env (S fuel) self yt_id handler tr
            = (Some (Err e), tr1)
            /\ forall total i issue rest tr0,
                 py_getitem issue "idReadable" = Ok yt_id ->
                 tr = tr0 ++ [EvLog ("Migrating " +++ py_str py_repr yt_id +++ ", "
                                     +++ str_of_nat (i + 1) +++ "/"
                                     +++ str_of_nat total)] ->
                 migrate_listed py_repr env (S fuel) self handler total i
                   (issue :: rest) tr0
                 = (Some (Err e), tr1)
        end)
  /\ (forall yt_id,
        (forall tr, env tr (issue_request py_repr self yt_id) = Responds None) ->
        forall fuel tr,
          retry_migrate_issue py_repr env fuel self yt_id handler tr
          = (None,
             tr ++ List.concat
                     (repeat
                        [EvHttp (issue_request py_repr self yt_id);
                         EvLog "Encountered an error. Wait 3 seconds";
                         EvSleep 3]
                        fuel)))
  /\ (forall fuel yt_project limit tr u tr',
        migrate_project py_repr env fuel self yt_project handler limit tr
        = (Some (Ok u), tr') ->
        exists listing issues ids ks evs,
          env tr (list_request self yt_project limit) = Responds (Some listing)
          /\ py_iter listing = Ok issues
          /\ Forall2 (fun issue yt_id => py_getitem issue "idReadable" = Ok yt_id)
               issues ids
          /\ List.length ks = List.length ids
          /\ Forall (fun k => k < fuel) ks
          /\ tr' = tr ++ EvHttp (list_request self yt_project limit) :: evs
          /\ driver_events evs
             = project_progress py_repr (List.length ids) 0 ids ks).
Proof.
  split; [|split; [|split]].
  - intros yt_project limit tr listing issues outcome tr' Hl Hi listed.
    assert (E : forall fuel,
              migrate_project py_repr env fuel self yt_project handler limit tr
              = migrate_listed py_repr env fuel self handler (List.length issues)
                  0 issues listed).
    { intros fuel. unfold migrate_project, bind, http, json, lift, ret.
      rewrite Hl. cbn [fst snd]. now rewrite Hi. }
    split.
    + intros fuel H. rewrite E in H. now apply listed_sound.
    + intros ks M fuel F. rewrite E. now apply listed_complete with ks.
  - intros fuel yt_id tr.
    destruct (migrate_issue py_repr env self yt_id handler tr) as [[r|e] tr1] eqn:H.
    + cbn [retry_migrate_issue]. now rewrite H.
    + assert (O : is_decode_error e = false ->
                  retry_migrate_issue py_repr env (S fuel) self yt_id handler tr
                  = (Some (Err e), tr1)
                  /\ forall total i issue rest tr0,
                       py_getitem issue "idReadable" = Ok yt_id ->
                       tr = tr0 ++ [EvLog ("Migrating " +++ py_str py_repr yt_id
                                           +++ ", " +++ str_of_nat (i + 1) +++ "/"
                                           +++ str_of_nat total)] ->
                       migrate_listed py_repr env (S fuel) self handler total i
                         (issue :: rest) tr0
                       = (Some (Err e), tr1)).
      { intros D.
        assert (R : retry_migrate_issue py_repr env (S fuel) self yt_id handler tr
                    = (Some (Err e), tr1)).
        { cbn [retry_migrate_issue]. now rewrite H, D. }
        split; [exact R|].
        intros total i issue rest tr0 Hid ->.
        cbn [migrate_listed]. rewrite Hid. unfold migrating_log. now rewrite R. }
      destruct e; try (apply O; reflexivity).
      assert (E : retry_migrate_issue py_repr env (S fuel) self yt_id handler tr
                  = retry_migrate_issue py_repr env fuel self yt_id handler
                      (tr1 ++ backoff)).
      { cbn [retry_migrate_issue]. now rewrite H. }
      split; [exact E|].
      assert (E' : retry_migrate_issue py_repr env (S (S fuel)) self yt_id handler tr
                   = retry_migrate_issue py_repr env (S fuel) self yt_id handler
                       (tr1 ++ backoff)).
      { cbn [retry_migrate_issue]. now rewrite H. }
      rewrite E'.
      destruct (retry_starts self yt_id handler fuel (tr1 ++ backoff))
        as (rest & Hs).
      exists rest. rewrite Hs, <- app_assoc. reflexivity.
  - intros yt_id Hnone fuel. induction fuel as [|fuel IH]; intros tr.
    + simpl. now rewrite app_nil_r.
    + cbn [retry_migrate_issue].
      rewrite (migrate_issue_undecodable self yt_id handler tr (Hnone tr)).
      cbn [is_decode_error]. rewrite IH. unfold backoff.
      cbn [repeat List.concat]. rewrite <- !app_assoc. reflexivity.
  - intros fuel yt_project limit tr u tr' H. unfold migrate_project in H.
    unfold bind, http, json, lift, raise, ret in H.
    destruct (env tr (list_request self yt_project limit)) as [e|[listing|]] eqn:Hl;
      try discriminate.
    destruct (py_iter listing) as [issues|e] eqn:Hi; [|discriminate].
    destruct (listed_done _ _ _ _ _ _ _ _ _ H)
      as (ids & ks & evs & F & Hlen & Hks & -> & D).
    exists listing, issues, ids, ks, evs.
    rewrite (Forall2_length F) in D.
    repeat split; try assumption. now rewrite <- app_assoc.
Qed.

End Driver.

Lemma migrate_project_retry_policy_witness :
  (exists ks,
     Forall (fun k => k < 2) ks
     /\ migrations sample_repr retry_env sample_migrator no_assignments 1 0
          [PDict [("idReadable", PStr "X-1")]]
          ([] ++ [EvHttp (list_request sample_migrator "X" 10000)])
          ks (Ok tt)
          (snd (migrate_project sample_repr retry_env 2 sample_migrator "X"
                  no_assignments 10000 [])))
  /\ retry_migrate_issue sample_repr undecodable_env 3 sample_migrator (PStr "X-1")
       no_assignments []
     = (None,
        [] ++ List.concat
                (repeat
                   [EvHttp (issue_request sample_repr sample_migrator (PStr "X-1"));
                    EvLog "Encountered an error. Wait 3 seconds";
                    EvSleep 3] 3)).
Proof.
  split.
  - destruct (migrate_project_retry_policy sample_repr retry_env sample_migrator
                no_assignments) as (Hruns & _).
    destruct (Hruns "X" 10000%Z []
                (PList [PDict [("idReadable", PStr "X-1")]])
                [PDict [("idReadable", PStr "X-1")]] (Ok tt)
                (snd (migrate_project sample_repr retry_env 2 sample_migrator "X"
                        no_assignments 10000 []))
                eq_refl eq_refl) as (Hsound & _).
    apply (Hsound 2). vm_compute. reflexivity.
  - destruct (migrate_project_retry_policy sample_repr undecodable_env
                sample_migrator no_assignments) as (_ & _ & Hloop & _).
    exact (Hloop (PStr "X-1") (fun _ => eq_refl) 3 []).
Defined.

(** * Further properties *)

(** ** The dictionary of the custom fields *)

Lemma key_eqb_sym (a b : pyval) : key_eqb a b = key_eqb b a.
Proof.
  destruct a as [|x|x|x|x|x], b as [|y|y|y|y|y]; simpl; try reflexivity.
  - destruct x, y; reflexivity.
  - apply Z.eqb_sym.
  - apply String.eqb_sym.
Qed.

Lemma key_eqb_trans (a b c : pyval) :
  key_eqb a b = true -> key_eqb a c = key_eqb b c.
Proof.
  destruct a as [|x|x|x|x|x], b as [|y|y|y|y|y]; cbn [key_eqb];
    try discriminate; intros H;
    try (apply Bool.eqb_prop in H); try (apply Z.eqb_eq in H);
    try (apply String.eqb_eq in H); subst; try reflexivity;
    destruct c as [|z|z|z|z|z]; cbn [key_eqb]; try reflexivity;
    try apply Z.eqb_sym;
    repeat match goal with b : bool |- _ => destruct b end;
    cbn [Z_of_bool]; reflexivity.
Qed.

Lemma dict_get_set (k name value : pyval) (d : list (pyval * pyval)) :
  dict_get k (dict_set name value d)
  = if key_eqb name k then Some value else dict_get k d.
Proof.
  induction d as [|[k' v'] d IH]; simpl; [reflexivity|].
  destruct (key_eqb k' name) eqn:E; simpl.
  - rewrite (key_eqb_trans _ _ k E). now destruct (key_eqb name k).
  - rewrite IH. destruct (key_eqb k' k) eqn:E1; [|reflexivity].
    destruct (key_eqb name k) eqn:E2; [|reflexivity].
    rewrite (key_eqb_trans _ _ name E1) in E.
    rewrite key_eqb_sym in E. congruence.
Qed.

Lemma distinct_keys_set (name value : pyval) (d : list (pyval * pyval)) :
  distinct_keys d -> distinct_keys (dict_set name value d).
Proof.
  induction d as [|[k' v'] d IH]; simpl; [auto|]. intros [Hk Hd].
  destruct (key_eqb k' name) eqn:E; simpl.
  - now split.
  - split; [|now apply IH]. rewrite dict_get_set, key_eqb_sym, E. exact Hk.
Qed.

Lemma build_dict_step (v : pyval) (items : list pyval) (acc : list (pyval * pyval)) :
  build_dict (v :: items) acc
  = match field_entry v with
    | Ok (name, value) => build_dict items (dict_set name value acc)
    | Err e => Err e
    end.
Proof.
  cbn [build_dict]. unfold field_entry.
  destruct (py_getitem v "name") as [name|e]; [|reflexivity]. cbn [rbind].
  destruct (py_getitem v "value") as [value|e]; [|reflexivity]. cbn [rbind].
  destruct (py_hashable name); reflexivity.
Qed.

Lemma build_dict_lookup (items : list pyval) :
  forall acc d k,
  build_dict items acc = Ok d ->
  dict_get k d
  = match last_value k items with
    | Some x => Some x
    | None => dict_get k acc
    end.
Proof.
  induction items as [|v items IH]; intros acc d k H.
  - injection H as <-. reflexivity.
  - rewrite build_dict_step in H. cbn [last_value].
    destruct (field_entry v) as [[name value]|e]; [|discriminate].
    rewrite (IH _ _ k H), dict_get_set.
    destruct (last_value k items); [reflexivity|].
    now destruct (key_eqb name k).
Qed.

Lemma build_dict_distinct (items : list pyval) :
  forall acc d, build_dict items acc = Ok d -> distinct_keys acc -> distinct_keys d.
Proof.
  induction items as [|v items IH]; intros acc d H Hacc.
  - now injection H as <-.
  - rewrite build_dict_step in H.
    destruct (field_entry v) as [[name value]|e]; [|discriminate].
    apply (IH _ _ H). now apply distinct_keys_set.
Qed.

Lemma build_dict_ok_iff (items : list pyval) :
  forall acc,
  (exists d, build_dict items acc = Ok d)
  <-> Forall (fun v => exists entry, field_entry v = Ok entry) items.
Proof.
  induction items as [|v items IH]; intros acc.
  - split; [constructor | now exists acc].
  - rewrite build_dict_step. split.
    + intros [d H]. destruct (field_entry v) as [[name value]|e] eqn:E;
        [|discriminate].
      constructor; [now exists (name, value)|].
      apply (IH (dict_set name value acc)).
      now exists d.
    + intros H. inversion H as [|? ? [[name value] E] Hrest]; subst.
      rewrite E. now apply IH.
Qed.

(** X1: in the dictionary [_build_custom_field_dict] makes, a name is
    bound to the value of the last entry of [customFields] that has this
    name, and no name stands twice. *)
Theorem custom_field_dict_lookup (yt_data : pyval) (fields : list (pyval * pyval)) :
  _build_custom_field_dict yt_data = Ok fields ->
  exists items,
    items_of yt_data "customFields" = Ok items
    /\ (forall k, dict_get k fields = last_value k items)
    /\ distinct_keys fields.
Proof.
  unfold _build_custom_field_dict. intros H.
  apply rbind_ok in H as (items & Hitems & H). exists items.
  split; [exact Hitems|]. split.
  - intros k. rewrite (build_dict_lookup _ _ _ k H).
    now destruct (last_value k items).
  - now apply (build_dict_distinct _ _ _ H).
Qed.

(** X2: [_build_custom_field_dict] gives a dictionary exactly when every
    entry of [customFields] has a [name] that can be a key and a [value];
    otherwise it raises the error of the first entry that has not:
    [KeyError] for a missing [name] or [value], [TypeError] for an entry
    that is not an object or a name that is a list or an object. *)
Theorem custom_field_dict_defined (yt_data : pyval) (items : list pyval) :
  items_of yt_data "customFields" = Ok items ->
  ((exists fields, _build_custom_field_dict yt_data = Ok fields)
   <-> Forall (fun v => exists entry, field_entry v = Ok entry) items)
  /\ (forall good v rest e,
        items = good ++ v :: rest ->
        Forall (fun v => exists entry, field_entry v = Ok entry) good ->
        field_entry v = Err e ->
        _build_custom_field_dict yt_data = Err e
        /\ (e = KeyError \/ e = TypeError)).
Proof.
  intros Hitems. unfold _build_custom_field_dict. rewrite Hitems. cbn [rbind].
  split; [apply build_dict_ok_iff|].
  intros good v rest e -> Hgood Hv. split.
  - clear Hitems. generalize (@nil (pyval * pyval)) as acc.
    induction Hgood as [|g good [[name value] Hg] _ IH]; intros acc.
    + simpl app. rewrite build_dict_step, Hv. reflexivity.
    + simpl app. rewrite build_dict_step, Hg. apply IH.
  - unfold field_entry, py_getitem in Hv.
    destruct v as [| | | | |d]; try (injection Hv as <-; now right).
    destruct (assoc "name" d) as [name|]; [|injection Hv as <-; now left].
    cbn [rbind] in Hv.
    destruct (assoc "value" d) as [value|]; [|injection Hv as <-; now left].
    cbn [rbind] in Hv.
    destruct (py_hashable name); [discriminate | injection Hv as <-; now right].
Qed.

(** ** Reading before writing *)

Section Reading.

Variable py_repr : pyval -> string.
Variable env : oracle.

(** X3: [custom_fields] sends the one request that reads the issue and
    gives the dictionary of its custom fields; this is the dictionary
    [migrate_issue] applies the handler to, for the same answer. *)
Theorem custom_fields_agrees (self : Migrator) (yt_id yt_data : pyval)
    (tr : list event) :
  env tr (issue_request py_repr self yt_id) = Responds (Some yt_data) ->
  custom_fields py_repr env self yt_id tr
  = (_build_custom_field_dict yt_data,
     tr ++ [EvHttp (issue_request py_repr self yt_id)])
  /\ forall handler fields,
       _build_custom_field_dict yt_data = Ok fields ->
       compose_ops py_repr self yt_id yt_data handler
       = compose_ops py_repr self yt_id yt_data (fun _ => handler fields).
Proof.
  intros Hf. split.
  - unfold custom_fields, _youtrack_issue_data, bind, http, json, lift, ret.
    now rewrite Hf.
  - intros handler fields Hd. unfold compose_ops.
    destruct (py_getitem yt_data "summary"); [|reflexivity]. cbn [rbind].
    destruct (py_getitem yt_data "created"); [|reflexivity]. cbn [rbind].
    destruct (_format_yt_timestamp _); [|reflexivity]. cbn [rbind].
    destruct (py_getitem yt_data "reporter") as [reporter|]; [|reflexivity].
    cbn [rbind].
    destruct (py_getitem reporter "login"); [|reflexivity]. cbn [rbind].
    destruct (py_getitem yt_data "description"); [|reflexivity]. cbn [rbind].
    rewrite Hd. reflexivity.
Qed.

(** X4: when the issue cannot be read, or its data do not give the
    operations of the creation (a key is missing, the time stamp cannot
    be rendered, the handler raises), [migrate_issue] raises that error
    after the request to YouTrack alone: nothing is sent to Azure
    DevOps. *)
Theorem read_failure_writes_nothing (self : Migrator) (yt_id : pyval)
    (handler : CustomFieldHandler) (tr : list event) :
  let read := [EvHttp (issue_request py_repr self yt_id)] in
  (forall e,
     env tr (issue_request py_repr self yt_id) = Raises e ->
     migrate_issue py_repr env self yt_id handler tr = (Err e, tr ++ read))
  /\ (env tr (issue_request py_repr self yt_id) = Responds None ->
      migrate_issue py_repr env self yt_id handler tr
      = (Err JSONDecodeError, tr ++ read))
  /\ (forall yt_data e,
        env tr (issue_request py_repr self yt_id) = Responds (Some yt_data) ->
        compose_ops py_repr self yt_id yt_data handler = Err e ->
        migrate_issue py_repr env self yt_id handler tr = (Err e, tr ++ read))
  /\ (forall yt_data fields ops e,
        compose_ops py_repr self yt_id yt_data (fun _ => Ok []) = Ok ops ->
        _build_custom_field_dict yt_data = Ok fields ->
        handler fields = Err e ->
        compose_ops py_repr self yt_id yt_data handler = Err e).
Proof.
  intros read. repeat split.
  - intros e H.
    unfold migrate_issue, _youtrack_issue_data, bind, http. now rewrite H.
  - intros H.
    unfold migrate_issue, _youtrack_issue_data, bind, http. now rewrite H.
  - intros yt_data e H Ho.
    unfold migrate_issue, migrate_fetched, _youtrack_issue_data,
      bind, http, json, lift, ret.
    now rewrite H, Ho.
  - intros yt_data fields ops e Ho Hd Hh. unfold compose_ops in *.
    destruct (py_getitem yt_data "summary"); [|discriminate]. cbn [rbind] in *.
    destruct (py_getitem yt_data "created"); [|discriminate]. cbn [rbind] in *.
    destruct (_format_yt_timestamp _); [|discriminate]. cbn [rbind] in *.
    destruct (py_getitem yt_data "reporter") as [reporter|]; [|discriminate].
    cbn [rbind] in *.
    destruct (py_getitem reporter "login"); [|discriminate]. cbn [rbind] in *.
    destruct (py_getitem yt_data "description"); [|discriminate].
    cbn [rbind] in *. rewrite Hd. cbn [rbind]. now rewrite Hh.
Qed.

Lemma migrate_issue_reaches_creation (self : Migrator) (yt_id yt_data : pyval)
    (handler : CustomFieldHandler) (ops : list pyval * list pyval)
    (tr : list event) :
  env tr (issue_request py_repr self yt_id) = Responds (Some yt_data) ->
  compose_ops py_repr self yt_id yt_data handler = Ok ops ->
  exists rest,
    snd (migrate_issue py_repr env self yt_id handler tr)
    = tr ++ EvHttp (issue_request py_repr self yt_id)
         :: EvHttp (create_request self (fst ops)) :: rest.
Proof.
  intros Hf Ho.
  unfold migrate_issue, _youtrack_issue_data.
  unfold bind at 1. unfold bind at 1. unfold http at 1. rewrite Hf.
  cbn [json ret]. unfold migrate_fetched. unfold bind at 1. unfold lift at 1.
  rewrite Ho.
  destruct (bind_http_starts env (create_request self (fst ops))
              (fun res_body =>
                 res <- json res_body ;;
                 has_id <- lift (py_contains "id" res) ;;
                 if negb has_id then raise (creation_failed py_repr yt_id res)
                 else
                   work_item_id <- lift (py_getitem res "id") ;;
                   after_creation py_repr env self yt_id yt_data work_item_id
                     (snd ops))
              (tr ++ [EvHttp (issue_request py_repr self yt_id)]))
    as (rest & E).
  - intros body. apply appends_bind; [apply appends_json | intros res].
    apply appends_bind; [apply appends_lift | intros has_id].
    destruct (negb has_id); [apply appends_raise|].
    apply appends_bind; [apply appends_lift | intros wid].
    intros t. destruct (after_creation_starts py_repr env self yt_id yt_data wid
                          (snd ops) t) as (r & Er).
    exists (EvHttp (patch_request py_repr self wid (snd ops)) :: r).
    split; [exact Er|]. apply Forall_forall. intros; exact I.
  - exists rest. rewrite E, <- app_assoc. reflexivity.
Qed.

(** X5: the code keeps no record of the work items it has made.  When an
    attempt that had sent its creation call ends in a [JSONDecodeError]
    and the next attempt reads the issue again, the loop of
    [migrate_project] sends a second creation call for the same issue. *)
Theorem retry_creates_again (self : Migrator) (yt_id : pyval)
    (handler : CustomFieldHandler) (fuel : nat) (tr tr1 : list event) (e : exn)
    (yt_data1 yt_data2 : pyval) (ops1 ops2 : list pyval * list pyval) :
  migrate_issue py_repr env self yt_id handler tr = (Err e, tr1) ->
  is_decode_error e = true ->
  env tr (issue_request py_repr self yt_id) = Responds (Some yt_data1) ->
  compose_ops py_repr self yt_id yt_data1 handler = Ok ops1 ->
  env (tr1 ++ backoff) (issue_request py_repr self yt_id)
  = Responds (Some yt_data2) ->
  compose_ops py_repr self yt_id yt_data2 handler = Ok ops2 ->
  exists a b c,
    snd (retry_migrate_issue py_repr env (S (S fuel)) self yt_id handler tr)
    = tr ++ a ++ EvHttp (create_request self (fst ops1))
         :: b ++ EvHttp (create_request self (fst ops2)) :: c.
Proof.
  intros H D Hf1 Ho1 Hf2 Ho2.
  destruct (migrate_issue_reaches_creation self yt_id yt_data1 handler ops1 tr
              Hf1 Ho1) as (rest1 & E1).
  rewrite H in E1. cbn [snd] in E1.
  destruct (migrate_issue_reaches_creation self yt_id yt_data2 handler ops2
              (tr1 ++ backoff) Hf2 Ho2) as (rest2 & E2).
  assert (R : retry_migrate_issue py_repr env (S (S fuel)) self yt_id handler tr
              = retry_migrate_issue py_repr env (S fuel) self yt_id handler
                  (tr1 ++ backoff)).
  { cbn [retry_migrate_issue]. now rewrite H, D. }
  rewrite R. cbn [retry_migrate_issue].
  destruct (migrate_issue py_repr env self yt_id handler (tr1 ++ backoff))
    as [[r|e2] tr2]; cbn [snd] in E2; subst tr2.
  - exists [EvHttp (issue_request py_repr self yt_id)],
      (rest1 ++ backoff ++ [EvHttp (issue_request py_repr self yt_id)]), rest2.
    cbn [snd]. rewrite E1, <- !app_assoc. reflexivity.
  - destruct (is_decode_error e2).
    + destruct (retry_appends py_repr env (fun _ => True) (fun _ => I)
                  (fun _ => I) self yt_id handler fuel
                  (migrate_issue_appends py_repr env (fun _ => True) self
                     yt_id handler I (fun _ _ => I))
                  (((tr1 ++ backoff)
                      ++ EvHttp (issue_request py_repr self yt_id)
                         :: EvHttp (create_request self (fst ops2)) :: rest2)
                     ++ backoff))
        as (evs & E3 & _).
      exists [EvHttp (issue_request py_repr self yt_id)],
        (rest1 ++ backoff ++ [EvHttp (issue_request py_repr self yt_id)]),
        (rest2 ++ backoff ++ evs).
      rewrite E3, E1, <- !app_assoc. reflexivity.
    + exists [EvHttp (issue_request py_repr self yt_id)],
        (rest1 ++ backoff ++ [EvHttp (issue_request py_repr self yt_id)]), rest2.
      cbn [snd]. rewrite E1, <- !app_assoc. reflexivity.
Qed.

End Reading.

(** ** The requests to Azure DevOps *)

Section Writes.

Variable py_repr : pyval -> string.
Variable env : oracle.
Variable P : event -> Prop.

Lemma after_creation_sends (self : Migrator) (yt_id yt_data wid : pyval)
    (delayed_ops : list pyval) :
  (forall ops, P (EvHttp (patch_request py_repr self wid ops))) ->
  (forall text, P (EvHttp (comment_request py_repr self wid text))) ->
  (forall decoded, P (EvHttp (upload_request self decoded))) ->
  (forall url name, P (EvHttp (link_request py_repr self wid url name))) ->
  appends P (after_creation py_repr env self yt_id yt_data wid delayed_ops).
Proof.
  intros Hpatch Hcomment Hupload Hlink. unfold after_creation.
  apply appends_bind; [apply appends_http, Hpatch | intros ?].
  apply appends_bind; [apply appends_lift | intros comments].
  apply appends_bind.
  { apply appends_for_each. intros cmt. unfold migrate_comment.
    apply appends_bind; [apply appends_lift | intros ?].
    apply appends_bind; [apply appends_http, Hcomment | intros ?].
    apply appends_ret. }
  intros ?. apply appends_bind; [apply appends_lift | intros attachments].
  apply appends_bind; [|intros ?; apply appends_ret].
  apply appends_for_each. intros att. unfold migrate_attachment.
  apply appends_bind; [apply appends_lift | intros ?].
  apply appends_bind; [apply appends_http, Hupload | intros ?].
  apply appends_bind; [apply appends_json | intros ?].
  apply appends_bind; [apply appends_lift | intros ?].
  apply appends_bind; [apply appends_http, Hlink | intros ?].
  apply appends_ret.
Qed.

Lemma migrate_issue_sends (self : Migrator) (yt_id : pyval)
    (handler : CustomFieldHandler) :
  P (EvHttp (issue_request py_repr self yt_id)) ->
  (forall ops, P (EvHttp (create_request self ops))) ->
  (forall wid ops, P (EvHttp (patch_request py_repr self wid ops))) ->
  (forall wid text, P (EvHttp (comment_request py_repr self wid text))) ->
  (forall decoded, P (EvHttp (upload_request self decoded))) ->
  (forall wid url name, P (EvHttp (link_request py_repr self wid url name))) ->
  appends P (migrate_issue py_repr env self yt_id handler).
Proof.
  intros Hget Hcreate Hpatch Hcomment Hupload Hlink.
  unfold migrate_issue, _youtrack_issue_data.
  apply appends_bind.
  { apply appends_bind; [now apply appends_http | intros ?; apply appends_json]. }
  intros yt_data. unfold migrate_fetched.
  apply appends_bind; [apply appends_lift | intros ops].
  apply appends_bind; [apply appends_http, Hcreate | intros body].
  apply appends_bind; [apply appends_json | intros res].
  apply appends_bind; [apply appends_lift | intros has_id].
  destruct (negb has_id); [apply appends_raise|].
  apply appends_bind; [apply appends_lift | intros wid].
  apply after_creation_sends; auto.
Qed.

End Writes.

Section Credentials.

Variable py_repr : pyval -> string.
Variable env : oracle.

Lemma issue_runs_request_ok (self : Migrator) (yt_id : pyval)
    (handler : CustomFieldHandler) :
  appends (request_ok self) (migrate_issue py_repr env self yt_id handler).
Proof.
  apply migrate_issue_sends; intros; cbn;
    repeat split; try apply prefix_app;
    eexists; (split; [reflexivity|]); cbn; auto.
Qed.

(** X6: for a [Migrator] made by the constructor, every request
    [migrate_issue], [custom_fields] and [migrate_project] send, in runs
    that end and in runs that fail, is either a [GET] under the base URL
    of YouTrack, whose only header is [Authorization] with [Bearer] and
    the token when a token was given, with no body and the certificate
    not verified, or a [POST] or [PATCH] under the base URL of Azure
    DevOps whose headers are [Authorization] with the [Basic] credential
    and a content type; no header of a request to YouTrack is the
    credential of Azure DevOps, and no header of a request to Azure
    DevOps is the credential of YouTrack. *)
Theorem requests_keep_credentials_apart
    (token_azdo base organization project : string)
    (token_youtrack : option string) (self : Migrator) :
  Migrator_init token_azdo base organization project token_youtrack = Ok self ->
  (exists encoded, auth_header_azdo self = "Basic " +++ encoded)
  /\ auth_header_youtrack self
     = match token_youtrack with
       | Some token =>
           if String.eqb token "" then None else Some ("Bearer " +++ token)
       | None => None
       end
  /\ yt_base self = base
  /\ ado_base self = organization +++ "/" +++ project +++ "/_apis/wit"
  /\ (forall yt_id handler,
        appends (request_ok self) (migrate_issue py_repr env self yt_id handler))
  /\ (forall yt_id,
        appends (request_ok self) (custom_fields py_repr env self yt_id))
  /\ (forall fuel yt_project handler limit,
        appends (request_ok self)
          (migrate_project py_repr env fuel self yt_project handler limit))
  /\ (forall req name value,
        request_ok self (EvHttp req) ->
        In (name, value) (req_headers req) ->
        match req_method req with
        | GET => value <> auth_header_azdo self
        | _ => auth_header_youtrack self <> Some value
        end).
Proof.
  intros Hinit. unfold Migrator_init, _authorization_header_azdo in Hinit.
  destruct (b64encode_ascii (":" +++ token_azdo)) as [encoded|e]; [|discriminate].
  cbn [rbind] in Hinit. injection Hinit as Hself.
  assert (Hazdo : auth_header_azdo self = "Basic " +++ encoded)
    by now rewrite <- Hself.
  assert (Hyt : auth_header_youtrack self
                = match token_youtrack with
                  | Some token =>
                      if String.eqb token "" then None
                      else Some ("Bearer " +++ token)
                  | None => None
                  end).
  { rewrite <- Hself. cbn [auth_header_youtrack].
    destruct token_youtrack as [token|]; [|reflexivity].
    now destruct (String.eqb token ""). }
  split; [now exists encoded|]. split; [exact Hyt|].
  split; [now rewrite <- Hself|]. split; [now rewrite <- Hself|].
  split; [intros; apply issue_runs_request_ok|]. split.
  { intros. apply custom_fields_appends. cbn.
    repeat split. apply prefix_app. }
  split.
  { intros. apply project_appends.
    + intros msg. exact I.
    + intros secs. exact I.
    + cbn. repeat split. apply prefix_app.
    + intros. apply issue_runs_request_ok. }
  intros req name value Hok Hin. cbn [request_ok] in Hok.
  assert (Hbearer : forall v, auth_header_youtrack self = Some v ->
                      exists token, v = "Bearer " +++ token).
  { intros v Hv. rewrite Hyt in Hv. destruct token_youtrack as [token|];
      [|discriminate]. destruct (String.eqb token ""); [discriminate|].
    injection Hv as <-. now exists token. }
  destruct (req_method req).
  - destruct Hok as (Hh & _). rewrite Hh in Hin.
    destruct (auth_header_youtrack self) as [header|] eqn:Hy; [|destruct Hin].
    destruct Hin as [[= _ <-]|[]].
    destruct (Hbearer header eq_refl) as (token & ->).
    rewrite Hazdo. discriminate.
  - destruct Hok as ((content_type & Hh & Hct) & _). rewrite Hh in Hin.
    intros Hv. destruct (Hbearer _ Hv) as (token & ->).
    destruct Hin as [[= _ E]|[[= _ E]|[]]].
    + rewrite Hazdo in E. discriminate E.
    + destruct Hct as [C|[C|[C|[]]]]; rewrite <- C in E; discriminate E.
  - destruct Hok as ((content_type & Hh & Hct) & _). rewrite Hh in Hin.
    intros Hv. destruct (Hbearer _ Hv) as (token & ->).
    destruct Hin as [[= _ E]|[[= _ E]|[]]].
    + rewrite Hazdo in E. discriminate E.
    + destruct Hct as [C|[C|[C|[]]]]; rewrite <- C in E; discriminate E.
Qed.

End Credentials.

(** ** Comments and attachments that fail *)

Section Failures.

Variable py_repr : pyval -> string.
Variable env : oracle.

Lemma comments_fail (self : Migrator) (yt_id wid c : pyval) (e : exn)
    (comments : list pyval) :
  In c comments ->
  comment_text_of py_repr self yt_id c = Err e ->
  forall tr,
  exists e' texts,
    for_each (migrate_comment py_repr env self yt_id wid) comments tr
    = (Err e', tr ++ map (comment_event py_repr self wid) texts)
    /\ List.length texts < List.length comments.
Proof.
  intros Hin Hc. induction comments as [|c0 rest IH]; [contradiction|].
  intros tr. cbn [for_each]. unfold bind at 1. unfold migrate_comment at 1.
  unfold bind at 1. unfold lift at 1.
  destruct (comment_text_of py_repr self yt_id c0) as [text0|e0] eqn:E0.
  - assert (Hrest : In c rest).
    { destruct Hin as [->|Hin]; [congruence | exact Hin]. }
    unfold bind at 1. unfold http at 1.
    destruct (env tr (comment_request py_repr self wid text0)) as [e1|body].
    + exists e1, [text0]. split; [reflexivity|].
      destruct rest; [contradiction | simpl; lia].
    + cbn [ret].
      destruct (IH Hrest (tr ++ [EvHttp (comment_request py_repr self wid text0)]))
        as (e' & texts & E & L).
      exists e', (text0 :: texts). rewrite E, <- app_assoc.
      split; [reflexivity | simpl; lia].
  - exists e0, []. rewrite app_nil_r. split; [reflexivity | simpl; lia].
Qed.

(** X8: the comments are sent before the attachments, and the loop over
    the comments stops at the first comment that cannot be rendered (a
    key is missing, the time stamp is out of range): when the issue has
    such a comment the run ends in an error after the deferred patch and
    fewer comment posts than there are comments, and no attachment is
    uploaded or linked. *)
Theorem malformed_comment_blocks_attachments (self : Migrator)
    (yt_id yt_data wid c : pyval) (e : exn) (comments delayed_ops : list pyval)
    (tr : list event) :
  items_of yt_data "comments" = Ok comments ->
  In c comments ->
  comment_text_of py_repr self yt_id c = Err e ->
  exists e' texts,
    after_creation py_repr env self yt_id yt_data wid delayed_ops tr
    = (Err e',
       tr ++ EvHttp (patch_request py_repr self wid delayed_ops)
          :: map (comment_event py_repr self wid) texts)
    /\ List.length texts < List.length comments.
Proof.
  intros Hitems Hin Hc. unfold after_creation.
  unfold bind at 1. unfold http at 1.
  destruct (env tr (patch_request py_repr self wid delayed_ops)) as [e1|body].
  - exists e1, []. split; [reflexivity|].
    destruct comments; [contradiction | simpl; lia].
  - unfold bind at 1. unfold lift at 1. rewrite Hitems.
    unfold bind at 1.
    destruct (comments_fail self yt_id wid c e comments Hin Hc
                (tr ++ [EvHttp (patch_request py_repr self wid delayed_ops)]))
      as (e' & texts & E & L).
    rewrite E. exists e', texts. rewrite <- app_assoc. now split.
Qed.

(** X9: an attachment is uploaded before the answer to the upload is
    looked at.  When that answer is JSON without [url], or is not JSON,
    the body of the loop raises ([KeyError] or [TypeError] in the first
    case, [JSONDecodeError] in the second) after the upload and without
    the request that links the attachment to the work item. *)
Theorem upload_without_url_is_not_linked (self : Migrator)
    (wid attachment name : pyval) (decoded : list Byte.byte) (tr : list event) :
  attachment_content attachment = Ok (name, decoded) ->
  (forall res e,
     env tr (upload_request self decoded) = Responds (Some res) ->
     py_getitem res "url" = Err e ->
     migrate_attachment py_repr env self wid attachment tr
     = (Err e, tr ++ [EvHttp (upload_request self decoded)])
     /\ (e = KeyError \/ e = TypeError))
  /\ (env tr (upload_request self decoded) = Responds None ->
      migrate_attachment py_repr env self wid attachment tr
      = (Err JSONDecodeError, tr ++ [EvHttp (upload_request self decoded)])).
Proof.
  intros Ha. split.
  - intros res e Hu Hg. split.
    + unfold migrate_attachment, bind, lift, http, json, ret.
      rewrite Ha. cbn [fst snd]. now rewrite Hu, Hg.
    + unfold py_getitem in Hg. destruct res as [| | | | |d];
        try (injection Hg as <-; now right).
      destruct (assoc "url" d); [discriminate | injection Hg as <-; now left].
  - intros Hu. unfold migrate_attachment, bind, lift, http, json, raise.
    rewrite Ha. cbn [fst snd]. now rewrite Hu.
Qed.

End Failures.

(** ** The list of the issues *)

Section Listing.

Variable py_repr : pyval -> string.
Variable env : oracle.

(** X10: the request that lists the issues is outside the loop that
    retries.  An exception of the transport, an answer that is not JSON
    ([JSONDecodeError], not retried), and a document that is a non-empty
    object, [None] or a number ([TypeError]) end [migrate_project] after
    that one request, whatever the bound on the attempts; an empty list
    ends it normally after that one request; and an entry of the list
    without [idReadable] ends it with the error of the lookup, before any
    log line or request for that entry or a later one. *)
Theorem listing_edge_cases (self : Migrator) (yt_project : string)
    (handler : CustomFieldHandler) (limit : Z) (fuel : nat) (tr : list event) :
  let req := list_request self yt_project limit in
  let run := migrate_project py_repr env fuel self yt_project handler limit tr in
  (forall e, env tr req = Raises e -> run = (Some (Err e), tr ++ [EvHttp req]))
  /\ (env tr req = Responds None ->
      run = (Some (Err JSONDecodeError), tr ++ [EvHttp req]))
  /\ (env tr req = Responds (Some (PList [])) ->
      run = (Some (Ok tt), tr ++ [EvHttp req]))
  /\ (forall k v d,
        env tr req = Responds (Some (PDict ((k, v) :: d))) ->
        run = (Some (Err TypeError), tr ++ [EvHttp req]))
  /\ (forall listing,
        env tr req = Responds (Some listing) ->
        listing = PNone \/ (exists b, listing = PBool b)
        \/ (exists z, listing = PInt z) ->
        run = (Some (Err TypeError), tr ++ [EvHttp req]))
  /\ (forall total i issue rest e tr0,
        py_getitem issue "idReadable" = Err e ->
        migrate_listed py_repr env fuel self handler total i (issue :: rest) tr0
        = (Some (Err e), tr0)).
Proof.
  intros req run. unfold run, migrate_project, bind, http, json, lift, raise, ret.
  fold req. repeat split.
  - intros e H. now rewrite H.
  - intros H. now rewrite H.
  - intros H. now rewrite H.
  - intros k v d H. rewrite H. reflexivity.
  - intros listing H [->|[[b ->]|[z ->]]]; now rewrite H.
  - intros total i issue rest e tr0 H. cbn [migrate_listed]. now rewrite H.
Qed.

End Listing.

(** ** Time stamps *)

Lemma utc_isoformat_defined (secs : Z) :
  (exists text, utc_isoformat secs = Ok text)
  <-> (-62135596800 <= secs < 253402300800)%Z.
Proof.
  pose proof (Z.div_mod secs 86400). pose proof (Z.mod_pos_bound secs 86400).
  split.
  - intros [text Ht]. apply utc_isoformat_ok in Ht as [Ht _]. lia.
  - intros Hin. unfold utc_isoformat, gmtime_min, gmtime_max. cbv zeta.
    rewrite (proj2 (Z.ltb_ge secs (- 2 ^ 63))) by lia.
    rewrite (proj2 (Z.leb_gt (2 ^ 63) secs)) by lia.
    rewrite (proj2 (Z.ltb_ge secs (-67768040609740800))) by lia.
    rewrite (proj2 (Z.ltb_ge 67768036191676799 secs)) by lia.
    rewrite (proj2 (Z.ltb_ge (secs / 86400 + 719163) 1)) by lia.
    rewrite (proj2 (Z.ltb_ge 3652059 (secs / 86400 + 719163))) by lia.
    cbn [orb]. destruct (ord2ymd _) as [[y m] d]. now eexists.
Qed.

Lemma utc_isoformat_length (secs : Z) (text : string) :
  utc_isoformat secs = Ok text ->
  String.length text = 19
  /\ String.get 4 text = Some "-"%char /\ String.get 7 text = Some "-"%char
  /\ String.get 10 text = Some "T"%char
  /\ String.get 13 text = Some ":"%char /\ String.get 16 text = Some ":"%char.
Proof.
  intros H. apply utc_isoformat_ok in H as (_ & y & m & d & _ & ->).
  repeat split.
Qed.

(** X11: [_format_yt_timestamp] renders an integer number of
    milliseconds exactly when it lies from the first instant of year 1 to
    the last millisecond of year 9999; outside it raises [OverflowError]
    when the seconds are no 64-bit [time_t], [OSError] when the year does
    not fit the [int] of [gmtime], and [ValueError] otherwise, and none of
    the three is the error [migrate_project] retries on; the text has the
    19 characters of [YYYY-MM-DDTHH:MM:SS]; two time stamps in the same
    second give the same text (the milliseconds are dropped, not
    rounded); [None], text, lists and objects raise [TypeError]. *)
Theorem format_yt_timestamp_defined (ms : Z) :
  ((exists text, _format_yt_timestamp (PInt ms) = Ok text)
   <-> (-62135596800000 <= ms < 253402300800000)%Z)
  /\ (~ (-62135596800000 <= ms < 253402300800000)%Z ->
      exists e,
        _format_yt_timestamp (PInt ms) = Err e
        /\ e <> JSONDecodeError
        /\ (e = OverflowError
            <-> ~ (- 2 ^ 63 <= ms / 1000 < 2 ^ 63)%Z)
        /\ (e = OSError
            <-> (- 2 ^ 63 <= ms / 1000 < -67768040609740800
                 \/ 67768036191676800 <= ms / 1000 < 2 ^ 63)%Z)
        /\ (e = ValueError
            <-> (-67768040609740800 <= ms / 1000 < 67768036191676800)%Z))
  /\ (forall text,
        _format_yt_timestamp (PInt ms) = Ok text ->
        String.length text = 19
        /\ String.get 4 text = Some "-"%char /\ String.get 7 text = Some "-"%char
        /\ String.get 10 text = Some "T"%char
        /\ String.get 13 text = Some ":"%char
        /\ String.get 16 text = Some ":"%char)
  /\ (forall ms',
        (ms / 1000 = ms' / 1000)%Z ->
        _format_yt_timestamp (PInt ms') = _format_yt_timestamp (PInt ms))
  /\ (forall v,
        match v with PInt _ | PBool _ => False | _ => True end ->
        _format_yt_timestamp v = Err TypeError).
Proof.
  assert (R : (-62135596800 <= ms / 1000 < 253402300800
               <-> -62135596800000 <= ms < 253402300800000)%Z).
  { pose proof (Z.div_mod ms 1000). pose proof (Z.mod_pos_bound ms 1000). lia. }
  unfold _format_yt_timestamp. cbn [py_floordiv_1000 rbind].
  split; [now rewrite utc_isoformat_defined|]. split.
  - intros Hout. destruct (utc_isoformat (ms / 1000)) as [text|e] eqn:E.
    + elim Hout. apply R, utc_isoformat_defined. now exists text.
    + exists e. split; [reflexivity|].
      unfold utc_isoformat, gmtime_min, gmtime_max in E. cbv zeta in E.
      destruct ((ms / 1000 <? - 2 ^ 63)%Z || _) eqn:E1.
      { injection E as <-.
        apply orb_true_iff in E1 as [E1|E1];
          [apply Z.ltb_lt in E1 | apply Z.leb_le in E1];
          repeat split; intros; try discriminate; try reflexivity; lia. }
      apply orb_false_iff in E1 as [E1a E1b].
      apply Z.ltb_ge in E1a. apply Z.leb_gt in E1b.
      destruct ((ms / 1000 <? -67768040609740800)%Z || _) eqn:E2.
      { injection E as <-.
        apply orb_true_iff in E2 as [E2|E2]; apply Z.ltb_lt in E2;
          repeat split; intros; try discriminate; try reflexivity; lia. }
      apply orb_false_iff in E2 as [E2a E2b].
      apply Z.ltb_ge in E2a. apply Z.ltb_ge in E2b.
      destruct ((ms / 1000 / 86400 + 719163 <? 1)%Z || _); [injection E as <-|].
      { repeat split; intros; try discriminate; try reflexivity; lia. }
      destruct (ord2ymd _) as [[y m] d]. discriminate.
  - split; [apply utc_isoformat_length|]. split.
    + intros ms' H. now rewrite H.
    + intros v Hv. destruct v; try contradiction; reflexivity.
Qed.

(** ** The [Authorization] header of Azure DevOps *)

Lemma forallb_below (Q : Z -> bool) (n : nat) :
  forallb Q (below n) = true ->
  forall z, (0 <= z < Z.of_nat n)%Z -> Q z = true.
Proof.
  intros H z Hz. rewrite forallb_forall in H. apply H.
  apply in_map_iff. exists (Z.to_nat z). split; [lia|].
  apply in_seq. lia.
Qed.

Lemma forallb_below2 (Q : Z -> Z -> bool) (n m : nat) :
  forallb (fun a => forallb (Q a) (below m)) (below n) = true ->
  forall a b, (0 <= a < Z.of_nat n)%Z -> (0 <= b < Z.of_nat m)%Z -> Q a b = true.
Proof.
  intros H a b Ha Hb.
  apply (forallb_below (Q a) m); [|exact Hb].
  exact (forallb_below (fun a => forallb (Q a) (below m)) n H a Ha).
Qed.

Lemma b64_char_decodes (i : Z) :
  (0 <= i < 64)%Z ->
  Ascii.eqb (b64_char i) "=" = false
  /\ index_of (b64_char i) b64_alphabet = Some i
  /\ is_ascii (b64_char i) = true.
Proof.
  intros Hi.
  pose (Q := fun i =>
               negb (Ascii.eqb (b64_char i) "=")
               && match index_of (b64_char i) b64_alphabet with
                  | Some j => Z.eqb j i
                  | None => false
                  end
               && is_ascii (b64_char i)).
  assert (H : Q i = true).
  { apply (forallb_below Q 64); [vm_compute; reflexivity | exact Hi]. }
  unfold Q in H. apply andb_true_iff in H as [H H3].
  apply andb_true_iff in H as [H1 H2]. apply negb_true_iff in H1.
  destruct (index_of (b64_char i) b64_alphabet) as [j|]; [|discriminate].
  apply Z.eqb_eq in H2. subst j. auto.
Qed.

(** The four characters of three bytes hold six bits each, and the
    decoder puts the bytes together again. *)
Lemma sextets (a b c : Z) :
  (0 <= a < 256)%Z -> (0 <= b < 256)%Z -> (0 <= c < 256)%Z ->
  let i1 := Z.shiftr a 2 in
  let i2 := Z.lor (Z.shiftl (Z.land a 3) 4) (Z.shiftr b 4) in
  let i3 := Z.lor (Z.shiftl (Z.land b 15) 2) (Z.shiftr c 6) in
  let i4 := Z.land c 63 in
  ((0 <= i1 < 64) /\ (0 <= i2 < 64) /\ (0 <= i3 < 64) /\ (0 <= i4 < 64)
   /\ Z.lor (Z.shiftl i1 2) (Z.shiftr i2 4) = a
   /\ Z.lor (Z.shiftl (Z.land i2 15) 4) (Z.shiftr i3 2) = b
   /\ Z.lor (Z.shiftl (Z.land i3 3) 6) i4 = c)%Z.
Proof.
  intros Ha Hb Hc i1 i2 i3 i4.
  pose (QA := fun a b =>
                (let i1 := Z.shiftr a 2 in
                 let i2 := Z.lor (Z.shiftl (Z.land a 3) 4) (Z.shiftr b 4) in
                 (0 <=? i1) && (i1 <? 64) && (0 <=? i2) && (i2 <? 64)
                 && (Z.lor (Z.shiftl i1 2) (Z.shiftr i2 4) =? a)
                 && (Z.land i2 15 =? Z.shiftr b 4)
                 && (Z.lor (Z.shiftl (Z.shiftr b 4) 4) (Z.land b 15) =? b))%Z).
  pose (QB := fun b c =>
                (let i3 := Z.lor (Z.shiftl (Z.land b 15) 2) (Z.shiftr c 6) in
                 (0 <=? i3) && (i3 <? 64)
                 && (Z.shiftr i3 2 =? Z.land b 15)
                 && (Z.land i3 3 =? Z.shiftr c 6)
                 && (Z.lor (Z.shiftl (Z.shiftr c 6) 6) (Z.land c 63) =? c)
                 && (0 <=? Z.land c 63) && (Z.land c 63 <? 64))%Z).
  assert (A : QA a b = true).
  { apply (forallb_below2 QA 256 256); [vm_compute; reflexivity | exact Ha | exact Hb]. }
  assert (B : QB b c = true).
  { apply (forallb_below2 QB 256 256); [vm_compute; reflexivity | exact Hb | exact Hc]. }
  unfold QA in A. unfold QB in B. cbv zeta in A, B.
  fold i1 i2 in A. fold i3 i4 in B.
  repeat (apply andb_true_iff in A as [A ?]).
  repeat (apply andb_true_iff in B as [B ?]).
  repeat match goal with
         | H : (_ <=? _)%Z = true |- _ => apply Z.leb_le in H
         | H : (_ <? _)%Z = true |- _ => apply Z.ltb_lt in H
         | H : (_ =? _)%Z = true |- _ => apply Z.eqb_eq in H
         end.
  repeat split; try assumption; congruence.
Qed.

Lemma b64encode_three (a b c : Z) (rest : list Z) :
  b64encode_bytes (a :: b :: c :: rest)
  = String (b64_char (Z.shiftr a 2))
      (String (b64_char (Z.lor (Z.shiftl (Z.land a 3) 4) (Z.shiftr b 4)))
         (String (b64_char (Z.lor (Z.shiftl (Z.land b 15) 2) (Z.shiftr c 6)))
            (String (b64_char (Z.land c 63)) (b64encode_bytes rest)))).
Proof. reflexivity. Qed.

Lemma b64encode_two (a b : Z) :
  b64encode_bytes [a; b]
  = String (b64_char (Z.shiftr a 2))
      (String (b64_char (Z.lor (Z.shiftl (Z.land a 3) 4) (Z.shiftr b 4)))
         (String (b64_char (Z.lor (Z.shiftl (Z.land b 15) 2) (Z.shiftr 0 6))) "=")).
Proof. change (Z.shiftr 0 6) with 0%Z. rewrite Z.lor_0_r. reflexivity. Qed.

Lemma b64encode_one (a : Z) :
  b64encode_bytes [a]
  = String (b64_char (Z.shiftr a 2))
      (String (b64_char (Z.lor (Z.shiftl (Z.land a 3) 4) (Z.shiftr 0 4))) "==").
Proof. change (Z.shiftr 0 4) with 0%Z. rewrite Z.lor_0_r. reflexivity. Qed.

Lemma a2b_char (i : Z) (s : string) (quad_pos leftchar pads : Z) :
  (0 <= i < 64)%Z ->
  a2b_base64 (String (b64_char i) s) quad_pos leftchar pads
  = match quad_pos with
    | 0%Z => a2b_base64 s 1 i 0
    | 1%Z =>
        (let? out := a2b_base64 s 2 (Z.land i 15) 0 in
         Ok (byte_of_Z (Z.lor (Z.shiftl leftchar 2) (Z.shiftr i 4)) :: out))%result
    | 2%Z =>
        (let? out := a2b_base64 s 3 (Z.land i 3) 0 in
         Ok (byte_of_Z (Z.lor (Z.shiftl leftchar 4) (Z.shiftr i 2)) :: out))%result
    | _ =>
        (let? out := a2b_base64 s 0 0 0 in
         Ok (byte_of_Z (Z.lor (Z.shiftl leftchar 6) i) :: out))%result
    end.
Proof.
  intros Hi. destruct (b64_char_decodes i Hi) as (H1 & H2 & _).
  cbn [a2b_base64]. rewrite H1, H2. reflexivity.
Qed.

Lemma a2b_pad2 (leftchar : Z) : a2b_base64 "==" 2 leftchar 0 = Ok [].
Proof. reflexivity. Qed.

Lemma a2b_pad1 (leftchar : Z) : a2b_base64 "=" 3 leftchar 0 = Ok [].
Proof. reflexivity. Qed.

Lemma a2b_encoded (l : list Z) :
  Forall (fun z => (0 <= z < 256)%Z) l ->
  a2b_base64 (b64encode_bytes l) 0 0 0 = Ok (map byte_of_Z l)
  /\ all_ascii (b64encode_bytes l) = true.
Proof.
  remember (List.length l) as n eqn:Hn. revert l Hn.
  induction n as [n IH] using lt_wf_ind. intros l Hn F.
  destruct l as [|a [|b [|c rest]]].
  - split; reflexivity.
  - inversion F as [|? ? Ha _]; subst.
    destruct (sextets a 0 0 Ha) as (I1 & I2 & _ & _ & E1 & _); [lia | lia|].
    rewrite b64encode_one. split.
    + rewrite (a2b_char _ _ _ _ _ I1), (a2b_char _ _ _ _ _ I2), a2b_pad2.
      cbn [rbind map]. rewrite E1. reflexivity.
    + cbn [all_ascii].
      destruct (b64_char_decodes _ I1) as (_ & _ & ->).
      destruct (b64_char_decodes _ I2) as (_ & _ & ->). reflexivity.
  - inversion F as [|? ? Ha F1]; subst. inversion F1 as [|? ? Hb _]; subst.
    destruct (sextets a b 0 Ha Hb) as (I1 & I2 & I3 & _ & E1 & E2 & _); [lia|].
    rewrite b64encode_two. split.
    + rewrite (a2b_char _ _ _ _ _ I1), (a2b_char _ _ _ _ _ I2),
        (a2b_char _ _ _ _ _ I3), a2b_pad1.
      cbn [rbind map]. rewrite E1, E2. reflexivity.
    + cbn [all_ascii].
      destruct (b64_char_decodes _ I1) as (_ & _ & ->).
      destruct (b64_char_decodes _ I2) as (_ & _ & ->).
      destruct (b64_char_decodes _ I3) as (_ & _ & ->). reflexivity.
  - inversion F as [|? ? Ha F1]; subst. inversion F1 as [|? ? Hb F2]; subst.
    inversion F2 as [|? ? Hc F3]; subst.
    destruct (sextets a b c Ha Hb Hc) as (I1 & I2 & I3 & I4 & E1 & E2 & E3).
    destruct (IH (List.length rest)) with (l := rest) as [D A];
      [simpl; lia | reflexivity | exact F3 |].
    rewrite b64encode_three. split.
    + rewrite (a2b_char _ _ _ _ _ I1), (a2b_char _ _ _ _ _ I2),
        (a2b_char _ _ _ _ _ I3), (a2b_char _ _ _ _ _ I4), D.
      cbn [rbind map]. rewrite E1, E2, E3. reflexivity.
    + cbn [all_ascii]. rewrite A.
      destruct (b64_char_decodes _ I1) as (_ & _ & ->).
      destruct (b64_char_decodes _ I2) as (_ & _ & ->).
      destruct (b64_char_decodes _ I3) as (_ & _ & ->).
      destruct (b64_char_decodes _ I4) as (_ & _ & ->). reflexivity.
Qed.

Lemma byte_of_code (c : ascii) :
  byte_of_Z (Z.of_N (N_of_ascii c)) = byte_of_ascii c.
Proof.
  unfold byte_of_Z. pose proof (N_ascii_bounded c) as B.
  rewrite Z.mod_small by lia. rewrite N2Z.id. now rewrite ascii_N_embedding.
Qed.

(** X12: the constructor succeeds exactly when the token of Azure DevOps
    is ASCII, and raises [UnicodeEncodeError] otherwise; the header it
    stores is [Basic] and a base64 text which [b64decode] turns back
    into the bytes of a colon followed by the token. *)
Theorem azdo_header_round_trip (token_azdo base organization project : string)
    (token_youtrack : option string) :
  (all_ascii token_azdo = true ->
   exists self encoded,
     Migrator_init token_azdo base organization project token_youtrack = Ok self
     /\ auth_header_azdo self = "Basic " +++ encoded
     /\ b64decode encoded = Ok (list_byte_of_string (":" +++ token_azdo))
     /\ yt_base self = base
     /\ ado_base self = organization +++ "/" +++ project +++ "/_apis/wit")
  /\ (all_ascii token_azdo = false ->
      Migrator_init token_azdo base organization project token_youtrack
      = Err UnicodeEncodeError).
Proof.
  unfold Migrator_init, _authorization_header_azdo, b64encode_ascii.
  change (all_ascii (":" +++ token_azdo)) with (all_ascii token_azdo).
  split; intros H; rewrite H; [|reflexivity].
  cbn [rbind]. eexists. eexists. split; [reflexivity|]. cbn [auth_header_azdo].
  split; [reflexivity|]. split; [|split; reflexivity].
  set (codes := map (fun c => Z.of_N (N_of_ascii c))
                  (list_ascii_of_string (":" +++ token_azdo))).
  assert (F : Forall (fun z => (0 <= z < 256)%Z) codes).
  { apply Forall_forall. intros z Hz. unfold codes in Hz.
    apply in_map_iff in Hz as (c & <- & _).
    pose proof (N_ascii_bounded c). lia. }
  destruct (a2b_encoded codes F) as [D A].
  unfold b64decode. rewrite A, D. f_equal.
  unfold codes, list_byte_of_string. rewrite map_map.
  apply map_ext. intros c. apply byte_of_code.
Qed.

(** ** The calendar *)

Lemma is_leap_decomposed (q400 n100 n4 n1 : Z) :
  (0 <= n100 <= 3)%Z -> (0 <= n4 <= 24)%Z -> (0 <= n1 <= 3)%Z ->
  is_leap (q400 * 400 + 1 + n100 * 100 + n4 * 4 + n1)
  = ((n1 =? 3) && (negb (n4 =? 24) || (n100 =? 3)))%Z.
Proof.
  intros H100 H4 H1. unfold is_leap.
  destruct (Z.eqb_spec n1 3) as [E1|E1];
    destruct (Z.eqb_spec n4 24) as [E4|E4];
    destruct (Z.eqb_spec n100 3) as [E100|E100]; cbn [andb orb negb];
    repeat match goal with
           | |- context [Z.eqb ?a 0] => destruct (Z.eqb_spec a 0)
           end; cbn [andb orb negb]; try reflexivity; exfalso;
    Z.div_mod_to_equations; lia.
Qed.

Ltac eval_calendar :=
  repeat match goal with
         | |- context [days_before_month ?k] =>
             let v := eval vm_compute in (days_before_month k) in
             change (days_before_month k) with v
         | |- context [days_in_month ?k] =>
             let v := eval vm_compute in (days_in_month k) in
             change (days_in_month k) with v
         | |- context [Z.ltb 2 ?k] =>
             let v := eval vm_compute in (Z.ltb 2 k) in
             change (Z.ltb 2 k) with v
         | |- context [Z.eqb (?k - 1) 2] =>
             let v := eval vm_compute in (Z.eqb (k - 1) 2) in
             change (Z.eqb (k - 1) 2) with v
         | |- context [Z.eqb ?k 2] =>
             let v := eval vm_compute in (Z.eqb k 2) in
             change (Z.eqb k 2) with v
         end.

Lemma ord2ymd_correct (n : Z) :
  (1 <= n)%Z ->
  let '(y, m, d) := ord2ymd n in
  (1 <= y /\ 1 <= m <= 12 /\ 1 <= d <= days_in_month_of y m
   /\ ymd2ord y m d = n)%Z.
Proof.
  intros Hn. unfold ord2ymd, DI400Y, DI100Y, DI4Y. cbv zeta.
  pose proof (Z.div_mod (n - 1) 146097 ltac:(lia)) as D400.
  pose proof (Z.mod_pos_bound (n - 1) 146097 ltac:(lia)) as B400.
  set (q400 := ((n - 1) / 146097)%Z) in *.
  set (r400 := ((n - 1) mod 146097)%Z) in *.
  pose proof (Z.div_mod r400 36524 ltac:(lia)) as D100.
  pose proof (Z.mod_pos_bound r400 36524 ltac:(lia)) as B100.
  set (n100 := (r400 / 36524)%Z) in *.
  set (r100 := (r400 mod 36524)%Z) in *.
  pose proof (Z.div_mod r100 1461 ltac:(lia)) as D4.
  pose proof (Z.mod_pos_bound r100 1461 ltac:(lia)) as B4.
  set (n4 := (r100 / 1461)%Z) in *.
  set (r4 := (r100 mod 1461)%Z) in *.
  pose proof (Z.div_mod r4 365 ltac:(lia)) as D1.
  pose proof (Z.mod_pos_bound r4 365 ltac:(lia)) as B1.
  set (n1 := (r4 / 365)%Z) in *.
  set (r1 := (r4 mod 365)%Z) in *.
  assert (Hq : (0 <= q400)%Z) by (unfold q400; apply Z.div_pos; lia).
  clearbody q400 r400 n100 r100 n4 r4 n1 r1.
  assert (Hn100 : (0 <= n100 <= 4)%Z) by lia.
  assert (Hn4 : (0 <= n4 <= 24)%Z) by lia.
  assert (Hn1 : (0 <= n1 <= 4)%Z) by lia.
  destruct ((n1 =? 4)%Z || (n100 =? 4)%Z) eqn:Elast.
  - assert (L : is_leap (q400 * 400 + 1 + n100 * 100 + n4 * 4 + n1 - 1) = true).
    { unfold is_leap. apply orb_true_iff in Elast.
      repeat match goal with
             | |- context [Z.eqb ?a 0] => destruct (Z.eqb_spec a 0)
             end; cbn [andb orb negb]; try reflexivity; exfalso;
        destruct Elast as [E|E]; apply Z.eqb_eq in E;
        Z.div_mod_to_equations; lia. }
    unfold days_in_month_of, ymd2ord, days_before_month_of, days_before_year.
    rewrite L. cbn [Z.eqb Pos.eqb andb days_in_month days_before_month Z.ltb Z.compare
                      Pos.compare Pos.compare_cont Z_of_bool].
    cbv zeta. apply orb_true_iff in Elast.
    destruct Elast as [E|E]; apply Z.eqb_eq in E;
      Z.div_mod_to_equations; lia.
  - apply orb_false_iff in Elast as [E1 E100].
    apply Z.eqb_neq in E1. apply Z.eqb_neq in E100.
    pose proof (is_leap_decomposed q400 n100 n4 n1 ltac:(lia) ltac:(lia) ltac:(lia))
      as L.
    set (leap := ((n1 =? 3) && (negb (n4 =? 24) || (n100 =? 3)))%Z) in *.
    set (year := (q400 * 400 + 1 + n100 * 100 + n4 * 4 + n1)%Z) in *.
    assert (Y : (days_before_year year
                 = 146097 * q400 + 36524 * n100 + 1461 * n4 + 365 * n1)%Z).
    { unfold days_before_year, year. cbv zeta. Z.div_mod_to_equations. lia. }
    assert (Hy : (1 <= year)%Z) by (unfold year; lia).
    rewrite Z.shiftr_div_pow2 by lia. change (2 ^ 5)%Z with 32%Z.
    pose proof (Z.div_mod (r1 + 50) 32 ltac:(lia)) as Dm.
    pose proof (Z.mod_pos_bound (r1 + 50) 32 ltac:(lia)) as Bm.
    set (month := ((r1 + 50) / 32)%Z) in *.
    set (rm := ((r1 + 50) mod 32)%Z) in *. clearbody month rm.
    assert (M : (month = 1 \/ month = 2 \/ month = 3 \/ month = 4 \/ month = 5
                 \/ month = 6 \/ month = 7 \/ month = 8 \/ month = 9
                 \/ month = 10 \/ month = 11 \/ month = 12)%Z) by lia.
    clearbody year leap.
    unfold days_in_month_of, ymd2ord, days_before_month_of.
    repeat destruct M as [M|M]; subst month; eval_calendar;
      rewrite ?L; destruct leap; cbn [Z_of_bool andb];
      match goal with
      | |- context [Z.ltb ?a ?b] => destruct (Z.ltb_spec a b)
      end;
      eval_calendar; rewrite ?L; cbn [Z_of_bool andb]; lia.
Qed.

Lemma days_before_month_nonneg (m : Z) : (0 <= days_before_month m)%Z.
Proof.
  unfold days_before_month. destruct m as [|p|p]; try lia.
  destruct p as [p|p|]; try lia;
    destruct p as [p|p|]; try lia;
    destruct p as [p|p|]; try lia;
    destruct p as [p|p|]; lia.
Qed.

Lemma days_before_year_mono (y : Z) :
  (10000 <= y)%Z -> (3652059 <= days_before_year y)%Z.
Proof.
  intros H. unfold days_before_year. cbv zeta. Z.div_mod_to_equations. lia.
Qed.

(** X13: the date [_format_yt_timestamp] writes is the day of the
    calendar that lies [ms // 86400000] days after 1970-01-01: year, month
    and day form a date that exists (the day is within the month, leap
    years counted), its day number by [_ymd2ord] is that of the instant,
    the year has four digits, and hour, minute and second are those of
    the rest of the day. *)
Theorem rendered_date_is_the_day (ms : Z) (text : string) :
  _format_yt_timestamp (PInt ms) = Ok text ->
  let day := (ms / 1000 / 86400)%Z in
  let sod := ((ms / 1000) mod 86400)%Z in
  exists y m d,
    (1 <= y <= 9999 /\ 1 <= m <= 12 /\ 1 <= d <= days_in_month_of y m
     /\ ymd2ord y m d = day + ymd2ord 1970 1 1
     /\ 0 <= sod / 3600 < 24 /\ 0 <= sod mod 3600 / 60 < 60
     /\ 0 <= sod mod 60 < 60)%Z
    /\ text = pad4 y +++ "-" +++ pad2 m +++ "-" +++ pad2 d +++ "T"
              +++ pad2 (sod / 3600) +++ ":" +++ pad2 (sod mod 3600 / 60)
              +++ ":" +++ pad2 (sod mod 60).
Proof.
  unfold _format_yt_timestamp. cbn [py_floordiv_1000 rbind].
  set (secs := (ms / 1000)%Z). intros Ht.
  apply utc_isoformat_ok in Ht as ([E1 E2] & y & m & d & Eymd & ->).
  pose proof (ord2ymd_correct (secs / 86400 + 719163) E1) as C.
  rewrite Eymd in C.
  destruct C as (Hy & Hm & Hd & Ho).
  exists y, m, d. split; [|reflexivity].
  change (ymd2ord 1970 1 1) with 719163%Z.
  assert (Hy' : (y <= 9999)%Z).
  { destruct (Z.le_gt_cases y 9999) as [L|G]; [exact L | exfalso].
    pose proof (days_before_year_mono y ltac:(lia)) as Hb.
    unfold ymd2ord, days_before_month_of in Ho.
    pose proof (days_before_month_nonneg m).
    assert (0 <= Z_of_bool ((2 <? m)%Z && is_leap y))%Z
      by (destruct ((2 <? m)%Z && is_leap y); simpl; lia).
    lia. }
  pose proof (Z.mod_pos_bound secs 86400 ltac:(lia)) as Hs.
  repeat split; try lia; try exact Ho.
  - apply Z.div_pos; lia.
  - apply Z.div_lt_upper_bound; lia.
  - apply Z.div_pos; [|lia]. apply Z.mod_pos_bound. lia.
  - apply Z.div_lt_upper_bound; [lia|].
    pose proof (Z.mod_pos_bound (secs mod 86400) 3600 ltac:(lia)). lia.
  - apply Z.mod_pos_bound. lia.
  - apply Z.mod_pos_bound. lia.
Qed.

(** ** Numbers in URLs *)

Lemma digit_value (z : Z) :
  (Z.of_N (N_of_ascii (digit z)) - 48 = z mod 10)%Z.
Proof.
  unfold digit. pose proof (Z.mod_pos_bound z 10 ltac:(lia)) as B.
  destruct (z mod 10)%Z as [|p|p]; try reflexivity; [|lia].
  destruct p as [p|p|]; try reflexivity;
    destruct p as [p|p|]; try reflexivity;
    destruct p as [p|p|]; try reflexivity;
    destruct p as [p|p|]; try reflexivity; lia.
Qed.

Lemma digit_not_minus (z : Z) : digit z <> "-"%char.
Proof.
  unfold digit. destruct (z mod 10)%Z as [|p|p]; try discriminate.
  destruct p as [p|p|]; try discriminate;
    destruct p as [p|p|]; try discriminate;
    destruct p as [p|p|]; try discriminate;
    destruct p as [p|p|]; discriminate.
Qed.

Lemma pos_digits_value (fuel : nat) :
  forall z acc,
  (0 <= z < 2 ^ Z.of_nat fuel)%Z ->
  decimal_from 0 (pos_digits fuel z acc) = decimal_from z acc.
Proof.
  induction fuel as [|fuel IH]; intros z acc Hz.
  - simpl in *. now replace z with 0%Z by lia.
  - cbn [pos_digits]. destruct (Z.ltb_spec z 10) as [L|G].
    + cbn [decimal_from]. rewrite digit_value, Z.mod_small by lia.
      now rewrite Z.mul_0_r.
    + rewrite IH.
      * cbn [decimal_from]. rewrite digit_value. f_equal.
        pose proof (Z.div_mod z 10 ltac:(lia)). lia.
      * rewrite Nat2Z.inj_succ, Z.pow_succ_r in Hz by lia.
        split; [apply Z.div_pos; lia|].
        apply Z.div_lt_upper_bound; lia.
Qed.

Lemma pos_digits_head (fuel : nat) :
  forall z acc,
  exists c rest,
    pos_digits (S fuel) z acc = String c rest /\ c <> "-"%char.
Proof.
  induction fuel as [|fuel IH]; intros z acc.
  - cbn [pos_digits]. destruct (z <? 10)%Z;
      exists (digit z), acc; split; try reflexivity; apply digit_not_minus.
  - change (pos_digits (S (S fuel)) z acc)
      with (if (z <? 10)%Z then String (digit z) acc
            else pos_digits (S fuel) (z / 10) (String (digit z) acc)).
    destruct (z <? 10)%Z; [|apply IH].
    exists (digit z), acc. split; [reflexivity | apply digit_not_minus].
Qed.

Lemma py_int_str (z : Z) : py_int (str_of_Z z) = z.
Proof.
  unfold str_of_Z. destruct (Z.ltb_spec z 0) as [N|P].
  - cbn [py_int]. rewrite pos_digits_value; [simpl; lia|].
    split; [lia|]. rewrite Nat2Z.inj_succ, Z2Nat.id by apply Z.log2_nonneg.
    apply Z.log2_spec. lia.
  - destruct (pos_digits_head (Z.to_nat (Z.log2 z)) z "") as (c & rest & E & Hc).
    assert (V : decimal_from 0 (pos_digits (S (Z.to_nat (Z.log2 z))) z "") = z).
    { rewrite pos_digits_value; [reflexivity|].
      rewrite Nat2Z.inj_succ, Z2Nat.id by apply Z.log2_nonneg.
      destruct (Z.eq_dec z 0) as [->|Hz]; [simpl; lia|].
      split; [lia|]. apply Z.log2_spec. lia. }
    rewrite E in *. unfold py_int.
    destruct c as [[|] [|] [|] [|] [|] [|] [|] [|]]; try exact V.
    now elim Hc.
Qed.

Lemma append_inv_tail (a b t : string) : a +++ t = b +++ t -> a = b.
Proof.
  revert b; induction a as [|x a IH]; intros [|y b] H.
  - reflexivity.
  - exfalso. apply (f_equal String.length) in H.
    rewrite !append_length in H. simpl in H. lia.
  - exfalso. apply (f_equal String.length) in H.
    rewrite !append_length in H. simpl in H. lia.
  - simpl in H. injection H as -> H. now rewrite (IH _ H).
Qed.

Lemma append_inv_head (p a b : string) : p +++ a = p +++ b -> a = b.
Proof. induction p as [|x p IH]; simpl; [auto | intros [= H]; auto]. Qed.

(** X14: a number is written into a URL in decimal, and reading the
    decimal text gives the number back; so the deferred patches, the
    comments and the links of two work items with different integer
    identifiers go to different URLs. *)
Theorem integer_ids_give_distinct_urls (py_repr : pyval -> string)
    (self : Migrator) (a b : Z) :
  py_int (py_str py_repr (PInt a)) = a
  /\ (forall ops ops',
        req_url (patch_request py_repr self (PInt a) ops)
        = req_url (patch_request py_repr self (PInt b) ops') -> a = b)
  /\ (forall text text',
        req_url (comment_request py_repr self (PInt a) text)
        = req_url (comment_request py_repr self (PInt b) text') -> a = b)
  /\ (forall url name url' name',
        req_url (link_request py_repr self (PInt a) url name)
        = req_url (link_request py_repr self (PInt b) url' name') -> a = b).
Proof.
  assert (I : forall post, str_of_Z a +++ post = str_of_Z b +++ post -> a = b).
  { intros post H. apply append_inv_tail in H.
    rewrite <- (py_int_str a), <- (py_int_str b). now rewrite H. }
  split; [apply py_int_str|]. split; [|split].
  - intros ops ops' H. unfold patch_request in H. cbn [req_url py_str] in H.
    apply append_inv_head in H. apply append_inv_head in H. exact (I _ H).
  - intros text text' H. unfold comment_request in H. cbn [req_url py_str] in H.
    apply append_inv_head in H. apply append_inv_head in H. exact (I _ H).
  - intros url name url' name' H. unfold link_request in H.
    cbn [req_url py_str] in H.
    apply append_inv_head in H. apply append_inv_head in H. exact (I _ H).
Qed.

(** ** The work item that is written to *)

Lemma str_of_Z_inj (a b : Z) : str_of_Z a = str_of_Z b -> a = b.
Proof.
  intros E. rewrite <- (py_int_str a), <- (py_int_str b). now rewrite E.
Qed.

Lemma work_item_url_inj (base before after : string) (a b : Z) :
  base +++ before +++ str_of_Z a +++ after
  = base +++ before +++ str_of_Z b +++ after ->
  a = b.
Proof.
  intros E. apply append_inv_head, append_inv_head, append_inv_tail in E.
  now apply str_of_Z_inj.
Qed.

Section Created.

Variable py_repr : pyval -> string.
Variable env : oracle.

(** X7: once the creation has answered with an identifier, every later
    request of [migrate_issue] is the deferred patch of that work item, a
    comment on it, an upload, or a link added to it, each under the URL
    written with that identifier; when the identifier is an integer, no
    patch, comment or link goes to the URL of a work item with another
    number. *)
Theorem writes_address_created_item (self : Migrator) (yt_id yt_data res wid : pyval)
    (handler : CustomFieldHandler) (ops : list pyval * list pyval)
    (tr : list event) :
  env tr (issue_request py_repr self yt_id) = Responds (Some yt_data) ->
  compose_ops py_repr self yt_id yt_data handler = Ok ops ->
  env (tr ++ [EvHttp (issue_request py_repr self yt_id)])
    (create_request self (fst ops)) = Responds (Some res) ->
  py_contains "id" res = Ok true ->
  py_getitem res "id" = Ok wid ->
  exists evs,
    snd (migrate_issue py_repr env self yt_id handler tr)
    = tr ++ [EvHttp (issue_request py_repr self yt_id);
             EvHttp (create_request self (fst ops))] ++ evs
    /\ Forall (addressed_to py_repr self wid) evs
    /\ forall a,
         wid = PInt a ->
         forall req b,
           In (EvHttp req) evs ->
           (req_method req = PATCH
            /\ (req_url req = ado_base self +++ "/workitems/" +++ str_of_Z b
                              +++ "?api-version=6.0"
                \/ req_url req = ado_base self +++ "/workItems/" +++ str_of_Z b
                                 +++ "?api-version=6.0"))
           \/ (req_method req = POST
               /\ req_url req = ado_base self +++ "/workItems/" +++ str_of_Z b
                                +++ "/comments?api-version=6.0-preview.3") ->
           b = a.
Proof.
  intros Hf Ho Hc Hi Hw.
  assert (Hrun : exists evs,
            snd (migrate_issue py_repr env self yt_id handler tr)
            = tr ++ [EvHttp (issue_request py_repr self yt_id);
                     EvHttp (create_request self (fst ops))] ++ evs
            /\ Forall (addressed_to py_repr self wid) evs).
  { unfold migrate_issue, migrate_fetched, _youtrack_issue_data.
    unfold bind at 1. unfold bind at 1. unfold http at 1. rewrite Hf.
    cbn [json ret]. unfold bind at 1. unfold lift at 1. rewrite Ho.
    unfold bind at 1. unfold http at 1. rewrite Hc.
    unfold bind at 1. cbn [json ret]. unfold bind at 1. unfold lift at 1.
    rewrite Hi. cbn [negb]. unfold bind at 1. unfold lift at 1. rewrite Hw.
    destruct (after_creation_sends py_repr env (addressed_to py_repr self wid)
                self yt_id yt_data wid (snd ops)) with
      (tr := (tr ++ [EvHttp (issue_request py_repr self yt_id)])
               ++ [EvHttp (create_request self (fst ops))])
      as (evs & E & F).
    - intros o. eexists. split; [reflexivity|]. left. now split.
    - intros text. eexists. split; [reflexivity|]. right. left. now split.
    - intros d. eexists. split; [reflexivity|]. right. right. left. now split.
    - intros url name. eexists. split; [reflexivity|]. right. right. right.
      now split.
    - exists evs. rewrite E, <- !app_assoc. split; [reflexivity | exact F]. }
  destruct Hrun as (evs & Htr & F). exists evs.
  split; [exact Htr|]. split; [exact F|].
  intros a -> req b Hin Hb.
  rewrite Forall_forall in F. destruct (F _ Hin) as (req' & [= <-] & Ha).
  cbn [py_str] in Ha.
  destruct Ha as [[Hm Hu]|[[Hm Hu]|[[Hm Hu]|[Hm Hu]]]];
    destruct Hb as [[Hm' [Hu'|Hu']]|[Hm' Hu']];
    try congruence; rewrite Hu in Hu'; symmetry.
  - exact (work_item_url_inj _ "/workitems/" _ _ _ Hu').
  - apply append_inv_head in Hu'. discriminate Hu'.
  - exact (work_item_url_inj _ "/workItems/" _ _ _ Hu').
  - apply append_inv_head in Hu'. discriminate Hu'.
  - apply append_inv_head in Hu'. discriminate Hu'.
  - exact (work_item_url_inj _ "/workItems/" _ _ _ Hu').
Qed.

End Created.

(** ** Answers and payloads of an unexpected shape *)

Lemma a2b_base64_error (s : string) :
  forall quad_pos leftchar pads e,
  a2b_base64 s quad_pos leftchar pads = Err e -> e = ValueError.
Proof.
  induction s as [|c s IH]; intros q l p e H; cbn [a2b_base64] in H.
  - destruct (q =? 0)%Z; [discriminate | now injection H as <-].
  - destruct (Ascii.eqb c "=").
    + destruct (2 <=? q)%Z; [|now apply IH in H].
      destruct (4 <=? q + (p + 1))%Z; [discriminate | now apply IH in H].
    + destruct (index_of c b64_alphabet) as [v|]; [|now apply IH in H].
      assert (R : forall r (k : Byte.byte),
                 (forall e', r = Err e' -> e' = ValueError) ->
                 (let? out := r in Ok (k :: out))%result = Err e ->
                 e = ValueError).
      { intros r k Hr Hk. destruct r as [out|e']; [discriminate|].
        injection Hk as <-. now apply Hr. }
      destruct q as [|q|q]; [now apply IH in H | |].
      * destruct q as [q|q|]; [| destruct q as [q|q|] |];
          (eapply R; [|exact H]); intros e'; apply IH.
      * (eapply R; [|exact H]); intros e'; apply IH.
Qed.

Section Shapes.

Variable py_repr : pyval -> string.
Variable env : oracle.

(** X15: the test for the identifier is Python's [in].  When the body of
    the creation response is [null], a boolean or a number, or a text
    that holds [id], or a list that holds the text [id], [migrate_issue]
    raises [TypeError] and not the [RuntimeError] that names the issue;
    as in that case, the creation call is the last request. *)
Theorem creation_answer_not_an_object (self : Migrator) (yt_id yt_data res : pyval)
    (handler : CustomFieldHandler) (ops : list pyval * list pyval)
    (tr : list event) :
  env tr (issue_request py_repr self yt_id) = Responds (Some yt_data) ->
  compose_ops py_repr self yt_id yt_data handler = Ok ops ->
  env (tr ++ [EvHttp (issue_request py_repr self yt_id)])
    (create_request self (fst ops)) = Responds (Some res) ->
  match res with
  | PNone | PBool _ | PInt _ => True
  | PStr s => substringb "id" s = true
  | PList l => existsb (is_str "id") l = true
  | PDict _ => False
  end ->
  migrate_issue py_repr env self yt_id handler tr
  = (Err TypeError,
     tr ++ [EvHttp (issue_request py_repr self yt_id);
            EvHttp (create_request self (fst ops))]).
Proof.
  intros Hf Ho Hc Hres.
  unfold migrate_issue, migrate_fetched, _youtrack_issue_data,
    bind, http, json, lift, raise, ret.
  rewrite Hf, Ho, Hc.
  destruct res as [|b|z|s|l|d]; cbn [py_contains py_getitem negb];
    try rewrite Hres; cbn [negb]; try contradiction;
    now rewrite <- app_assoc.
Qed.

(** X16: when the name or the bytes of an attachment cannot be had, the
    body of the loop raises before any request is sent for the
    attachment: [KeyError] for a missing [name] or [base64Content],
    [TypeError] for an attachment that is not an object, [AttributeError]
    for a payload that is not text, [IndexError] for a payload without a
    comma, [ValueError] for a second part that is not base64. *)
Theorem undecodable_attachment_sends_nothing (self : Migrator)
    (wid attachment : pyval) (e : exn) (tr : list event) :
  attachment_content attachment = Err e ->
  migrate_attachment py_repr env self wid attachment tr = (Err e, tr)
  /\ (e = KeyError \/ e = TypeError \/ e = AttributeError \/ e = IndexError
      \/ e = ValueError).
Proof.
  intros H. split.
  - unfold migrate_attachment, bind, lift. now rewrite H.
  - unfold attachment_content in H.
    destruct (py_getitem attachment "name") as [name|e1] eqn:E1.
    2:{ injection H as <-. unfold py_getitem in E1.
        destruct attachment as [| | | | |d]; try (injection E1 as <-; auto).
        destruct (assoc "name" d); [discriminate | injection E1 as <-; auto]. }
    cbn [rbind] in H.
    destruct (py_getitem attachment "base64Content") as [content|e2] eqn:E2.
    2:{ injection H as <-. unfold py_getitem in E2.
        destruct attachment as [| | | | |d]; try (injection E2 as <-; auto).
        destruct (assoc "base64Content" d);
          [discriminate | injection E2 as <-; auto]. }
    cbn [rbind] in H.
    destruct content as [| | |s| |]; try (injection H as <-; auto 6).
    cbn [py_split_comma rbind] in H. unfold py_index in H.
    destruct (nth_error (py_split comma s) 1) as [field|];
      [|injection H as <-; auto 6].
    cbn [rbind] in H. unfold b64decode in H.
    destruct (all_ascii field).
    + destruct (a2b_base64 field 0 0 0) as [decoded|e3] eqn:E3;
        [discriminate|].
      cbn [rbind] in H. injection H as <-.
      apply a2b_base64_error in E3. auto 6.
    + cbn [rbind] in H. injection H as <-. auto 6.
Qed.

End Shapes.

(** ** Examples of the further properties *)

Lemma custom_field_dict_lookup_witness :
  exists fields,
    _build_custom_field_dict fields_issue = Ok fields
    /\ dict_get (PStr "Priority") fields = Some (PStr "Minor")
    /\ List.length fields = 2.
Proof.
  eexists. split; [reflexivity|].
  destruct (custom_field_dict_lookup fields_issue _ eq_refl)
    as (items & Hitems & Hlookup & _).
  split; [|reflexivity]. rewrite Hlookup.
  injection Hitems as <-. reflexivity.
Defined.

Lemma custom_field_dict_defined_witness :
  _build_custom_field_dict broken_fields_issue = Err KeyError.
Proof.
  destruct (custom_field_dict_defined broken_fields_issue _ eq_refl)
    as [_ Hfirst].
  apply (Hfirst [PDict [("name", PStr "State"); ("value", PStr "Open")]]
           broken_field [] KeyError).
  - reflexivity.
  - constructor; [|constructor]. exists (PStr "State", PStr "Open"). reflexivity.
  - reflexivity.
Defined.

Lemma custom_fields_agrees_witness :
  custom_fields sample_repr sample_env sample_migrator (PStr "X-1") []
  = (Ok [], [EvHttp (issue_request sample_repr sample_migrator (PStr "X-1"))]).
Proof.
  exact (proj1 (custom_fields_agrees sample_repr sample_env sample_migrator
                  (PStr "X-1") sample_issue [] eq_refl)).
Defined.

Lemma read_failure_writes_nothing_witness :
  migrate_issue sample_repr sample_env sample_migrator (PStr "X-1")
    failing_handler []
  = (Err (OtherError "unknown state"),
     [EvHttp (issue_request sample_repr sample_migrator (PStr "X-1"))]).
Proof.
  destruct (read_failure_writes_nothing sample_repr sample_env sample_migrator
              (PStr "X-1") failing_handler []) as (_ & _ & Hcompose & Hhandler).
  apply (Hcompose sample_issue); [reflexivity|].
  apply (Hhandler sample_issue [] (x1_create_ops sample_migrator, []));
    [vm_compute; reflexivity | reflexivity | reflexivity].
Defined.

Lemma retry_creates_again_witness :
  exists a b c ops,
    snd (retry_migrate_issue sample_repr duplicate_env 2 sample_migrator
           (PStr "X-2") no_assignments [])
    = [] ++ a ++ EvHttp (create_request sample_migrator ops)
         :: b ++ EvHttp (create_request sample_migrator ops) :: c.
Proof.
  edestruct (retry_creates_again sample_repr duplicate_env sample_migrator
               (PStr "X-2") no_assignments 0 []
               (snd (migrate_issue sample_repr duplicate_env sample_migrator
                       (PStr "X-2") no_assignments []))
               JSONDecodeError full_issue full_issue)
    as (a & b & c & H).
  - vm_compute. reflexivity.
  - reflexivity.
  - reflexivity.
  - vm_compute. reflexivity.
  - vm_compute. reflexivity.
  - vm_compute. reflexivity.
  - exists a, b, c. eexists. exact H.
Defined.

Lemma requests_keep_credentials_apart_witness :
  auth_header_youtrack token_migrator = Some ("Bearer " +++ "perm:abc")
  /\ appends (request_ok token_migrator)
       (migrate_issue sample_repr full_env token_migrator (PStr "X-2")
          no_assignments).
Proof.
  destruct (requests_keep_credentials_apart sample_repr full_env
              "pat" "https://yt.example" "https://dev.azure.com/org" "proj"
              (Some "perm:abc") token_migrator eq_refl)
    as (_ & Hyt & _ & _ & Hissue & _).
  split; [exact Hyt | apply Hissue].
Defined.

Lemma writes_address_created_item_witness :
  exists evs,
    snd (migrate_issue sample_repr full_env sample_migrator (PStr "X-2")
           no_assignments [])
    = [] ++ [EvHttp (issue_request sample_repr sample_migrator (PStr "X-2"));
             EvHttp (create_request sample_migrator
                       (fst (fold_left append_custom_op []
                               ([_set_field "System.Title" (PStr "Logs");
                                 _set_field "System.Description"
                                   (PStr (description_text sample_repr
                                            sample_migrator (PStr "X-2")
                                            (PStr "bob") "2023-11-14T22:13:20"
                                            (PStr "See file")))], []))))]
         ++ evs
    /\ Forall (addressed_to sample_repr sample_migrator (PInt 7)) evs
    /\ forall a,
         PInt 7 = PInt a ->
         forall req b,
           In (EvHttp req) evs ->
           (req_method req = PATCH
            /\ (req_url req = ado_base sample_migrator +++ "/workitems/"
                              +++ str_of_Z b +++ "?api-version=6.0"
                \/ req_url req = ado_base sample_migrator +++ "/workItems/"
                                 +++ str_of_Z b +++ "?api-version=6.0"))
           \/ (req_method req = POST
               /\ req_url req = ado_base sample_migrator +++ "/workItems/"
                                +++ str_of_Z b
                                +++ "/comments?api-version=6.0-preview.3") ->
           b = a.
Proof.
  apply (writes_address_created_item sample_repr full_env sample_migrator
           (PStr "X-2") full_issue (PDict [("id", PInt 7)]) (PInt 7)
           no_assignments); reflexivity.
Defined.

Lemma malformed_comment_blocks_attachments_witness :
  exists e' texts,
    after_creation sample_repr sample_env sample_migrator (PStr "X-3")
      authorless_issue (PInt 7) [] []
    = (Err e',
       [] ++ EvHttp (patch_request sample_repr sample_migrator (PInt 7) [])
          :: map (comment_event sample_repr sample_migrator (PInt 7)) texts)
    /\ List.length texts < 1.
Proof.
  apply (malformed_comment_blocks_attachments sample_repr sample_env
           sample_migrator (PStr "X-3") authorless_issue (PInt 7)
           authorless_comment KeyError [authorless_comment] [] []).
  - reflexivity.
  - left. reflexivity.
  - reflexivity.
Defined.

Lemma upload_without_url_witness :
  migrate_attachment sample_repr (scripted [accepted]) sample_migrator (PInt 7)
    data_uri_attachment []
  = (Err KeyError,
     [] ++ [EvHttp (upload_request sample_migrator [Byte.x41; Byte.x42; Byte.x43])]).
Proof.
  destruct (upload_without_url_is_not_linked sample_repr (scripted [accepted])
              sample_migrator (PInt 7) data_uri_attachment (PStr "log.txt")
              [Byte.x41; Byte.x42; Byte.x43] [] eq_refl) as [Hurl _].
  exact (proj1 (Hurl (PDict []) KeyError eq_refl eq_refl)).
Defined.

Lemma listing_edge_cases_witness :
  migrate_project sample_repr undecodable_env 0 sample_migrator "X"
    no_assignments 10000 []
  = (Some (Err JSONDecodeError),
     [] ++ [EvHttp (list_request sample_migrator "X" 10000)]).
Proof.
  destruct (listing_edge_cases sample_repr undecodable_env sample_migrator "X"
              no_assignments 10000 0 []) as (_ & Hdecode & _).
  exact (Hdecode eq_refl).
Defined.

Lemma format_yt_timestamp_defined_witness :
  (exists e,
     _format_yt_timestamp (PInt 253402300800000) = Err e
     /\ e <> JSONDecodeError
     /\ (e = OverflowError
         <-> ~ (- 2 ^ 63 <= 253402300800000 / 1000 < 2 ^ 63)%Z)
     /\ (e = OSError
         <-> (- 2 ^ 63 <= 253402300800000 / 1000 < -67768040609740800
              \/ 67768036191676800 <= 253402300800000 / 1000 < 2 ^ 63)%Z)
     /\ (e = ValueError
         <-> (-67768040609740800 <= 253402300800000 / 1000
              < 67768036191676800)%Z))
  /\ _format_yt_timestamp (PInt 1700000000999)
     = _format_yt_timestamp (PInt 1700000000000).
Proof.
  destruct (format_yt_timestamp_defined 253402300800000) as (_ & Hout & _).
  destruct (format_yt_timestamp_defined 1700000000000) as (_ & _ & _ & Hsame & _).
  split; [apply Hout; lia | apply Hsame; reflexivity].
Defined.

Lemma azdo_header_round_trip_witness :
  exists self encoded,
    Migrator_init "pat" "https://yt.example" "https://dev.azure.com/org" "proj" None
    = Ok self
    /\ auth_header_azdo self = "Basic " +++ encoded
    /\ b64decode encoded = Ok (list_byte_of_string (":" +++ "pat"))
    /\ yt_base self = "https://yt.example"
    /\ ado_base self = "https://dev.azure.com/org" +++ "/" +++ "proj" +++ "/_apis/wit".
Proof.
  exact (proj1 (azdo_header_round_trip "pat" "https://yt.example"
                  "https://dev.azure.com/org" "proj" None) eq_refl).
Defined.

Lemma rendered_date_is_the_day_witness :
  exists y m d,
    (1 <= y <= 9999 /\ 1 <= m <= 12 /\ 1 <= d <= days_in_month_of y m
     /\ ymd2ord y m d = 1700000000000 / 1000 / 86400 + ymd2ord 1970 1 1
     /\ 0 <= (1700000000000 / 1000) mod 86400 / 3600 < 24
     /\ 0 <= ((1700000000000 / 1000) mod 86400) mod 3600 / 60 < 60
     /\ 0 <= ((1700000000000 / 1000) mod 86400) mod 60 < 60)%Z
    /\ "2023-11-14T22:13:20"
       = pad4 y +++ "-" +++ pad2 m +++ "-" +++ pad2 d +++ "T"
         +++ pad2 ((1700000000000 / 1000) mod 86400 / 3600) +++ ":"
         +++ pad2 (((1700000000000 / 1000) mod 86400) mod 3600 / 60) +++ ":"
         +++ pad2 (((1700000000000 / 1000) mod 86400) mod 60).
Proof.
  exact (rendered_date_is_the_day 1700000000000 "2023-11-14T22:13:20" eq_refl).
Defined.

Lemma integer_ids_give_distinct_urls_witness :
  py_int (py_str sample_repr (PInt (-45))) = (-45)%Z.
Proof.
  exact (proj1 (integer_ids_give_distinct_urls sample_repr sample_migrator
                  (-45) 7)).
Defined.

Lemma creation_answer_not_an_object_witness :
  migrate_issue sample_repr text_answer_env sample_migrator (PStr "X-1")
    no_assignments []
  = (Err TypeError,
     [] ++ [EvHttp (issue_request sample_repr sample_migrator (PStr "X-1"));
            EvHttp (create_request sample_migrator
                      (fst (x1_create_ops sample_migrator, @nil pyval)))]).
Proof.
  apply (creation_answer_not_an_object sample_repr text_answer_env
           sample_migrator (PStr "X-1") sample_issue (PStr "invalid request")
           no_assignments (x1_create_ops sample_migrator, [])).
  - reflexivity.
  - vm_compute. reflexivity.
  - vm_compute. reflexivity.
  - reflexivity.
Defined.

Lemma undecodable_attachment_witness :
  migrate_attachment sample_repr sample_env sample_migrator (PInt 7)
    bare_attachment []
  = (Err IndexError, []).
Proof.
  exact (proj1 (undecodable_attachment_sends_nothing sample_repr sample_env
                  sample_migrator (PInt 7) bare_attachment IndexError []
                  eq_refl)).
Defined.
